(** * The parity-streak release gate (scripts/parity_streak_gate.py)

    A shallow embedding of the gate script and the properties its
    specification states about it.  The script is a sequential Python
    program: it reads its configuration from the environment, asks the CI
    provider for the latest completed runs of the nightly workflow, loads the
    journey report attached to each of the first [required_streak] runs and
    decides pass or fail.

    Python is dynamically typed, so the values decoded from JSON are modelled
    by one type [pyval] and every operation the script applies to them is
    given on all of it, raising the exception Python raises when the value
    has the wrong shape.  Effects (HTTP requests, the two output streams) are
    threaded through an explicit [world]; exceptions are results. *)

From Stdlib Require Import ZArith List String Ascii Bool Lia.
From Stdlib Require Import Floats.SpecFloat.
Import ListNotations.

Local Open Scope string_scope.
Local Open Scope Z_scope.

#[local] Set Warnings "-register-all".

(** ** Python values *)

(** What [json.loads] can return.  [PStr] holds the text in its UTF-8
    encoding, one [ascii] per byte.  A [dict] is kept as the list of its
    items in insertion order (Python dicts are ordered); the keys of a dict
    built by [json.loads] are strings and pairwise distinct. *)
Inductive pyval : Type :=
| PNone
| PBool (b : bool)
| PInt (z : Z)
| PFloat (f : spec_float)
| PStr (s : string)
| PList (l : list pyval)
| PDict (d : list (string * pyval)).

(** Formatted text.  An f-string is a sequence of literal fragments and of
    interpolated values; [Fmt v] stands for [format(v, "")], the text
    [str(v)] of the value. *)
Inductive piece : Type :=
| Lit (s : string)
| Fmt (v : pyval).

Definition text := list piece.

(** An exception: its class and [str(exc)]. *)
Record exn : Type := mkExn { exn_class : string; exn_str : text }.

(** The outcome of evaluating a Python expression or call. *)
Inductive result (A : Type) : Type :=
| Ok (a : A)
| Raise (e : exn).
Arguments Ok {A} a.
Arguments Raise {A} e.

Definition type_name (v : pyval) : string :=
  match v with
  | PNone => "NoneType"
  | PBool _ => "bool"
  | PInt _ => "int"
  | PFloat _ => "float"
  | PStr _ => "str"
  | PList _ => "list"
  | PDict _ => "dict"
  end.

Definition AttributeError (v : pyval) (attr : string) : exn :=
  mkExn "AttributeError"
        [Lit ("'" ++ type_name v ++ "' object has no attribute '" ++ attr ++ "'")].

Definition TypeError (msg : string) : exn := mkExn "TypeError" [Lit msg].

Definition KeyError (key : string) : exn :=
  mkExn "KeyError" [Lit ("'" ++ key ++ "'")].

Definition RuntimeError (msg : text) : exn := mkExn "RuntimeError" msg.

(** *** Dictionaries *)

Fixpoint dict_lookup (key : string) (d : list (string * pyval)) : option pyval :=
  match d with
  | [] => None
  | (k, v) :: rest => if String.eqb k key then Some v else dict_lookup key rest
  end.

Definition dict_values (d : list (string * pyval)) : list pyval := map snd d.

(** [obj.get(key, default)]: only a dict has the method among JSON values. *)
Definition py_get (obj : pyval) (key : string) (default : pyval) : result pyval :=
  match obj with
  | PDict d => Ok (match dict_lookup key d with Some v => v | None => default end)
  | _ => Raise (AttributeError obj "get")
  end.

(** [obj[key]] with a string key. *)
Definition py_getitem (obj : pyval) (key : string) : result pyval :=
  match obj with
  | PDict d =>
      match dict_lookup key d with
      | Some v => Ok v
      | None => Raise (KeyError key)
      end
  | PStr _ => Raise (TypeError "string indices must be integers, not 'str'")
  | PList _ => Raise (TypeError "list indices must be integers or slices, not str")
  | _ => Raise (TypeError ("'" ++ type_name obj ++ "' object is not subscriptable"))
  end.

(** *** Truth value, identity and equality *)

(** [bool(v)]. *)
Definition py_bool (v : pyval) : bool :=
  match v with
  | PNone => false
  | PBool b => b
  | PInt z => negb (z =? 0)
  | PFloat f => match f with S754_zero _ => false | _ => true end
  | PStr s => match s with EmptyString => false | _ => true end
  | PList l => match l with [] => false | _ => true end
  | PDict d => match d with [] => false | _ => true end
  end.

(** [v is False]: identity with the singleton [False]. *)
Definition is_False (v : pyval) : bool :=
  match v with
  | PBool false => true
  | _ => false
  end.

(** [v == s] for a string literal [s]: no other JSON value equals a [str]. *)
Definition eq_str (v : pyval) (s : string) : bool :=
  match v with
  | PStr t => String.eqb t s
  | _ => false
  end.

(** ** The report pass policy *)

(** [_report_passes], lines 54-60. *)
Definition _report_passes (report : pyval) : result bool :=
  match py_get report "overall_pass" PNone with
  | Raise e => Raise e
  | Ok overall =>
      if is_False overall then Ok false
      else
        match py_get report "required_journeys" PNone with
        | Raise e => Raise e
        | Ok required =>
            match required with
            | PDict journeys => Ok (forallb py_bool (dict_values journeys))
            | _ =>
                match py_get report "overall_pass" (PBool true) with
                | Raise e => Raise e
                | Ok v => Ok (py_bool v)
                end
            end
        end
  end.

(** ** Sequences: iteration, length, slicing *)

(** A byte of the form [10xxxxxx] continues a UTF-8 character. *)
Definition is_continuation (c : ascii) : bool :=
  let n := nat_of_ascii c in (128 <=? n)%nat && (n <? 192)%nat.

(** The characters (code points) of a text, each in its encoding. *)
Fixpoint utf8_chars (s : string) : list string :=
  match s with
  | EmptyString => []
  | String c rest =>
      let chs := utf8_chars rest in
      match rest with
      | String c' _ =>
          if is_continuation c' then
            match chs with
            | ch :: tl => String c ch :: tl
            | [] => [String c ""]
            end
          else String c "" :: chs
      | EmptyString => String c "" :: chs
      end
  end.

(** [iter(v)] run to exhaustion: the items a [for] or a generator sees. *)
Definition py_iter (v : pyval) : result (list pyval) :=
  match v with
  | PList l => Ok l
  | PStr s => Ok (map PStr (utf8_chars s))
  | PDict d => Ok (map (fun kv => PStr (fst kv)) d)
  | _ => Raise (TypeError ("'" ++ type_name v ++ "' object is not iterable"))
  end.

(** [len(v)]. *)
Definition py_len (v : pyval) : result Z :=
  match v with
  | PList l => Ok (Z.of_nat (List.length l))
  | PStr s => Ok (Z.of_nat (List.length (utf8_chars s)))
  | PDict d => Ok (Z.of_nat (List.length d))
  | _ => Raise (TypeError ("object of type '" ++ type_name v ++ "' has no len()"))
  end.

(** [l[:n]] on a list: the first [n] items, or all but the last [-n] when
    [n] is negative. *)
Definition slice_to {A : Type} (n : Z) (l : list A) : list A :=
  if 0 <=? n then firstn (Z.to_nat n) l
  else firstn (List.length l - Z.to_nat (- n))%nat l.

(** [v[:n]].  A dict rejects the slice as a key ([TypeError] up to
    Python 3.11, [KeyError] from 3.12 on, where slices are hashable). *)
Definition py_slice_to (v : pyval) (n : Z) : result pyval :=
  match v with
  | PList l => Ok (PList (slice_to n l))
  | PStr s => Ok (PStr (String.concat "" (slice_to n (utf8_chars s))))
  | PDict _ => Raise (TypeError "unhashable type: 'slice'")
  | _ => Raise (TypeError ("'" ++ type_name v ++ "' object is not subscriptable"))
  end.

(** [s.endswith(suffix)]. *)
Definition endswith (s suffix : string) : bool :=
  let n := String.length s in
  let m := String.length suffix in
  (m <=? n)%nat && String.eqb (substring (n - m) m s) suffix.

(** ** The world outside the script *)

Definition bytes := list Byte.byte.

(** A GET request as [urllib.request.Request(url, headers=...)] and
    [urlopen(req, timeout=...)] make it.  The URL is whatever value the
    caller passes; a value that is no URL is refused with an exception, which
    is one of the answers of [http_get] below. *)
Record request : Type := mkRequest {
  req_url : pyval;
  req_headers : list (string * string);
  req_timeout : Z
}.

(** What the script is run against: the network and the library functions
    it calls.  [http_get] is [urlopen] followed by [resp.read()]; its answer
    may depend on the requests made before.  Each function returns what the
    Python function returns or the exception it raises. *)
Record runtime : Type := mkRuntime {
  http_get : list request -> request -> result bytes;
  decode_utf8 : bytes -> result string;           (* bytes.decode("utf-8") *)
  json_loads : string -> result pyval;            (* json.loads *)
  zip_namelist : bytes -> result (list string);   (* ZipFile(BytesIO(b)).namelist() *)
  zip_read : bytes -> string -> result bytes;     (* zf.read(name) *)
  int_of_str : string -> result Z;                (* int(s) *)
  encode_error : string -> exn   (* what s.encode("utf-8") raises when it does *)
}.

(** The observable state: the requests attempted so far, oldest first, and
    what was written on each stream, one entry per [print] call and one for
    the report of an uncaught exception.  An entry is one line of output
    when the values interpolated into it hold no newline; the report of an
    uncaught exception spans several lines. *)
Record world : Type := mkWorld {
  requests : list request;
  stdout : list text;
  stderr : list text
}.

Definition initial_world : world := mkWorld [] [] [].

Definition log_request (r : request) (w : world) : world :=
  mkWorld (requests w ++ [r]) (stdout w) (stderr w).

Definition write_stdout (line : text) (w : world) : world :=
  mkWorld (requests w) (stdout w ++ [line]) (stderr w).

Definition write_stderr (line : text) (w : world) : world :=
  mkWorld (requests w) (stdout w) (stderr w ++ [line]).

(** ** Computations: state and exceptions *)

Definition M (A : Type) : Type := world -> result A * world.

Definition ret {A : Type} (a : A) : M A := fun w => (Ok a, w).

Definition bind {A B : Type} (c : M A) (k : A -> M B) : M B :=
  fun w =>
    match c w with
    | (Ok a, w') => k a w'
    | (Raise e, w') => (Raise e, w')
    end.

Definition raise {A : Type} (e : exn) : M A := fun w => (Raise e, w).

(** A pure expression evaluated inside a computation. *)
Definition eval {A : Type} (r : result A) : M A := fun w => (r, w).

(** [try: c except Exception as exc: ...]: the outcome of [c] as a value.
    Every exception of the model derives from [Exception]. *)
Definition try {A : Type} (c : M A) : M (result A) :=
  fun w => let (r, w') := c w in (Ok r, w').

(** [print(line)] and [print(line, file=sys.stderr)]. *)
Definition print (line : text) : M unit := fun w => (Ok tt, write_stdout line w).
Definition eprint (line : text) : M unit := fun w => (Ok tt, write_stderr line w).

Declare Scope gate_scope.
Delimit Scope gate_scope with gate.
Notation "x <- c ;; k" := (bind c (fun x => k))
  (at level 61, c at next level, right associativity) : gate_scope.
Notation "c ;; k" := (bind c (fun _ => k))
  (at level 61, right associativity) : gate_scope.
Local Open Scope gate_scope.

(** ** URL quoting *)

(** The bytes [urllib.parse.quote] never escapes: letters, digits and
    [_.-~]. *)
Definition always_safe (c : ascii) : bool :=
  let n := nat_of_ascii c in
  ((65 <=? n) && (n <=? 90) || (97 <=? n) && (n <=? 122)
   || (48 <=? n) && (n <=? 57)
   || (n =? 95) || (n =? 46) || (n =? 45) || (n =? 126))%nat.

Definition hex_digit (n : nat) : ascii :=
  match String.get n "0123456789ABCDEF" with
  | Some c => c
  | None => "0"%char
  end.

(** ["%{:02X}".format(byte)]. *)
Definition percent_encode (c : ascii) : string :=
  let n := nat_of_ascii c in
  String "%" (String (hex_digit (n / 16)) (String (hex_digit (n mod 16)) "")).

(** [urllib.parse.quote(s, safe="")] on the UTF-8 encoding of [s]. *)
Fixpoint quote (s : string) : string :=
  match s with
  | EmptyString => ""
  | String c rest =>
      (if always_safe c then String c "" else percent_encode c) ++ quote rest
  end.

(** The texts that are the UTF-8 encoding of a sequence of code points, as
    Python's decoder accepts them: no overlong form, no surrogate, nothing
    above U+10FFFF.  A variable of the environment that is not such a text
    is read (under a UTF-8 locale) as a [str] with lone surrogates, which
    cannot be encoded back. *)
Definition continuation_in (lo hi : nat) (c : ascii) : bool :=
  let n := nat_of_ascii c in ((lo <=? n) && (n <=? hi))%nat.

Fixpoint valid_utf8 (s : string) : bool :=
  match s with
  | EmptyString => true
  | String a r1 =>
      let x := nat_of_ascii a in
      if (x <? 128)%nat then valid_utf8 r1
      else
        match r1 with
        | EmptyString => false
        | String b r2 =>
            if ((194 <=? x) && (x <=? 223))%nat then
              continuation_in 128 191 b && valid_utf8 r2
            else
              match r2 with
              | EmptyString => false
              | String c r3 =>
                  if ((224 <=? x) && (x <=? 239))%nat then
                    continuation_in (if (x =? 224)%nat then 160 else 128)
                                    (if (x =? 237)%nat then 159 else 191) b
                    && continuation_in 128 191 c && valid_utf8 r3
                  else
                    match r3 with
                    | EmptyString => false
                    | String d r4 =>
                        ((240 <=? x) && (x <=? 244))%nat
                        && continuation_in (if (x =? 240)%nat then 144 else 128)
                                           (if (x =? 244)%nat then 143 else 191) b
                        && continuation_in 128 191 c
                        && continuation_in 128 191 d && valid_utf8 r4
                    end
              end
        end
  end.

(** ** The script *)

Section Gate.

Variable rt : runtime.

(** [_headers], lines 15-21. *)
Definition _headers (token : string) : list (string * string) :=
  [ ("Accept", "application/vnd.github+json");
    ("Authorization", "Bearer " ++ token);
    ("X-GitHub-Api-Version", "2022-11-28");
    ("User-Agent", "deepseek-parity-streak-gate") ].

(** [urlopen(req, timeout=t)] and [resp.read()]: the request is logged and
    the world answers.  The log holds the attempts: an attempt that is
    refused before anything is sent (a value that is no URL, a URL that
    cannot be sent) is in the log with the exception as its answer. *)
Definition urlopen_read (req : request) : M bytes :=
  fun w => (http_get rt (requests w) req, log_request req w).

(** [_get_json], lines 24-27. *)
Definition _get_json (url : pyval) (token : string) : M pyval :=
  body <- urlopen_read (mkRequest url (_headers token) 30) ;;
  decoded <- eval (decode_utf8 rt body) ;;
  eval (json_loads rt decoded).

(** [_download_bytes], lines 30-33. *)
Definition _download_bytes (url : pyval) (token : string) : M bytes :=
  urlopen_read (mkRequest url (_headers token) 60).

(** [next((a for a in artifacts if a.get("name") == "parity-journey-report"),
    None)], line 38: the items are visited in order up to the first match. *)
Fixpoint find_artifact (artifacts : list pyval) : result (option pyval) :=
  match artifacts with
  | [] => Ok None
  | a :: rest =>
      match py_get a "name" PNone with
      | Raise e => Raise e
      | Ok name =>
          if eq_str name "parity-journey-report" then Ok (Some a)
          else find_artifact rest
      end
  end.

(** [next((n for n in names if n.endswith("parity_journey_report.json")),
    None)], line 45. *)
Definition find_report_name (names : list string) : option string :=
  find (fun n => endswith n "parity_journey_report.json") names.

(** [_load_report_from_run], lines 36-51. *)
Definition _load_report_from_run (repo : string) (run : pyval) (token : string)
  : M pyval :=
  artifacts_url <- eval (py_getitem run "artifacts_url") ;;
  listing <- _get_json artifacts_url token ;;
  artifacts <- eval (py_get listing "artifacts" (PList [])) ;;
  items <- eval (py_iter artifacts) ;;
  artifact <- eval (find_artifact items) ;;
  match artifact with
  | None =>
      run_id <- eval (py_get run "id" PNone) ;;
      raise (RuntimeError
               [Lit "run "; Fmt run_id; Lit " missing parity-journey-report artifact"])
  | Some artifact =>
      download_url <- eval (py_getitem artifact "archive_download_url") ;;
      archive <- _download_bytes download_url token ;;
      names <- eval (zip_namelist rt archive) ;;
      match find_report_name names with
      | None =>
          run_id <- eval (py_get run "id" PNone) ;;
          raise (RuntimeError
                   [Lit "run "; Fmt run_id;
                    Lit " artifact missing parity_journey_report.json"])
      | Some report_name =>
          raw <- eval (zip_read rt archive report_name) ;;
          payload <- eval (decode_utf8 rt raw) ;;
          eval (json_loads rt payload)
      end
  end.

(** The body of the [for] loop of [main], lines 94-114, for the run at
    index [idx].  [Some code] is a [return code]; [None] means the body ran
    to its end. *)
Definition evaluate_run (repo token : string) (idx : Z) (run : pyval)
  : M (option Z) :=
  run_id <- eval (py_get run "id" PNone) ;;
  conclusion <- eval (py_get run "conclusion" PNone) ;;
  if negb (eq_str conclusion "success") then
    eprint [Lit "Parity streak gate failed: run #"; Fmt (PInt idx);
            Lit " (id="; Fmt run_id; Lit ") conclusion="; Fmt conclusion] ;;
    ret (Some 1)
  else
    loaded <- try (_load_report_from_run repo run token) ;;
    match loaded with
    | Raise exc =>
        eprint (Lit "Parity streak gate failed: " :: exn_str exc) ;;
        ret (Some 1)
    | Ok report =>
        passes <- eval (_report_passes report) ;;
        if negb passes then
          eprint [Lit "Parity streak gate failed: report in run id=";
                  Fmt run_id; Lit " did not pass required journeys"] ;;
          ret (Some 1)
        else ret None
    end.

(** [for idx, run in enumerate(target_runs, start=idx)], line 93: the runs
    are evaluated in order until one returns. *)
Fixpoint for_runs (repo token : string) (idx : Z) (target_runs : list pyval)
  : M (option Z) :=
  match target_runs with
  | [] => ret None
  | run :: rest =>
      early <- evaluate_run repo token idx run ;;
      match early with
      | Some code => ret (Some code)
      | None => for_runs repo token (idx + 1) rest
      end
  end.

(** [os.environ.get(key, default)]. *)
Definition getenv (env : string -> option string) (key default : string) : string :=
  match env key with
  | Some v => v
  | None => default
  end.

(** The URL of the list-runs request, lines 77-81. *)
Definition runs_query (encoded_branch : string) : string :=
  "?branch=" ++ encoded_branch ++ "&status=completed&per_page=20".

Definition runs_url_of (repo workflow_file encoded_branch : string) : string :=
  "https://api.github.com/repos/" ++ repo ++ "/actions/workflows/"
    ++ workflow_file ++ "/runs" ++ runs_query encoded_branch.

(** The URL for a branch that can be quoted. *)
Definition runs_url (repo workflow_file default_branch : string) : string :=
  runs_url_of repo workflow_file (quote default_branch).

(** [urllib.parse.quote(default_branch, safe="")], line 77: the text is
    encoded to UTF-8 first, which raises [UnicodeEncodeError] on a text
    with lone surrogates. *)
Definition parse_quote (s : string) : result string :=
  if valid_utf8 s then Ok (quote s) else Raise (encode_error rt s).

(** [main] from line 83 on: what is done with the decoded list-runs
    response. *)
Definition main_on_payload (repo token : string) (required_streak : Z)
    (payload : pyval) : M Z :=
  runs <- eval (py_get payload "workflow_runs" (PList [])) ;;
  found <- eval (py_len runs) ;;
  if found <? required_streak then
    eprint [Lit "Parity streak gate failed: need "; Fmt (PInt required_streak);
            Lit " completed nightly runs, found "; Fmt (PInt found)] ;;
    ret 1
  else
    target_runs <- eval (py_slice_to runs required_streak) ;;
    items <- eval (py_iter target_runs) ;;
    early <- for_runs repo token 1 items ;;
    match early with
    | Some code => ret code
    | None =>
        print [Lit "Parity streak gate passed: last "; Fmt (PInt required_streak);
               Lit " nightly runs succeeded with passing journey reports"] ;;
        ret 0
    end.

(** [main], lines 63-119.  [not repo] holds for an unset and for an empty
    variable alike. *)
Definition main (env : string -> option string) : M Z :=
  let repo := env "GITHUB_REPOSITORY" in
  let token := env "GITHUB_TOKEN" in
  let workflow_file := getenv env "PARITY_WORKFLOW_FILE" "parity-nightly.yml" in
  required_streak <- eval (int_of_str rt (getenv env "PARITY_REQUIRED_STREAK" "3")) ;;
  let default_branch := getenv env "DEFAULT_BRANCH" "main" in
  match repo with
  | None | Some EmptyString =>
      eprint [Lit "GITHUB_REPOSITORY is required"] ;; ret 1
  | Some repo =>
      match token with
      | None | Some EmptyString =>
          eprint [Lit "GITHUB_TOKEN is required"] ;; ret 1
      | Some token =>
          encoded_branch <- eval (parse_quote default_branch) ;;
          payload <- _get_json (PStr (runs_url_of repo workflow_file encoded_branch))
                               token ;;
          main_on_payload repo token required_streak payload
      end
  end.

(** Running the file as a script, lines 122-123: [raise SystemExit(main())]
    exits with the status [main] returns; an exception that escapes [main]
    makes the interpreter write its report on stderr and exit with status
    1.  The report is one entry of stderr: its heading and its last line,
    the class and the message of the exception; the stack frames that the
    interpreter lists between the two are left out. *)
Definition traceback (e : exn) : text :=
  Lit "Traceback (most recent call last): " :: Lit (exn_class e) :: Lit ": "
    :: exn_str e.

Definition run_script (env : string -> option string) (w : world) : Z * world :=
  match main env w with
  | (Ok status, w') => (status, w')
  | (Raise e, w') => (1, write_stderr (traceback e) w')
  end.

End Gate.

(** ** Reading a line of output *)

Fixpoint digits_of_pos (fuel : nat) (n : Z) (acc : string) : string :=
  match fuel with
  | O => acc
  | S fuel' =>
      let acc' := String (ascii_of_nat (48 + Z.to_nat (n mod 10))) acc in
      if n / 10 =? 0 then acc' else digits_of_pos fuel' (n / 10) acc'
  end.

(** [str(n)] for an [int]. *)
Definition str_of_int (n : Z) : string :=
  if n <? 0 then "-" ++ digits_of_pos (S (Z.to_nat (Z.log2 (- n)))) (- n) ""
  else digits_of_pos (S (Z.to_nat (Z.log2 n))) n "".

(** [str(v)] for the values whose text is direct; the [repr] of floats and
    of containers is left out. *)
Definition py_str (v : pyval) : option string :=
  match v with
  | PNone => Some "None"
  | PBool true => Some "True"
  | PBool false => Some "False"
  | PInt n => Some (str_of_int n)
  | PStr s => Some s
  | _ => None
  end.

Fixpoint render (t : text) : option string :=
  match t with
  | [] => Some ""
  | p :: rest =>
      match (match p with Lit s => Some s | Fmt v => py_str v end), render rest with
      | Some s, Some r => Some (s ++ r)
      | _, _ => None
      end
  end.

(** A line cites a value when the value is interpolated into it. *)
Definition cites (v : pyval) (line : text) : Prop := In (Fmt v) line.

(** ** Reading a request as the provider does *)

(** [s.partition(sep)]: the text before the first [sep] and, when [sep]
    occurs, the text after it. *)
Fixpoint partition (sep : ascii) (s : string) : string * option string :=
  match s with
  | EmptyString => ("", None)
  | String c rest =>
      if Ascii.eqb c sep then ("", Some rest)
      else let (before, after) := partition sep rest in (String c before, after)
  end.

(** [s.split(sep)]. *)
Fixpoint split_on (sep : ascii) (s : string) : list string :=
  match s with
  | EmptyString => [""]
  | String c rest =>
      if Ascii.eqb c sep then "" :: split_on sep rest
      else
        match split_on sep rest with
        | field :: fields => String c field :: fields
        | [] => [String c ""]
        end
  end.

(** The query of a URL: the fragment, from the first [#] on, is dropped,
    and the query is what follows the first [?] of the rest. *)
Definition url_query (url : string) : option string :=
  snd (partition "?" (fst (partition "#" url))).

(** The [key=value] fields of a query, in order. *)
Definition query_fields (query : string) : list (string * string) :=
  map (fun field =>
         let (key, value) := partition "=" field in
         (key, match value with Some v => v | None => "" end))
      (split_on "&" query).

Fixpoint field_value (key : string) (fields : list (string * string)) : option string :=
  match fields with
  | [] => None
  | (k, v) :: rest => if String.eqb k key then Some v else field_value key rest
  end.

Fixpoint digits_value (acc : Z) (s : string) : option Z :=
  match s with
  | EmptyString => Some acc
  | String c rest =>
      let n := nat_of_ascii c in
      if ((48 <=? n) && (n <=? 57))%nat
      then digits_value (10 * acc + Z.of_nat (n - 48)) rest
      else None
  end.

(** The number a non-empty run of decimal digits denotes. *)
Definition decimal_value (s : string) : option Z :=
  match s with
  | EmptyString => None
  | _ => digits_value 0 s
  end.

Definition request_param (key : string) (req : request) : option string :=
  match req_url req with
  | PStr url =>
      match url_query url with
      | Some query => field_value key (query_fields query)
      | None => None
      end
  | _ => None
  end.

(** The page size a list request asks for. *)
Definition page_size (req : request) : option Z :=
  match request_param "per_page" req with
  | Some v => decimal_value v
  | None => None
  end.

(** ** A mock provider

    A runtime built from tables, to run the script on concrete data: the
    pages served per URL, the JSON documents by their text, and the archives
    by their bytes with their entries.  Bodies are ASCII. *)

Module Mock.

Definition ValueError (msg : string) : exn := mkExn "ValueError" [Lit msg].
Definition HTTPError (code reason : string) : exn :=
  mkExn "HTTPError" [Lit ("HTTP Error " ++ code ++ ": " ++ reason)].
Definition URLError (reason : string) : exn :=
  mkExn "URLError" [Lit ("<urlopen error " ++ reason ++ ">")].
Definition JSONDecodeError : exn :=
  mkExn "JSONDecodeError" [Lit "Expecting value: line 1 column 1 (char 0)"].
Definition BadZipFile : exn := mkExn "BadZipFile" [Lit "File is not a zip file"].

Fixpoint assoc {A : Type} (key : string) (table : list (string * A)) : option A :=
  match table with
  | [] => None
  | (k, v) :: rest => if String.eqb k key then Some v else assoc key rest
  end.

Record provider : Type := mkProvider {
  pages : list (string * result string);
  documents : list (string * pyval);
  archives : list (string * list (string * string))
}.

(** [int] on an optional sign followed by decimal digits. *)
Definition int_of_decimal (s : string) : result Z :=
  let parsed :=
    match s with
    | String "-" digits => option_map Z.opp (decimal_value digits)
    | String "+" digits => decimal_value digits
    | _ => decimal_value s
    end in
  match parsed with
  | Some n => Ok n
  | None => Raise (ValueError ("invalid literal for int() with base 10: '" ++ s ++ "'"))
  end.

Definition serve (p : provider) (req : request) : result bytes :=
  match req_url req with
  | PStr url =>
      match assoc url (pages p) with
      | Some (Ok body) => Ok (list_byte_of_string body)
      | Some (Raise e) => Raise e
      | None => Raise (HTTPError "404" "Not Found")
      end
  | _ => Raise (ValueError "unknown url type")
  end.

Definition runtime_of (p : provider) : runtime :=
  {| http_get := fun _ req => serve p req;
     decode_utf8 := fun b => Ok (string_of_list_byte b);
     json_loads := fun s =>
       match assoc s (documents p) with
       | Some v => Ok v
       | None => Raise JSONDecodeError
       end;
     zip_namelist := fun b =>
       match assoc (string_of_list_byte b) (archives p) with
       | Some entries => Ok (map fst entries)
       | None => Raise BadZipFile
       end;
     zip_read := fun b name =>
       match assoc (string_of_list_byte b) (archives p) with
       | Some entries =>
           match assoc name entries with
           | Some content => Ok (list_byte_of_string content)
           | None => Raise (KeyError name)
           end
       | None => Raise BadZipFile
       end;
     int_of_str := int_of_decimal;
     encode_error := fun _ =>
       mkExn "UnicodeEncodeError"
             [Lit "'utf-8' codec can't encode character: surrogates not allowed"] |}.

(** *** Fixtures: the repository acme/cli and its nightly runs *)

Definition env_of (vars : list (string * string)) : string -> option string :=
  fun key => assoc key vars.

Definition base_vars : list (string * string) :=
  [("GITHUB_REPOSITORY", "acme/cli"); ("GITHUB_TOKEN", "s3cret")].

Definition list_url : string := runs_url "acme/cli" "parity-nightly.yml" "main".

Definition artifacts_url (id : Z) : string :=
  "https://ci.test/runs/" ++ str_of_int id ++ "/artifacts".
Definition archive_url (id : Z) : string :=
  "https://ci.test/artifacts/" ++ str_of_int id ++ "/zip".

Definition run (id : Z) (conclusion : string) : pyval :=
  PDict [("id", PInt id); ("conclusion", PStr conclusion);
         ("artifacts_url", PStr (artifacts_url id))].

Definition report_artifact (id : Z) : pyval :=
  PDict [("name", PStr "parity-journey-report");
         ("archive_download_url", PStr (archive_url id))].

(** The pages, documents and archive of one run whose artifact holds
    [report]. *)
Definition run_pages (id : Z) : list (string * result string) :=
  [(artifacts_url id, Ok ("artifacts-" ++ str_of_int id));
   (archive_url id, Ok ("archive-" ++ str_of_int id))].

Definition run_documents (id : Z) (report : pyval) : list (string * pyval) :=
  [("artifacts-" ++ str_of_int id, PDict [("artifacts", PList [report_artifact id])]);
   ("report-" ++ str_of_int id, report)].

Definition run_archive (id : Z) : string * list (string * string) :=
  ("archive-" ++ str_of_int id,
   [("README.txt", "readme");
    ("out/parity_journey_report.json", "report-" ++ str_of_int id)]).

(** A provider that lists [runs] and holds a report for each of
    [reports]. *)
Definition provider_of (runs : pyval) (reports : list (Z * pyval)) : provider :=
  {| pages := (list_url, Ok "runs")
              :: flat_map (fun r => run_pages (fst r)) reports;
     documents := ("runs", runs)
                  :: flat_map (fun r => run_documents (fst r) (snd r)) reports;
     archives := map (fun r => run_archive (fst r)) reports |}.

Definition passing_reports : list (Z * pyval) :=
  [(101, PDict [("overall_pass", PBool true)]);
   (102, PDict [("required_journeys",
                 PDict [("login", PBool true); ("checkout", PBool true)])]);
   (103, PDict [("overall_pass", PBool true)])].

(** Three successful nightly runs with passing reports. *)
Definition green : provider :=
  provider_of
    (PDict [("workflow_runs",
             PList [run 101 "success"; run 102 "success"; run 103 "success"])])
    passing_reports.

(** The same history with the middle run failed. *)
Definition middle_failed : provider :=
  provider_of
    (PDict [("workflow_runs",
             PList [run 101 "success"; run 102 "failure"; run 103 "success"])])
    passing_reports.

(** A history of a single run. *)
Definition short_history : provider :=
  provider_of (PDict [("workflow_runs", PList [run 101 "success"])])
              passing_reports.

(** A listing without the [workflow_runs] key. *)
Definition no_runs_key : provider :=
  provider_of (PDict [("total_count", PInt 0)]) [].

(** The green history, with the artifact listing of run 101 unreachable. *)
Definition artifacts_unreachable : provider :=
  {| pages := (artifacts_url 101, Raise (URLError "timed out")) :: pages green;
     documents := documents green;
     archives := archives green |}.

(** The history with the middle run failed, and the artifact listing of
    run 101 unreachable. *)
Definition unreachable_then_failed : provider :=
  {| pages := (artifacts_url 101, Raise (URLError "timed out"))
              :: pages middle_failed;
     documents := documents middle_failed;
     archives := archives middle_failed |}.

(** The green history, with run 101 holding only a coverage artifact. *)
Definition artifact_missing : provider :=
  {| pages := pages green;
     documents :=
       ("artifacts-101",
        PDict [("artifacts",
                PList [PDict [("name", PStr "coverage");
                              ("archive_download_url",
                               PStr "https://ci.test/artifacts/9/zip")]])])
       :: documents green;
     archives := archives green |}.

End Mock.

(** ** The specification's vocabulary *)

Section Vocabulary.

Variable rt : runtime.

(** The configuration is complete, so that [main] gets as far as the
    list-runs request: repository and credential are set and not empty, the
    streak length parses as [required_streak], and the branch is a text
    that can be quoted. *)
Definition configured (env : string -> option string)
    (repo token : string) (required_streak : Z) : Prop :=
  env "GITHUB_REPOSITORY" = Some repo /\ repo <> "" /\
  env "GITHUB_TOKEN" = Some token /\ token <> "" /\
  int_of_str rt (getenv env "PARITY_REQUIRED_STREAK" "3") = Ok required_streak /\
  valid_utf8 (getenv env "DEFAULT_BRANCH" "main") = true.

(** The list-runs request of [main]. *)
Definition list_request (env : string -> option string) (repo token : string)
  : request :=
  mkRequest
    (PStr (runs_url repo (getenv env "PARITY_WORKFLOW_FILE" "parity-nightly.yml")
                    (getenv env "DEFAULT_BRANCH" "main")))
    (_headers token) 30.

(** The configuration is complete and the list-runs request, issued in
    world [w], is answered with the JSON value [payload], leaving world
    [w1]. *)
Definition lists_runs (env : string -> option string) (w : world)
    (repo token : string) (required_streak : Z) (payload : pyval) (w1 : world)
  : Prop :=
  configured env repo token required_streak /\
  _get_json rt
    (PStr (runs_url repo (getenv env "PARITY_WORKFLOW_FILE" "parity-nightly.yml")
                    (getenv env "DEFAULT_BRANCH" "main")))
    token w = (Ok payload, w1).

(** Steps (a)-(c) of the evaluator succeed on each run of a window in turn:
    the conclusion is "success", the report is extracted and it satisfies
    the pass policy.  The worlds are those before the first and after the
    last run. *)
Inductive window_passes (repo token : string)
  : list pyval -> world -> world -> Prop :=
| window_nil : forall w, window_passes repo token [] w w
| window_cons : forall run rest report w w1 w2,
    py_get run "conclusion" PNone = Ok (PStr "success") ->
    _load_report_from_run rt repo run token w = (Ok report, w1) ->
    _report_passes report = Ok true ->
    window_passes repo token rest w1 w2 ->
    window_passes repo token (run :: rest) w w2.

(** The artifact listing of [run] is fetched and holds no artifact named
    parity-journey-report. *)
Definition missing_artifact (run : pyval) (token : string) (w : world) : Prop :=
  exists url listing w' artifacts items,
    py_getitem run "artifacts_url" = Ok url /\
    _get_json rt url token w = (Ok listing, w') /\
    py_get listing "artifacts" (PList []) = Ok artifacts /\
    py_iter artifacts = Ok items /\
    find_artifact items = Ok None.

(** The artifact of [run] is downloaded and its archive has no entry whose
    name ends with parity_journey_report.json. *)
Definition missing_report_file (run : pyval) (token : string) (w : world) : Prop :=
  exists url listing w' artifacts items artifact download_url archive w'' names,
    py_getitem run "artifacts_url" = Ok url /\
    _get_json rt url token w = (Ok listing, w') /\
    py_get listing "artifacts" (PList []) = Ok artifacts /\
    py_iter artifacts = Ok items /\
    find_artifact items = Ok (Some artifact) /\
    py_getitem artifact "archive_download_url" = Ok download_url /\
    _download_bytes rt download_url token w' = (Ok archive, w'') /\
    zip_namelist rt archive = Ok names /\
    find_report_name names = None.

End Vocabulary.

(** A computation only ever adds requests to the log. *)
Definition grows {A : Type} (c : M A) : Prop :=
  forall w, exists more, requests (snd (c w)) = (requests w ++ more)%list.

Fixpoint contains_char (c : ascii) (s : string) : bool :=
  match s with
  | EmptyString => false
  | String a rest => Ascii.eqb a c || contains_char c rest
  end.

(** ** What a computation does to the world *)

(** Each request the computation adds to the log satisfies [Q]. *)
Definition sends {A : Type} (Q : request -> Prop) (c : M A) : Prop :=
  forall w, exists more,
    requests (snd (c w)) = (requests w ++ more)%list /\ Forall Q more.

(** The computation adds at most [k] requests to the log. *)
Definition emits {A : Type} (k : nat) (c : M A) : Prop :=
  forall w, exists more,
    requests (snd (c w)) = (requests w ++ more)%list /\
    (List.length more <= k)%nat.

(** The computation prints nothing. *)
Definition quiet {A : Type} (c : M A) : Prop :=
  forall w, stdout (snd (c w)) = stdout w /\ stderr (snd (c w)) = stderr w.

(** A request made with the credential [token]: the four headers of
    [_headers] and one of the two timeouts. *)
Definition authorized (token : string) (r : request) : Prop :=
  req_headers r = _headers token /\ (req_timeout r = 30 \/ req_timeout r = 60).

(** The success line of [main], lines 116-118. *)
Definition pass_line (required_streak : Z) : text :=
  [Lit "Parity streak gate passed: last "; Fmt (PInt required_streak);
   Lit " nightly runs succeeded with passing journey reports"].

(** An item of an artifact listing that is an object with a name other
    than parity-journey-report, and one that is an object with that name. *)
Definition other_artifact (a : pyval) : Prop :=
  exists name, py_get a "name" PNone = Ok name /\
               eq_str name "parity-journey-report" = false.

Definition report_artifact_named (a : pyval) : Prop :=
  py_get a "name" PNone = Ok (PStr "parity-journey-report").

(** ** More histories for the mock provider *)

Module Cases.

Import Mock.

(** The green history, with a report for run 102 that fails a journey. *)
Definition journey_failed : provider :=
  provider_of
    (PDict [("workflow_runs",
             PList [run 101 "success"; run 102 "success"; run 103 "success"])])
    [(101, PDict [("overall_pass", PBool true)]);
     (102, PDict [("required_journeys",
                   PDict [("login", PBool true); ("checkout", PBool false)])]);
     (103, PDict [("overall_pass", PBool true)])].

(** The green history, with a report for run 101 that is a JSON array. *)
Definition report_is_array : provider :=
  provider_of
    (PDict [("workflow_runs",
             PList [run 101 "success"; run 102 "success"; run 103 "success"])])
    [(101, PList [PBool true]);
     (102, PDict [("overall_pass", PBool true)]);
     (103, PDict [("overall_pass", PBool true)])].

(** A provider whose list endpoint answers 503. *)
Definition list_unavailable : provider :=
  {| pages := [(list_url, Raise (HTTPError "503" "Service Unavailable"))];
     documents := [];
     archives := [] |}.

(** A listing that is a JSON array, and one whose [workflow_runs] is
    null. *)
Definition listing_is_array : provider :=
  provider_of (PList []) [].

Definition runs_is_null : provider :=
  provider_of (PDict [("workflow_runs", PNone)]) [].

(** A successful run without [artifacts_url], and a run without
    [conclusion]. *)
Definition bare_run (id : Z) : pyval :=
  PDict [("id", PInt id); ("conclusion", PStr "success")].

Definition run_without_url : provider :=
  provider_of
    (PDict [("workflow_runs",
             PList [bare_run 101; run 102 "success"; run 103 "success"])])
    passing_reports.

Definition pending_run (id : Z) : pyval :=
  PDict [("id", PInt id); ("artifacts_url", PStr (artifacts_url id))].

Definition run_without_conclusion : provider :=
  provider_of
    (PDict [("workflow_runs",
             PList [run 101 "success"; pending_run 102; run 103 "success"])])
    passing_reports.

(** Five listed runs, of which the three most recent are green. *)
Definition long_history : provider :=
  provider_of
    (PDict [("workflow_runs",
             PList [run 101 "success"; run 102 "success"; run 103 "success";
                    run 104 "failure"; run 105 "cancelled"])])
    passing_reports.

End Cases.

(** * The mock chat API (scripts/mock_deepseek_api.py)

    The request handler of the mock server, one request at a time.  The
    handler takes its request number under a lock, so the requests are
    numbered in some order; [do_POST] is the handling of one request given
    the counter it finds, and [serve] handles requests in the order in which
    they take their number.  The pause of [response_delay_ms] changes no
    value and is left out. *)

Module MockApi.

(** The class attributes that [main] sets from the command line. *)
Record settings : Type := mkSettings {
  fail_first : Z;
  fail_status : Z;
  response_delay_ms : Z
}.

(** What the handler reads of a request: the path, the Content-Length
    header if any, and the bytes the client sends as body. *)
Record post : Type := mkPost {
  path : string;
  content_length : option string;
  rfile : bytes
}.

(** What [_json] writes: the status, the headers it sends with
    [send_header], in order, and the body. *)
Record response : Type := mkResponse {
  status : Z;
  headers : list (string * string);
  body : bytes
}.

(** The body that [do_POST] reads for a Content-Length of [length],
    line 28: [rfile.read(length)], or [b"{}"] when the length is not
    positive. *)
Definition body_read (length : Z) (req : post) : bytes :=
  if 0 <? length then firstn (Z.to_nat length) (rfile req)
  else list_byte_of_string "{}".

(** ["needle" in text]. *)
Fixpoint contains (needle text : string) : bool :=
  String.prefix needle text
  || match text with
     | EmptyString => false
     | String _ rest => contains needle rest
     end.

Section Handler.

Variable rt : runtime.
(** [str(v)], [s.lower()] and [json.dumps(v)]. *)
Variable str_of : pyval -> string.
Variable lower : string -> string.
Variable json_dumps : pyval -> string.

(** [_safe_json], lines 69-73. *)
Definition _safe_json (payload : bytes) : pyval :=
  match decode_utf8 rt payload with
  | Ok decoded =>
      match json_loads rt (match decoded with
                           | EmptyString => "{}"
                           | _ => decoded
                           end) with
      | Ok value => value
      | Raise _ => PDict []
      end
  | Raise _ => PDict []
  end.

(** The loop of [_extract_prompt], lines 79-88, over [reversed(messages)]. *)
Fixpoint first_user_content (messages : list pyval) : string :=
  match messages with
  | [] => ""
  | message :: rest =>
      match message with
      | PDict d =>
          if eq_str (match dict_lookup "role" d with
                     | Some role => role
                     | None => PNone
                     end) "user"
          then match dict_lookup "content" d with
               | Some (PStr content) => content
               | Some content => str_of content
               | None => ""
               end
          else first_user_content rest
      | _ => first_user_content rest
      end
  end.

(** [_extract_prompt], lines 75-88. *)
Definition _extract_prompt (payload : pyval) : result string :=
  match py_get payload "messages" PNone with
  | Raise e => Raise e
  | Ok (PList messages) => Ok (first_user_content (rev messages))
  | Ok _ => Ok ""
  end.

(** [_json], lines 90-100. *)
Definition _json (code : Z) (payload : pyval) (extra : list (string * string))
  : response :=
  let encoded := list_byte_of_string (json_dumps payload) in
  mkResponse code
    ([("Content-Type", "application/json");
      ("Content-Length", str_of_int (Z.of_nat (List.length encoded)));
      ("Connection", "close")] ++ extra)
    encoded.

(** The reply text, lines 48-53. *)
Definition reply_content (prompt : string) : string :=
  if contains "plan" (lower prompt) then
    "Generated plan: discover files, propose edits, verify with tests."
  else if contains "status" (lower prompt) then "Status: mock service healthy."
  else "Mock response: " ++ match prompt with
                            | EmptyString => "ok"
                            | _ => prompt
                            end.

(** The completion object, lines 55-66. *)
Definition completion (content : string) : pyval :=
  PDict [("choices",
          PList [PDict [("finish_reason", PStr "stop");
                        ("message",
                         PDict [("content", PStr content);
                                ("reasoning_content", PStr "mock reasoning");
                                ("tool_calls", PList [])])]])].

Definition not_found : response :=
  _json 404 (PDict [("error", PStr "not_found")]) [].

(** The injected failure, lines 39-44. *)
Definition transient_failure (cfg : settings) (attempt : Z) : response :=
  _json (fail_status cfg)
        (PDict [("error", PStr "transient_mock_failure"); ("attempt", PInt attempt)])
        (if fail_status cfg =? 429 then [("Retry-After", "0")] else []).

(** [do_POST], lines 22-67: the response, or the exception that ends the
    handler, and the request counter afterwards. *)
Definition do_POST (cfg : settings) (req : post) (request_count : Z)
  : result response * Z :=
  if negb (String.eqb (path req) "/chat/completions") then
    (Ok not_found, request_count)
  else
    match int_of_str rt (match content_length req with
                         | Some v => v
                         | None => "0"
                         end) with
    | Raise e => (Raise e, request_count)
    | Ok length =>
        let raw_body := body_read length req in
        let payload := _safe_json raw_body in
        let current_request := request_count + 1 in
        if current_request <=? fail_first cfg then
          (Ok (transient_failure cfg current_request), current_request)
        else
          match _extract_prompt payload with
          | Raise e => (Raise e, current_request)
          | Ok prompt =>
              (Ok (_json 200 (completion (reply_content prompt)) []),
               current_request)
          end
    end.

(** Requests handled one after the other. *)
Fixpoint serve (cfg : settings) (reqs : list post) (request_count : Z)
  : list (result response) * Z :=
  match reqs with
  | [] => ([], request_count)
  | req :: rest =>
      let (answer, count) := do_POST cfg req request_count in
      let (answers, final) := serve cfg rest count in
      (answer :: answers, final)
  end.

End Handler.

(** The settings and the counter that [main] installs, lines 112-115. *)
Definition configure (arg_fail_first arg_fail_status arg_delay : Z) : settings * Z :=
  (mkSettings (Z.max arg_fail_first 0) arg_fail_status (Z.max arg_delay 0), 0).

(** A request to the chat endpoint whose Content-Length is absent or
    parses: one that takes a request number. *)
Definition counted (rt : runtime) (req : post) : Prop :=
  path req = "/chat/completions" /\
  exists length, int_of_str rt (match content_length req with
                                | Some v => v
                                | None => "0"
                                end) = Ok length.

(** A message that the prompt search passes over: not an object, or an
    object whose role is not "user". *)
Definition not_from_user (message : pyval) : Prop :=
  forall d, message = PDict d ->
            eq_str (match dict_lookup "role" d with
                    | Some role => role
                    | None => PNone
                    end) "user" = false.

(** *** A runtime and functions for concrete requests *)

Definition ascii_lower (c : ascii) : ascii :=
  let n := nat_of_ascii c in
  if ((65 <=? n) && (n <=? 90))%nat then ascii_of_nat (n + 32) else c.

Fixpoint lower_ascii (s : string) : string :=
  match s with
  | EmptyString => ""
  | String c rest => String (ascii_lower c) (lower_ascii rest)
  end.

Definition chat (messages : list pyval) : pyval :=
  PDict [("model", PStr "deepseek-chat"); ("messages", PList messages)].

Definition message (role content : string) : pyval :=
  PDict [("role", PStr role); ("content", PStr content)].

(** Bodies are looked up by their text. *)
Definition bodies : Mock.provider :=
  Mock.mkProvider []
    [("{}", PDict []);
     ("hello", chat [message "system" "be brief"; message "user" "Hello"]);
     ("plan", chat [message "user" "status?"; message "assistant" "fine";
                    message "user" "Make a PLAN"]);
     ("array", PList [PInt 1])]
    [].

Definition post_of (text : string) : post :=
  mkPost "/chat/completions"
         (Some (str_of_int (Z.of_nat (String.length text))))
         (list_byte_of_string text).

End MockApi.

(** * Properties *)

(** ** The report pass policy *)

Lemma forallb_py_bool (values : list pyval) :
  forallb py_bool values = true <-> (forall v, In v values -> py_bool v = true).
Proof. apply forallb_forall. Qed.

Lemma is_False_spec (v : pyval) : is_False v = true <-> v = PBool false.
Proof.
  split.
  - destruct v as [ | [ | ] | | | | | ]; simpl; intros H; try discriminate H; reflexivity.
  - intros ->. reflexivity.
Qed.

Lemma is_False_other (v : pyval) : v <> PBool false -> is_False v = false.
Proof.
  intros H. destruct (is_False v) eqn:E; [ | reflexivity ].
  apply is_False_spec in E. contradiction.
Qed.

(** C4. A report whose [overall_pass] is [false] fails the policy whatever
    its other fields hold, an all-true [required_journeys] included. *)
Theorem overall_pass_false_fails (d : list (string * pyval)) :
  dict_lookup "overall_pass" d = Some (PBool false) ->
  _report_passes (PDict d) = Ok false.
Proof.
  intros H. unfold _report_passes. simpl. rewrite H. reflexivity.
Qed.

Lemma overall_pass_false_fails_witness :
  _report_passes
    (PDict [("overall_pass", PBool false);
            ("required_journeys", PDict [("login", PBool true); ("search", PBool true)])])
  = Ok false.
Proof. apply overall_pass_false_fails. reflexivity. Defined.

(** C5. For a report whose [overall_pass] is not [false]: when
    [required_journeys] is a mapping the policy passes exactly when every
    value of the mapping is truthy (an empty mapping passes); otherwise it
    passes exactly when [overall_pass] is truthy, an absent [overall_pass]
    counting as a pass. *)
Theorem report_policy_layers (d : list (string * pyval)) :
  dict_lookup "overall_pass" d <> Some (PBool false) ->
  (forall journeys,
      dict_lookup "required_journeys" d = Some (PDict journeys) ->
      exists b, _report_passes (PDict d) = Ok b /\
                (b = true <-> forall v, In v (dict_values journeys) -> py_bool v = true))
  /\
  ((forall journeys, dict_lookup "required_journeys" d <> Some (PDict journeys)) ->
   exists b, _report_passes (PDict d) = Ok b /\
             (b = true <-> match dict_lookup "overall_pass" d with
                           | Some v => py_bool v = true
                           | None => True
                           end)).
Proof.
  intros Hnot.
  assert (Hflag : is_False (match dict_lookup "overall_pass" d with
                            | Some v => v | None => PNone end) = false).
  { destruct (dict_lookup "overall_pass" d) as [v | ] eqn:E; [ | reflexivity ].
    apply is_False_other. intros ->. apply Hnot. reflexivity. }
  split.
  - intros journeys Hj.
    exists (forallb py_bool (dict_values journeys)). split.
    + unfold _report_passes. simpl. rewrite Hflag, Hj. reflexivity.
    + apply forallb_py_bool.
  - intros Hnone.
    unfold _report_passes. simpl. rewrite Hflag.
    destruct (dict_lookup "required_journeys" d) as [required | ] eqn:Er.
    + destruct required as [ | b | z | f | s | l | journeys ];
        try (exfalso; apply (Hnone journeys); reflexivity);
        destruct (dict_lookup "overall_pass" d) as [v | ];
        eexists; (split; [ reflexivity | ]); simpl; intuition auto.
    + destruct (dict_lookup "overall_pass" d) as [v | ];
        eexists; (split; [ reflexivity | ]); simpl; intuition auto.
Qed.

Lemma report_policy_layers_witness :
  (forall journeys,
      dict_lookup "required_journeys"
        [("required_journeys", PDict [("a", PBool true); ("b", PBool false)])]
      = Some (PDict journeys) ->
      exists b,
        _report_passes
          (PDict [("required_journeys", PDict [("a", PBool true); ("b", PBool false)])])
        = Ok b /\
        (b = true <-> forall v, In v (dict_values journeys) -> py_bool v = true))
  /\
  ((forall journeys,
       dict_lookup "required_journeys"
         [("required_journeys", PDict [("a", PBool true); ("b", PBool false)])]
       <> Some (PDict journeys)) ->
   exists b,
     _report_passes
       (PDict [("required_journeys", PDict [("a", PBool true); ("b", PBool false)])])
     = Ok b /\
     (b = true <->
      match dict_lookup "overall_pass"
              [("required_journeys", PDict [("a", PBool true); ("b", PBool false)])]
      with
      | Some v => py_bool v = true
      | None => True
      end)).
Proof. apply report_policy_layers. simpl. discriminate. Defined.

(** C9. Only the boolean [false] takes the immediate-failure branch: when
    [overall_pass] holds any other value, a falsy one such as [0], the empty
    string or [null] included, and [required_journeys] is a mapping whose
    values are all truthy, the policy passes. *)
Theorem only_False_fails_at_once (d : list (string * pyval))
    (overall : pyval) (journeys : list (string * pyval)) :
  dict_lookup "overall_pass" d = Some overall ->
  overall <> PBool false ->
  dict_lookup "required_journeys" d = Some (PDict journeys) ->
  (forall v, In v (dict_values journeys) -> py_bool v = true) ->
  _report_passes (PDict d) = Ok true.
Proof.
  intros Ho Hne Hj Hall.
  unfold _report_passes. simpl. rewrite Ho, (is_False_other _ Hne), Hj.
  f_equal. apply forallb_py_bool. exact Hall.
Qed.

Lemma only_False_fails_at_once_witness :
  _report_passes
    (PDict [("overall_pass", PInt 0);
            ("required_journeys", PDict [("login", PBool true); ("search", PInt 1)])])
  = Ok true
  /\ _report_passes
       (PDict [("overall_pass", PStr "");
               ("required_journeys", PDict [("login", PBool true)])])
     = Ok true
  /\ _report_passes
       (PDict [("overall_pass", PNone);
               ("required_journeys", PDict [("login", PBool true)])])
     = Ok true.
Proof.
  split; [ | split ].
  - apply (only_False_fails_at_once _ (PInt 0)
             [("login", PBool true); ("search", PInt 1)]).
    + reflexivity.
    + discriminate.
    + reflexivity.
    + simpl. intros v [<- | [<- | []]]; reflexivity.
  - apply (only_False_fails_at_once _ (PStr "") [("login", PBool true)]).
    + reflexivity.
    + discriminate.
    + reflexivity.
    + simpl. intros v [<- | []]; reflexivity.
  - apply (only_False_fails_at_once _ PNone [("login", PBool true)]).
    + reflexivity.
    + discriminate.
    + reflexivity.
    + simpl. intros v [<- | []]; reflexivity.
Defined.

(** The reports of the specification's examples. *)
Example journeys_with_a_failure :
  _report_passes
    (PDict [("required_journeys", PDict [("a", PBool true); ("b", PBool false)])])
  = Ok false.
Proof. reflexivity. Qed.

Example journeys_all_true :
  _report_passes
    (PDict [("required_journeys", PDict [("a", PBool true); ("b", PBool true)])])
  = Ok true.
Proof. reflexivity. Qed.

Example journeys_not_a_mapping :
  _report_passes (PDict [("required_journeys", PList [PBool false]);
                         ("overall_pass", PInt 1)]) = Ok true
  /\ _report_passes (PDict [("required_journeys", PStr "all")]) = Ok true
  /\ _report_passes (PDict [("required_journeys", PNone);
                            ("overall_pass", PNone)]) = Ok false.
Proof. repeat split; reflexivity. Qed.

Example report_not_an_object :
  _report_passes (PList []) = Raise (AttributeError (PList []) "get").
Proof. reflexivity. Qed.

(** ** Computations *)

Lemma bind_ok {A B : Type} (c : M A) (k : A -> M B) (w w' : world) (a : A) :
  c w = (Ok a, w') -> bind c k w = k a w'.
Proof. intros H. unfold bind. rewrite H. reflexivity. Qed.

Lemma bind_raise {A B : Type} (c : M A) (k : A -> M B) (w w' : world) (e : exn) :
  c w = (Raise e, w') -> bind c k w = (Raise e, w').
Proof. intros H. unfold bind. rewrite H. reflexivity. Qed.

Lemma bind_eval {A B : Type} (r : result A) (k : A -> M B) (w : world) (a : A) :
  r = Ok a -> bind (eval r) k w = k a w.
Proof. intros ->. reflexivity. Qed.

Lemma bind_try {A B : Type} (c : M A) (k : result A -> M B) (w w' : world)
    (r : result A) :
  c w = (r, w') -> bind (try c) k w = k r w'.
Proof. intros H. unfold bind, try. rewrite H. reflexivity. Qed.

(** A run whose conclusion can be read is a dict, so its id can be read
    too. *)
Lemma py_get_total (run : pyval) (key : string) (default v : pyval) :
  py_get run key default = Ok v ->
  forall key' default', exists v', py_get run key' default' = Ok v'.
Proof.
  destruct run; simpl; intros H; try discriminate H.
  intros key' default'. eexists. reflexivity.
Qed.

(** ** From [main] to the evaluation of the listed runs *)

Section Evaluation.

Variable rt : runtime.

(** With a complete configuration [main] comes to the list-runs call. *)
Lemma main_configured env w repo token n :
  configured rt env repo token n ->
  main rt env w =
  bind (_get_json rt
          (PStr (runs_url repo
                   (getenv env "PARITY_WORKFLOW_FILE" "parity-nightly.yml")
                   (getenv env "DEFAULT_BRANCH" "main"))) token)
       (main_on_payload rt repo token n) w.
Proof.
  intros (Hrepo & Hrne & Htoken & Htne & Hint & Hvalid).
  unfold main. rewrite Hrepo, Htoken.
  rewrite (bind_eval _ _ _ _ Hint).
  destruct repo as [ | c repo' ]; [ contradiction | ].
  destruct token as [ | c' token' ]; [ contradiction | ].
  unfold parse_quote. rewrite Hvalid.
  rewrite (bind_eval _ _ _ _ eq_refl). reflexivity.
Qed.

Lemma main_lists_runs env w repo token n payload w1 :
  lists_runs rt env w repo token n payload w1 ->
  main rt env w = main_on_payload rt repo token n payload w1.
Proof.
  intros (Hconf & Hget).
  rewrite (main_configured env w repo token n Hconf).
  rewrite (bind_ok _ _ _ _ _ Hget). reflexivity.
Qed.

Lemma run_script_lists_runs env w repo token n payload w1 status w2 :
  lists_runs rt env w repo token n payload w1 ->
  main_on_payload rt repo token n payload w1 = (Ok status, w2) ->
  run_script rt env w = (status, w2).
Proof.
  intros Hl Hm. unfold run_script.
  rewrite (main_lists_runs _ _ _ _ _ _ _ Hl), Hm. reflexivity.
Qed.

Lemma for_runs_cons repo token idx run rest :
  for_runs rt repo token idx (run :: rest) =
  bind (evaluate_run rt repo token idx run)
       (fun early =>
          match early with
          | Some code => ret (Some code)
          | None => for_runs rt repo token (idx + 1) rest
          end).
Proof. reflexivity. Qed.

(** A run that passes steps (a)-(c) lets the loop go on. *)
Lemma evaluate_run_passes repo token idx run report w w1 :
  py_get run "conclusion" PNone = Ok (PStr "success") ->
  _load_report_from_run rt repo run token w = (Ok report, w1) ->
  _report_passes report = Ok true ->
  evaluate_run rt repo token idx run w = (Ok None, w1).
Proof.
  intros Hc Hload Hpass.
  destruct (py_get_total _ _ _ _ Hc "id" PNone) as [run_id Hid].
  unfold evaluate_run.
  rewrite (bind_eval _ _ _ _ Hid), (bind_eval _ _ _ _ Hc). simpl.
  rewrite (bind_try _ _ _ _ _ Hload).
  rewrite (bind_eval _ _ _ _ Hpass). reflexivity.
Qed.

(** The loop runs through a passing window without returning. *)
Lemma for_runs_passes repo token rs w w' :
  window_passes rt repo token rs w w' ->
  forall idx, for_runs rt repo token idx rs w = (Ok None, w').
Proof.
  induction 1 as [ w | run rest report w w1 w2 Hc Hload Hpass _ IH ]; intros idx.
  - reflexivity.
  - simpl.
    rewrite (bind_ok _ _ _ _ _ (evaluate_run_passes _ _ idx _ _ _ _ Hc Hload Hpass)).
    apply IH.
Qed.

(** The evaluation of a listing whose window is [target]. *)
Lemma main_on_payload_window repo token n payload runs w :
  py_get payload "workflow_runs" (PList []) = Ok (PList runs) ->
  n <= Z.of_nat (List.length runs) ->
  main_on_payload rt repo token n payload w =
  bind (for_runs rt repo token 1 (slice_to n runs))
       (fun early =>
          match early with
          | Some code => ret code
          | None =>
              bind (print [Lit "Parity streak gate passed: last "; Fmt (PInt n);
                           Lit " nightly runs succeeded with passing journey reports"])
                   (fun _ => ret 0)
          end) w.
Proof.
  intros Hruns Hlen. unfold main_on_payload.
  rewrite (bind_eval _ _ _ _ Hruns). simpl py_len.
  rewrite (bind_eval _ _ _ _ eq_refl).
  destruct (Z.ltb_spec (Z.of_nat (List.length runs)) n) as [Hlt | _]; [ lia | ].
  simpl py_slice_to. rewrite (bind_eval _ _ _ _ eq_refl).
  simpl py_iter. rewrite (bind_eval _ _ _ _ eq_refl).
  reflexivity.
Qed.

End Evaluation.

(** ** The streak *)

(** For a streak that is a count, the slice is the first entries. *)
Lemma slice_to_firstn {A : Type} (n : nat) (l : list A) :
  slice_to (Z.of_nat n) l = firstn n l.
Proof.
  unfold slice_to. destruct (Z.leb_spec 0 (Z.of_nat n)) as [_ | Hneg]; [ | lia ].
  rewrite Nat2Z.id. reflexivity.
Qed.

(** C1. When the configuration is complete, the provider lists at least
    [streak] runs and each of the first [streak] runs listed has conclusion
    "success" and a report that is extracted and satisfies the pass policy,
    the script exits with status 0 after printing on stdout the summary line
    that names the streak length; nothing is written on stderr.  The runs
    listed after the first [streak] are arbitrary. *)
Theorem full_streak_passes (rt : runtime) (env : string -> option string)
    (repo token : string) (streak : nat) (payload : pyval)
    (runs : list pyval) (w w1 w2 : world) :
  lists_runs rt env w repo token (Z.of_nat streak) payload w1 ->
  py_get payload "workflow_runs" (PList []) = Ok (PList runs) ->
  (streak <= List.length runs)%nat ->
  window_passes rt repo token (firstn streak runs) w1 w2 ->
  run_script rt env w =
  (0, write_stdout
        [Lit "Parity streak gate passed: last "; Fmt (PInt (Z.of_nat streak));
         Lit " nightly runs succeeded with passing journey reports"] w2).
Proof.
  intros Hl Hruns Hlen Hwin.
  apply (run_script_lists_runs _ _ _ _ _ _ _ _ _ _ Hl).
  rewrite (main_on_payload_window _ _ _ _ _ _ _ Hruns) by lia.
  rewrite slice_to_firstn.
  rewrite (bind_ok _ _ _ _ _ (for_runs_passes _ _ _ _ _ _ Hwin 1)).
  reflexivity.
Qed.

(** Five runs are listed, of which the fourth failed and the fifth was
    cancelled; the streak of 3 holds on the first three. *)
Lemma full_streak_passes_witness :
  exists w2,
    run_script (Mock.runtime_of Cases.long_history) (Mock.env_of Mock.base_vars)
               initial_world
    = (0, write_stdout
            [Lit "Parity streak gate passed: last "; Fmt (PInt (Z.of_nat 3));
             Lit " nightly runs succeeded with passing journey reports"] w2)
    /\ List.length (requests w2) = 7%nat.
Proof.
  eexists. split.
  - eapply (full_streak_passes (Mock.runtime_of Cases.long_history)
              (Mock.env_of Mock.base_vars) "acme/cli" "s3cret" 3
              (PDict [("workflow_runs",
                       PList [Mock.run 101 "success"; Mock.run 102 "success";
                              Mock.run 103 "success"; Mock.run 104 "failure";
                              Mock.run 105 "cancelled"])])
              [Mock.run 101 "success"; Mock.run 102 "success";
               Mock.run 103 "success"; Mock.run 104 "failure";
               Mock.run 105 "cancelled"]).
    + repeat split; try reflexivity; discriminate.
    + reflexivity.
    + simpl. lia.
    + eapply window_cons; [ reflexivity | reflexivity | reflexivity | ].
      eapply window_cons; [ reflexivity | reflexivity | reflexivity | ].
      eapply window_cons; [ reflexivity | reflexivity | reflexivity | ].
      apply window_nil.
  - reflexivity.
Defined.

(** C3. When the provider lists fewer runs than [required_streak], the
    script exits with status 1 after printing on stderr a line that cites
    the required streak and the number of runs found, whatever the listed
    runs are; no further request is made. *)
Theorem short_history_fails (rt : runtime) (env : string -> option string)
    (repo token : string) (required_streak : Z) (payload : pyval)
    (runs : list pyval) (w w1 : world) :
  lists_runs rt env w repo token required_streak payload w1 ->
  py_get payload "workflow_runs" (PList []) = Ok (PList runs) ->
  Z.of_nat (List.length runs) < required_streak ->
  run_script rt env w =
  (1, write_stderr
        [Lit "Parity streak gate failed: need "; Fmt (PInt required_streak);
         Lit " completed nightly runs, found ";
         Fmt (PInt (Z.of_nat (List.length runs)))] w1).
Proof.
  intros Hl Hruns Hlen.
  apply (run_script_lists_runs _ _ _ _ _ _ _ _ _ _ Hl).
  unfold main_on_payload.
  rewrite (bind_eval _ _ _ _ Hruns). simpl py_len.
  rewrite (bind_eval _ _ _ _ eq_refl).
  destruct (Z.ltb_spec (Z.of_nat (List.length runs)) required_streak) as [_ | Hge];
    [ reflexivity | lia ].
Qed.

Lemma short_history_fails_witness :
  run_script (Mock.runtime_of Mock.short_history) (Mock.env_of Mock.base_vars)
             initial_world
  = (1, mkWorld
          [mkRequest (PStr Mock.list_url) (_headers "s3cret") 30]
          []
          [[Lit "Parity streak gate failed: need "; Fmt (PInt 3);
            Lit " completed nightly runs, found "; Fmt (PInt 1)]]).
Proof.
  apply (short_history_fails (Mock.runtime_of Mock.short_history)
           (Mock.env_of Mock.base_vars) "acme/cli" "s3cret" 3
           (PDict [("workflow_runs", PList [Mock.run 101 "success"])])
           [Mock.run 101 "success"] initial_world
           (log_request (mkRequest (PStr Mock.list_url) (_headers "s3cret") 30)
                        initial_world)).
  - repeat split; try reflexivity; discriminate.
  - reflexivity.
  - simpl. lia.
Defined.

(** ** Failing runs *)

Section Failure.

Variable rt : runtime.
Variables repo token : string.

(** Step (a): a run whose conclusion is not "success" makes the body
    return 1 at once, without any request. *)
Lemma evaluate_run_not_success idx run run_id conclusion w :
  py_get run "id" PNone = Ok run_id ->
  py_get run "conclusion" PNone = Ok conclusion ->
  eq_str conclusion "success" = false ->
  evaluate_run rt repo token idx run w =
  (Ok (Some 1),
   write_stderr [Lit "Parity streak gate failed: run #"; Fmt (PInt idx);
                 Lit " (id="; Fmt run_id; Lit ") conclusion="; Fmt conclusion] w).
Proof.
  intros Hid Hc Hne. unfold evaluate_run.
  rewrite (bind_eval _ _ _ _ Hid), (bind_eval _ _ _ _ Hc), Hne. reflexivity.
Qed.

(** Step (b): an exception of the loader is caught and reported. *)
Lemma evaluate_run_load_error idx run exc w w' :
  py_get run "conclusion" PNone = Ok (PStr "success") ->
  _load_report_from_run rt repo run token w = (Raise exc, w') ->
  evaluate_run rt repo token idx run w =
  (Ok (Some 1),
   write_stderr (Lit "Parity streak gate failed: " :: exn_str exc) w').
Proof.
  intros Hc Hload.
  destruct (py_get_total _ _ _ _ Hc "id" PNone) as [run_id Hid].
  unfold evaluate_run.
  rewrite (bind_eval _ _ _ _ Hid), (bind_eval _ _ _ _ Hc). simpl.
  rewrite (bind_try _ _ _ _ _ Hload). reflexivity.
Qed.

(** The body continues, returns 1 or lets an exception escape: it never
    returns another status. *)
Lemma evaluate_run_outcome idx run w :
  fst (evaluate_run rt repo token idx run w) = Ok None \/
  fst (evaluate_run rt repo token idx run w) = Ok (Some 1) \/
  exists e, fst (evaluate_run rt repo token idx run w) = Raise e.
Proof.
  unfold evaluate_run, bind, eval, try, eprint, ret.
  destruct (py_get run "id" PNone) as [run_id | e]; [ | simpl; eauto ].
  destruct (py_get run "conclusion" PNone) as [conclusion | e]; [ | simpl; eauto ].
  destruct (negb (eq_str conclusion "success")); [ simpl; auto | ].
  destruct (_load_report_from_run rt repo run token w) as [[report | e] w'];
    [ | simpl; auto ].
  destruct (_report_passes report) as [[ | ] | e]; simpl; eauto.
Qed.

(** Past a passing prefix the loop continues with the rest, the index
    advanced by the length of the prefix. *)
Lemma for_runs_app_passes before rest w w' :
  window_passes rt repo token before w w' ->
  forall idx,
    for_runs rt repo token idx (before ++ rest) w =
    for_runs rt repo token (idx + Z.of_nat (List.length before)) rest w'.
Proof.
  induction 1 as [ w | run others report w w1 w2 Hc Hload Hpass _ IH ]; intros idx.
  - simpl. f_equal. lia.
  - simpl app. simpl for_runs.
    rewrite (bind_ok _ _ _ _ _
               (evaluate_run_passes rt _ _ idx _ _ _ _ Hc Hload Hpass)).
    rewrite IH. f_equal. simpl List.length. lia.
Qed.

(** A run known to make the body return 1 stops the loop wherever it
    stands: the runs after it play no part in the outcome. *)
Lemma for_runs_ignores_later before run later later' :
  (forall idx w, exists w',
      evaluate_run rt repo token idx run w = (Ok (Some 1), w')) ->
  forall idx w,
    for_runs rt repo token idx (before ++ run :: later) w =
    for_runs rt repo token idx (before ++ run :: later') w.
Proof.
  intros Hstop.
  induction before as [ | r before IH ]; intros idx w; simpl.
  - destruct (Hstop idx w) as [w' Hw'].
    rewrite !(bind_ok _ _ _ _ _ Hw'). reflexivity.
  - unfold bind.
    destruct (evaluate_run rt repo token idx r w) as [[[code | ] | e] w'];
      try reflexivity.
    apply IH.
Qed.

(** With such a run in the window the loop returns 1 or raises. *)
Lemma for_runs_fails before run later :
  (forall idx w, exists w',
      evaluate_run rt repo token idx run w = (Ok (Some 1), w')) ->
  forall idx w,
    fst (for_runs rt repo token idx (before ++ run :: later) w) = Ok (Some 1) \/
    exists e, fst (for_runs rt repo token idx (before ++ run :: later) w) = Raise e.
Proof.
  intros Hstop.
  induction before as [ | r before IH ]; intros idx w; simpl.
  - destruct (Hstop idx w) as [w' Hw'].
    rewrite (bind_ok _ _ _ _ _ Hw'). left. reflexivity.
  - unfold bind.
    destruct (evaluate_run_outcome idx r w) as [H | [H | [e H]]];
      destruct (evaluate_run rt repo token idx r w) as [res w'];
      simpl in H; subst res.
    + apply IH.
    + left. reflexivity.
    + right. exists e. reflexivity.
Qed.

End Failure.

(** When the loop over the window returns 1 or raises, the script exits
    with status 1. *)
Lemma run_script_status_of_loop rt env repo token n payload runs w w1 :
  lists_runs rt env w repo token n payload w1 ->
  py_get payload "workflow_runs" (PList []) = Ok (PList runs) ->
  n <= Z.of_nat (List.length runs) ->
  (fst (for_runs rt repo token 1 (slice_to n runs) w1) = Ok (Some 1) \/
   exists e, fst (for_runs rt repo token 1 (slice_to n runs) w1) = Raise e) ->
  fst (run_script rt env w) = 1.
Proof.
  intros Hl Hruns Hlen Hloop. unfold run_script.
  rewrite (main_lists_runs _ _ _ _ _ _ _ _ Hl).
  rewrite (main_on_payload_window _ _ _ _ _ _ _ Hruns Hlen).
  unfold bind.
  destruct (for_runs rt repo token 1 (slice_to n runs) w1) as [res w2].
  simpl in Hloop. destruct Hloop as [-> | [e ->]]; reflexivity.
Qed.

(** C2, as the script has it.  Let the run at position [i] of the window
    ([i] is one more than the length of [before]) have a conclusion other
    than "success".  Then the script exits with status 1, and the loop
    behaves on the window as on the window cut after position [i], whatever
    the later runs are: they are neither fetched nor evaluated.  When the
    runs before position [i] pass, the line printed on stderr cites the
    index [i], the id and the conclusion of the run, and the final world is
    the one left by the earlier runs. *)
Theorem first_failure_short_circuits (rt : runtime) (env : string -> option string)
    (repo token : string) (required_streak : Z) (payload : pyval)
    (runs before later : list pyval) (run run_id conclusion : pyval)
    (w w1 : world) :
  lists_runs rt env w repo token required_streak payload w1 ->
  py_get payload "workflow_runs" (PList []) = Ok (PList runs) ->
  required_streak <= Z.of_nat (List.length runs) ->
  slice_to required_streak runs = (before ++ run :: later)%list ->
  py_get run "id" PNone = Ok run_id ->
  py_get run "conclusion" PNone = Ok conclusion ->
  eq_str conclusion "success" = false ->
  fst (run_script rt env w) = 1
  /\ (forall w2,
        window_passes rt repo token before w1 w2 ->
        run_script rt env w =
        (1, write_stderr
              [Lit "Parity streak gate failed: run #";
               Fmt (PInt (Z.of_nat (List.length before) + 1));
               Lit " (id="; Fmt run_id; Lit ") conclusion="; Fmt conclusion] w2))
  /\ (forall others idx w',
        for_runs rt repo token idx (before ++ run :: others) w' =
        for_runs rt repo token idx (before ++ [run]) w').
Proof.
  intros Hl Hruns Hlen Hwin Hid Hc Hne.
  assert (Hstop : forall idx w0, exists w',
             evaluate_run rt repo token idx run w0 = (Ok (Some 1), w')).
  { intros idx w0. eexists.
    apply (evaluate_run_not_success rt repo token idx run run_id conclusion w0 Hid Hc Hne). }
  split; [ | split ].
  - apply (run_script_status_of_loop _ _ _ _ _ _ _ _ _ Hl Hruns Hlen).
    rewrite Hwin. apply for_runs_fails. exact Hstop.
  - intros w2 Hpre.
    apply (run_script_lists_runs _ _ _ _ _ _ _ _ _ _ Hl).
    rewrite (main_on_payload_window _ _ _ _ _ _ _ Hruns Hlen), Hwin.
    unfold bind at 1.
    rewrite (for_runs_app_passes _ _ _ _ _ _ _ Hpre), for_runs_cons.
    rewrite (bind_ok _ _ _ _ _
               (evaluate_run_not_success rt repo token _ run run_id conclusion w2
                  Hid Hc Hne)).
    unfold ret. rewrite (Z.add_comm 1). reflexivity.
  - intros others idx w'. apply for_runs_ignores_later. exact Hstop.
Qed.

Lemma first_failure_short_circuits_witness :
  fst (run_script (Mock.runtime_of Mock.middle_failed)
                  (Mock.env_of Mock.base_vars) initial_world) = 1
  /\ (forall w2,
        window_passes (Mock.runtime_of Mock.middle_failed) "acme/cli" "s3cret"
          [Mock.run 101 "success"]
          (log_request (mkRequest (PStr Mock.list_url) (_headers "s3cret") 30)
                       initial_world) w2 ->
        run_script (Mock.runtime_of Mock.middle_failed)
                   (Mock.env_of Mock.base_vars) initial_world =
        (1, write_stderr
              [Lit "Parity streak gate failed: run #"; Fmt (PInt 2);
               Lit " (id="; Fmt (PInt 102); Lit ") conclusion=";
               Fmt (PStr "failure")] w2))
  /\ (forall others idx w',
        for_runs (Mock.runtime_of Mock.middle_failed) "acme/cli" "s3cret" idx
                 ([Mock.run 101 "success"] ++ Mock.run 102 "failure" :: others) w' =
        for_runs (Mock.runtime_of Mock.middle_failed) "acme/cli" "s3cret" idx
                 ([Mock.run 101 "success"] ++ [Mock.run 102 "failure"]) w').
Proof.
  apply (first_failure_short_circuits (Mock.runtime_of Mock.middle_failed)
           (Mock.env_of Mock.base_vars) "acme/cli" "s3cret" 3
           (PDict [("workflow_runs",
                    PList [Mock.run 101 "success"; Mock.run 102 "failure";
                           Mock.run 103 "success"])])
           [Mock.run 101 "success"; Mock.run 102 "failure"; Mock.run 103 "success"]
           [Mock.run 101 "success"] [Mock.run 103 "success"]
           (Mock.run 102 "failure") (PInt 102) (PStr "failure") initial_world).
  - repeat split; try reflexivity; discriminate.
  - reflexivity.
  - simpl. lia.
  - reflexivity.
  - reflexivity.
  - reflexivity.
  - reflexivity.
Defined.

(** C2, as the claim states it, fails when an earlier run stops the
    evaluation: the run at position 2 has conclusion "failure", but the
    artifact listing of run 101 at position 1 is unreachable, and the only
    line printed cites neither the index 2, nor the id 102, nor the
    conclusion. *)
Lemma later_failure_is_not_cited :
  let rt := Mock.runtime_of Mock.unreachable_then_failed in
  let out := run_script rt (Mock.env_of Mock.base_vars) initial_world in
  lists_runs rt (Mock.env_of Mock.base_vars) initial_world "acme/cli" "s3cret" 3
    (PDict [("workflow_runs",
             PList [Mock.run 101 "success"; Mock.run 102 "failure";
                    Mock.run 103 "success"])])
    (log_request (mkRequest (PStr Mock.list_url) (_headers "s3cret") 30)
                 initial_world)
  /\ py_get (Mock.run 102 "failure") "conclusion" PNone = Ok (PStr "failure")
  /\ fst out = 1
  /\ stderr (snd out) =
     [[Lit "Parity streak gate failed: "; Lit "<urlopen error timed out>"]]
  /\ map render (stderr (snd out)) =
     [Some "Parity streak gate failed: <urlopen error timed out>"]
  /\ ~ (exists line,
          In line (stderr (snd out)) /\
          (cites (PInt 2) line \/ cites (PInt 102) line
           \/ cites (PStr "failure") line)).
Proof.
  intros rt out.
  split; [ repeat split; try reflexivity; discriminate | ].
  repeat (split; [ reflexivity | ]).
  intros (line & Hline & Hcites).
  destruct Hline as [<- | []]. unfold cites in Hcites. simpl in Hcites.
  destruct Hcites as [[H | [H | []]] | [[H | [H | []]] | [H | [H | []]]]];
    discriminate H.
Qed.

(** The example of the specification: three successful runs whose reports
    pass give status 0 and a line citing the streak of 3; with the middle
    run failed the status is 1, the line cites run #2 and only the first
    run's report was fetched. *)
Example three_green_runs :
  let out := run_script (Mock.runtime_of Mock.green)
                        (Mock.env_of Mock.base_vars) initial_world in
  fst out = 0
  /\ map render (stdout (snd out)) =
     [Some "Parity streak gate passed: last 3 nightly runs succeeded with passing journey reports"]
  /\ stderr (snd out) = [].
Proof. repeat split; reflexivity. Qed.

Example middle_run_failed :
  let out := run_script (Mock.runtime_of Mock.middle_failed)
                        (Mock.env_of Mock.base_vars) initial_world in
  fst out = 1
  /\ map render (stderr (snd out)) =
     [Some "Parity streak gate failed: run #2 (id=102) conclusion=failure"]
  /\ map req_url (requests (snd out)) =
     [PStr Mock.list_url; PStr (Mock.artifacts_url 101); PStr (Mock.archive_url 101)].
Proof. repeat split; reflexivity. Qed.

(** ** Configuration *)

(** C8. When the repository identifier or the credential is missing from
    the environment (unset or empty), the script exits with status 1 with
    one diagnostic line on stderr and without any request, whatever the
    other variables hold.  The line names the missing variable; when the
    streak length does not parse, which [main] finds out first, it is the
    traceback of that error instead. *)
Theorem missing_configuration_fails (rt : runtime) (env : string -> option string)
    (w : world) :
  env "GITHUB_REPOSITORY" = None \/ env "GITHUB_REPOSITORY" = Some "" \/
  env "GITHUB_TOKEN" = None \/ env "GITHUB_TOKEN" = Some "" ->
  exists line,
    run_script rt env w = (1, write_stderr line w)
    /\ requests (snd (run_script rt env w)) = requests w
    /\ match int_of_str rt (getenv env "PARITY_REQUIRED_STREAK" "3") with
       | Ok _ => line = [Lit "GITHUB_REPOSITORY is required"]
                 \/ line = [Lit "GITHUB_TOKEN is required"]
       | Raise e => line = traceback e
       end.
Proof.
  intros Hmissing. unfold run_script, main.
  destruct (int_of_str rt (getenv env "PARITY_REQUIRED_STREAK" "3")) as [n | e].
  - rewrite (bind_eval _ _ _ _ eq_refl).
    destruct (env "GITHUB_REPOSITORY") as [[ | c repo] | ];
      try (eexists; repeat split; left; reflexivity).
    destruct (env "GITHUB_TOKEN") as [[ | c' token] | ];
      try (eexists; repeat split; right; reflexivity).
    exfalso. destruct Hmissing as [H | [H | [H | H]]]; discriminate H.
  - eexists. repeat split.
Qed.

Lemma missing_configuration_fails_witness :
  exists line,
    run_script (Mock.runtime_of Mock.green)
               (Mock.env_of [("GITHUB_REPOSITORY", "acme/cli");
                             ("PARITY_REQUIRED_STREAK", "5")]) initial_world
    = (1, write_stderr line initial_world)
    /\ requests (snd (run_script (Mock.runtime_of Mock.green)
                        (Mock.env_of [("GITHUB_REPOSITORY", "acme/cli");
                                      ("PARITY_REQUIRED_STREAK", "5")])
                        initial_world)) = requests initial_world
    /\ match int_of_str (Mock.runtime_of Mock.green)
               (getenv (Mock.env_of [("GITHUB_REPOSITORY", "acme/cli");
                                     ("PARITY_REQUIRED_STREAK", "5")])
                       "PARITY_REQUIRED_STREAK" "3") with
       | Ok _ => line = [Lit "GITHUB_REPOSITORY is required"]
                 \/ line = [Lit "GITHUB_TOKEN is required"]
       | Raise e => line = traceback e
       end.
Proof.
  apply missing_configuration_fails.
  right. right. left. reflexivity.
Defined.

(** ** Errors while loading a report *)

Section Loading.

Variable rt : runtime.
Variables repo token : string.

Lemma load_missing_artifact run run_id w :
  missing_artifact rt run token w ->
  py_get run "id" PNone = Ok run_id ->
  exists w',
    _load_report_from_run rt repo run token w =
    (Raise (RuntimeError [Lit "run "; Fmt run_id;
                          Lit " missing parity-journey-report artifact"]), w').
Proof.
  intros (url & listing & w' & artifacts & items & Hurl & Hget & Harts & Hiter & Hfind)
         Hid.
  exists w'. unfold _load_report_from_run.
  rewrite (bind_eval _ _ _ _ Hurl), (bind_ok _ _ _ _ _ Hget).
  rewrite (bind_eval _ _ _ _ Harts), (bind_eval _ _ _ _ Hiter).
  rewrite (bind_eval _ _ _ _ Hfind), (bind_eval _ _ _ _ Hid).
  reflexivity.
Qed.

Lemma load_missing_report_file run run_id w :
  missing_report_file rt run token w ->
  py_get run "id" PNone = Ok run_id ->
  exists w',
    _load_report_from_run rt repo run token w =
    (Raise (RuntimeError [Lit "run "; Fmt run_id;
                          Lit " artifact missing parity_journey_report.json"]), w').
Proof.
  intros (url & listing & w' & artifacts & items & artifact & download_url
          & archive & w'' & names
          & Hurl & Hget & Harts & Hiter & Hfind & Hdl & Hbytes & Hnames & Hnone)
         Hid.
  exists w''. unfold _load_report_from_run.
  rewrite (bind_eval _ _ _ _ Hurl), (bind_ok _ _ _ _ _ Hget).
  rewrite (bind_eval _ _ _ _ Harts), (bind_eval _ _ _ _ Hiter).
  rewrite (bind_eval _ _ _ _ Hfind), (bind_eval _ _ _ _ Hdl).
  rewrite (bind_ok _ _ _ _ _ Hbytes), (bind_eval _ _ _ _ Hnames), Hnone.
  rewrite (bind_eval _ _ _ _ Hid).
  reflexivity.
Qed.

End Loading.

(** C6, as the script has it.  When the evaluator reaches a run whose
    conclusion is "success" and loading its report raises an exception, the
    script exits with status 1 and the line printed on stderr is the fixed
    prefix followed by the message of the exception.  The line cites the id
    of the run when the error is one of the loader's own: no artifact named
    parity-journey-report, or no report file in the archive. *)
Theorem load_error_fails (rt : runtime) (env : string -> option string)
    (repo token : string) (required_streak : Z) (payload : pyval)
    (runs before later : list pyval) (run : pyval) (exc : exn)
    (w w1 w2 w3 : world) :
  lists_runs rt env w repo token required_streak payload w1 ->
  py_get payload "workflow_runs" (PList []) = Ok (PList runs) ->
  required_streak <= Z.of_nat (List.length runs) ->
  slice_to required_streak runs = (before ++ run :: later)%list ->
  window_passes rt repo token before w1 w2 ->
  py_get run "conclusion" PNone = Ok (PStr "success") ->
  _load_report_from_run rt repo run token w2 = (Raise exc, w3) ->
  run_script rt env w =
  (1, write_stderr (Lit "Parity streak gate failed: " :: exn_str exc) w3)
  /\ (missing_artifact rt run token w2 \/ missing_report_file rt run token w2 ->
      forall run_id,
        py_get run "id" PNone = Ok run_id ->
        cites run_id (Lit "Parity streak gate failed: " :: exn_str exc)).
Proof.
  intros Hl Hruns Hlen Hwin Hpre Hc Hload. split.
  - apply (run_script_lists_runs _ _ _ _ _ _ _ _ _ _ Hl).
    rewrite (main_on_payload_window _ _ _ _ _ _ _ Hruns Hlen), Hwin.
    unfold bind at 1.
    rewrite (for_runs_app_passes _ _ _ _ _ _ _ Hpre), for_runs_cons.
    rewrite (bind_ok _ _ _ _ _
               (evaluate_run_load_error rt repo token _ run exc w2 w3 Hc Hload)).
    reflexivity.
  - intros Hmissing run_id Hid. unfold cites.
    destruct Hmissing as [Hm | Hm].
    + destruct (load_missing_artifact rt repo token run run_id w2 Hm Hid)
        as [w' Hraise].
      rewrite Hraise in Hload. injection Hload as <- _. simpl. auto.
    + destruct (load_missing_report_file rt repo token run run_id w2 Hm Hid)
        as [w' Hraise].
      rewrite Hraise in Hload. injection Hload as <- _. simpl. auto.
Qed.

Lemma load_error_fails_witness :
  let rt := Mock.runtime_of Mock.artifact_missing in
  let w1 := log_request (mkRequest (PStr Mock.list_url) (_headers "s3cret") 30)
                        initial_world in
  let w3 := log_request (mkRequest (PStr (Mock.artifacts_url 101))
                                   (_headers "s3cret") 30) w1 in
  let exc := RuntimeError [Lit "run "; Fmt (PInt 101);
                           Lit " missing parity-journey-report artifact"] in
  run_script rt (Mock.env_of Mock.base_vars) initial_world =
  (1, write_stderr (Lit "Parity streak gate failed: " :: exn_str exc) w3)
  /\ (missing_artifact rt (Mock.run 101 "success") "s3cret" w1
      \/ missing_report_file rt (Mock.run 101 "success") "s3cret" w1 ->
      forall run_id,
        py_get (Mock.run 101 "success") "id" PNone = Ok run_id ->
        cites run_id (Lit "Parity streak gate failed: " :: exn_str exc)).
Proof.
  intros rt w1 w3 exc.
  apply (load_error_fails rt (Mock.env_of Mock.base_vars) "acme/cli" "s3cret" 3
           (PDict [("workflow_runs",
                    PList [Mock.run 101 "success"; Mock.run 102 "success";
                           Mock.run 103 "success"])])
           [Mock.run 101 "success"; Mock.run 102 "success"; Mock.run 103 "success"]
           [] [Mock.run 102 "success"; Mock.run 103 "success"]
           (Mock.run 101 "success") exc initial_world w1 w1 w3).
  - repeat split; try reflexivity; discriminate.
  - reflexivity.
  - simpl. lia.
  - reflexivity.
  - apply window_nil.
  - reflexivity.
  - reflexivity.
Defined.

(** C6, as the claim states it, fails when the error comes from the
    network: run 101 has conclusion "success", fetching its artifact
    listing times out, and the line printed holds the message of the error
    but not the id of the run. *)
Lemma load_error_line_omits_run_id :
  let rt := Mock.runtime_of Mock.artifacts_unreachable in
  let w1 := log_request (mkRequest (PStr Mock.list_url) (_headers "s3cret") 30)
                        initial_world in
  let out := run_script rt (Mock.env_of Mock.base_vars) initial_world in
  py_get (Mock.run 101 "success") "conclusion" PNone = Ok (PStr "success")
  /\ py_get (Mock.run 101 "success") "id" PNone = Ok (PInt 101)
  /\ fst (_load_report_from_run rt "acme/cli" (Mock.run 101 "success") "s3cret" w1)
     = Raise (Mock.URLError "timed out")
  /\ fst out = 1
  /\ stderr (snd out) =
     [[Lit "Parity streak gate failed: "; Lit "<urlopen error timed out>"]]
  /\ map render (stderr (snd out)) =
     [Some "Parity streak gate failed: <urlopen error timed out>"]
  /\ ~ (exists line, stderr (snd out) = [line] /\ cites (PInt 101) line).
Proof.
  intros rt w1 out.
  repeat (split; [ reflexivity | ]).
  intros (line & Hline & Hcites).
  injection Hline as <-. unfold cites in Hcites. simpl in Hcites.
  destruct Hcites as [H | [H | []]]; discriminate H.
Qed.

(** ** A listing without runs *)

(** C10, as the script has it.  When the list-runs response is an object
    without the key [workflow_runs] and the required streak is at least 1,
    the script takes the run list to be empty: it exits with status 1 and
    the line on stderr cites the required streak and 0 runs found. *)
Theorem missing_runs_key_is_empty_history (rt : runtime)
    (env : string -> option string) (repo token : string) (required_streak : Z)
    (d : list (string * pyval)) (w w1 : world) :
  lists_runs rt env w repo token required_streak (PDict d) w1 ->
  dict_lookup "workflow_runs" d = None ->
  1 <= required_streak ->
  run_script rt env w =
  (1, write_stderr
        [Lit "Parity streak gate failed: need "; Fmt (PInt required_streak);
         Lit " completed nightly runs, found "; Fmt (PInt 0)] w1).
Proof.
  intros Hl Hkey Hpos.
  apply (run_script_lists_runs _ _ _ _ _ _ _ _ _ _ Hl).
  unfold main_on_payload. simpl py_get. rewrite Hkey.
  rewrite (bind_eval _ _ _ _ eq_refl). simpl py_len.
  rewrite (bind_eval _ _ _ _ eq_refl).
  destruct (Z.ltb_spec 0 required_streak) as [_ | Hge]; [ reflexivity | lia ].
Qed.

Lemma missing_runs_key_is_empty_history_witness :
  run_script (Mock.runtime_of Mock.no_runs_key) (Mock.env_of Mock.base_vars)
             initial_world =
  (1, write_stderr
        [Lit "Parity streak gate failed: need "; Fmt (PInt 3);
         Lit " completed nightly runs, found "; Fmt (PInt 0)]
        (log_request (mkRequest (PStr Mock.list_url) (_headers "s3cret") 30)
                     initial_world)).
Proof.
  apply (missing_runs_key_is_empty_history (Mock.runtime_of Mock.no_runs_key)
           (Mock.env_of Mock.base_vars) "acme/cli" "s3cret" 3
           [("total_count", PInt 0)] initial_world).
  - repeat split; try reflexivity; discriminate.
  - reflexivity.
  - lia.
Defined.

(** C10, as the claim states it, fails for a required streak of 0: the
    response lacks [workflow_runs], yet no failure is reported; the script
    prints the success line and exits with status 0. *)
Lemma missing_runs_key_passes_zero_streak :
  let rt := Mock.runtime_of Mock.no_runs_key in
  let env := Mock.env_of (("PARITY_REQUIRED_STREAK", "0") :: Mock.base_vars) in
  let w1 := log_request (mkRequest (PStr Mock.list_url) (_headers "s3cret") 30)
                        initial_world in
  lists_runs rt env initial_world "acme/cli" "s3cret" 0
             (PDict [("total_count", PInt 0)]) w1
  /\ dict_lookup "workflow_runs" [("total_count", PInt 0)] = None
  /\ run_script rt env initial_world =
     (0, write_stdout
           [Lit "Parity streak gate passed: last "; Fmt (PInt 0);
            Lit " nightly runs succeeded with passing journey reports"] w1)
  /\ stderr (snd (run_script rt env initial_world)) = [].
Proof.
  intros rt env w1.
  split; [ repeat split; try reflexivity; discriminate | ].
  repeat split; reflexivity.
Qed.

(** ** The list-runs request *)

Lemma append_assoc (a b c : string) : (a ++ b) ++ c = a ++ (b ++ c).
Proof. induction a as [ | x a IH ]; simpl; [ reflexivity | now rewrite IH ]. Qed.

Lemma contains_char_app (c : ascii) (a b : string) :
  contains_char c (a ++ b) = contains_char c a || contains_char c b.
Proof.
  induction a as [ | x a IH ]; simpl; [ reflexivity | ].
  rewrite IH. apply orb_assoc.
Qed.

Lemma partition_app (c : ascii) (a b : string) :
  contains_char c a = false ->
  partition c (a ++ String c b) = (a, Some b).
Proof.
  induction a as [ | x a IH ]; simpl; intros H.
  - rewrite Ascii.eqb_refl. reflexivity.
  - apply orb_false_iff in H. destruct H as [Hx Ha].
    rewrite Hx, (IH Ha). reflexivity.
Qed.

Lemma split_on_app (c : ascii) (a b : string) :
  contains_char c a = false ->
  split_on c (a ++ String c b) = a :: split_on c b.
Proof.
  induction a as [ | x a IH ]; simpl; intros H.
  - rewrite Ascii.eqb_refl. reflexivity.
  - apply orb_false_iff in H. destruct H as [Hx Ha].
    rewrite Hx, (IH Ha). reflexivity.
Qed.

Lemma always_safe_hex_digit (n : nat) : always_safe (hex_digit n) = true.
Proof. do 16 (destruct n as [ | n ]; [ reflexivity | ]). reflexivity. Qed.

Lemma always_safe_differs (a c : ascii) :
  always_safe a = true -> always_safe c = false -> Ascii.eqb a c = false.
Proof.
  intros Ha Hc. apply Ascii.eqb_neq. intros ->. rewrite Ha in Hc. discriminate Hc.
Qed.

Lemma percent_encode_chars (c a : ascii) :
  always_safe c = false -> c <> "%"%char ->
  contains_char c (percent_encode a) = false.
Proof.
  intros Hc Hpct. unfold percent_encode. cbn [contains_char].
  rewrite (always_safe_differs _ c (always_safe_hex_digit _) Hc).
  rewrite (always_safe_differs _ c (always_safe_hex_digit _) Hc).
  destruct (Ascii.eqb_spec "%" c) as [E | _]; [ | reflexivity ].
  exfalso. apply Hpct. symmetry. exact E.
Qed.

(** A quoted text is made of safe bytes and of [%]. *)
Lemma quote_chars (c : ascii) (s : string) :
  always_safe c = false -> c <> "%"%char ->
  contains_char c (quote s) = false.
Proof.
  intros Hc Hpct.
  induction s as [ | a s IH ]; [ reflexivity | ].
  cbn [quote]. rewrite contains_char_app, IH, orb_false_r.
  destruct (always_safe a) eqn:Ha.
  - cbn [contains_char]. rewrite (always_safe_differs a c Ha Hc). reflexivity.
  - apply percent_encode_chars; assumption.
Qed.

Lemma partition_absent (c : ascii) (a : string) :
  contains_char c a = false -> partition c a = (a, None).
Proof.
  induction a as [ | x a IH ]; simpl; intros H; [ reflexivity | ].
  apply orb_false_iff in H. destruct H as [Hx Ha].
  rewrite Hx, (IH Ha). reflexivity.
Qed.

(** The query of the list-runs URL, when neither [?] nor [#] comes before
    it. *)
Lemma url_query_runs_url (repo workflow_file default_branch : string) :
  contains_char "?" repo = false ->
  contains_char "#" repo = false ->
  contains_char "?" workflow_file = false ->
  contains_char "#" workflow_file = false ->
  url_query (runs_url repo workflow_file default_branch) =
  Some ("branch=" ++ quote default_branch ++ "&status=completed&per_page=20").
Proof.
  intros Hrepo Hrepo' Hwf Hwf'. unfold url_query.
  rewrite (partition_absent "#").
  - cbn [fst]. unfold runs_url, runs_url_of, runs_query.
    replace ("https://api.github.com/repos/" ++ repo ++ "/actions/workflows/"
               ++ workflow_file ++ "/runs"
               ++ "?branch=" ++ quote default_branch
               ++ "&status=completed&per_page=20")
      with (("https://api.github.com/repos/" ++ repo ++ "/actions/workflows/"
               ++ workflow_file ++ "/runs")
              ++ String "?" ("branch=" ++ quote default_branch
                                       ++ "&status=completed&per_page=20"))
      by (rewrite !append_assoc; reflexivity).
    rewrite partition_app; [ reflexivity | ].
    rewrite !contains_char_app, Hrepo, Hwf. reflexivity.
  - unfold runs_url, runs_url_of, runs_query.
    rewrite !contains_char_app, Hrepo', Hwf'.
    rewrite (quote_chars "#" default_branch); [ reflexivity | reflexivity | discriminate ].
Qed.

Lemma query_fields_runs_query (encoded_branch : string) :
  contains_char "&" encoded_branch = false ->
  query_fields ("branch=" ++ encoded_branch ++ "&status=completed&per_page=20") =
  [("branch", encoded_branch); ("status", "completed"); ("per_page", "20")].
Proof.
  intros H. unfold query_fields.
  replace ("branch=" ++ encoded_branch ++ "&status=completed&per_page=20")
    with (("branch=" ++ encoded_branch) ++ String "&" "status=completed&per_page=20")
    by (rewrite append_assoc; reflexivity).
  rewrite split_on_app.
  - reflexivity.
  - rewrite contains_char_app, H. reflexivity.
Qed.

(** *** The log of requests only grows *)

Lemma grows_ret {A : Type} (a : A) : grows (ret a).
Proof. intros w. exists []. simpl. now rewrite app_nil_r. Qed.

Lemma grows_raise {A : Type} (e : exn) : grows (@raise A e).
Proof. intros w. exists []. simpl. now rewrite app_nil_r. Qed.

Lemma grows_eval {A : Type} (r : result A) : grows (eval r).
Proof. intros w. exists []. simpl. now rewrite app_nil_r. Qed.

Lemma grows_print (line : text) : grows (print line).
Proof. intros w. exists []. simpl. now rewrite app_nil_r. Qed.

Lemma grows_eprint (line : text) : grows (eprint line).
Proof. intros w. exists []. simpl. now rewrite app_nil_r. Qed.

Lemma grows_urlopen_read (rt : runtime) (req : request) :
  grows (urlopen_read rt req).
Proof. intros w. exists [req]. reflexivity. Qed.

Lemma grows_bind {A B : Type} (c : M A) (k : A -> M B) :
  grows c -> (forall a, grows (k a)) -> grows (bind c k).
Proof.
  intros Hc Hk w. unfold bind.
  destruct (Hc w) as [m1 H1]. destruct (c w) as [[a | e] w']; simpl in H1.
  - destruct (Hk a w') as [m2 H2]. exists (m1 ++ m2)%list.
    rewrite H2, H1. symmetry. apply app_assoc.
  - exists m1. exact H1.
Qed.

Lemma grows_try {A : Type} (c : M A) : grows c -> grows (try c).
Proof.
  intros Hc w. unfold try. destruct (Hc w) as [m H].
  destruct (c w) as [r w']. exists m. exact H.
Qed.

Ltac grows_step :=
  first
    [ apply grows_ret | apply grows_raise | apply grows_eval
    | apply grows_print | apply grows_eprint | apply grows_urlopen_read
    | apply grows_try
    | apply grows_bind; [ | intros ? ]
    | match goal with
      | |- grows (match ?x with _ => _ end) => destruct x
      end ].

Section Growth.

Variable rt : runtime.

Lemma grows_get_json url token : grows (_get_json rt url token).
Proof. unfold _get_json. repeat grows_step. Qed.

Lemma grows_load_report repo run token :
  grows (_load_report_from_run rt repo run token).
Proof.
  unfold _load_report_from_run.
  apply grows_bind; [ grows_step | intros url ].
  apply grows_bind; [ apply grows_get_json | intros listing ].
  unfold _download_bytes. repeat grows_step.
Qed.

Lemma grows_evaluate_run repo token idx run :
  grows (evaluate_run rt repo token idx run).
Proof.
  unfold evaluate_run.
  apply grows_bind; [ grows_step | intros run_id ].
  apply grows_bind; [ grows_step | intros conclusion ].
  destruct (negb (eq_str conclusion "success")); [ repeat grows_step | ].
  apply grows_bind; [ apply grows_try, grows_load_report | intros loaded ].
  repeat grows_step.
Qed.

Lemma grows_for_runs repo token rs :
  forall idx, grows (for_runs rt repo token idx rs).
Proof.
  induction rs as [ | run rest IH ]; intros idx; simpl.
  - apply grows_ret.
  - apply grows_bind; [ apply grows_evaluate_run | intros [code | ] ].
    + apply grows_ret.
    + apply IH.
Qed.

Lemma grows_main_on_payload repo token n payload :
  grows (main_on_payload rt repo token n payload).
Proof.
  unfold main_on_payload.
  apply grows_bind; [ grows_step | intros runs ].
  apply grows_bind; [ grows_step | intros found ].
  destruct (found <? n); [ repeat grows_step | ].
  apply grows_bind; [ grows_step | intros target ].
  apply grows_bind; [ grows_step | intros items ].
  apply grows_bind; [ apply grows_for_runs | intros early ].
  repeat grows_step.
Qed.

(** With a complete configuration the first request of the script is the
    list-runs request. *)
Lemma run_script_first_request env repo token n w :
  configured rt env repo token n ->
  exists more,
    requests (snd (run_script rt env w)) =
    (requests w ++ list_request env repo token :: more)%list.
Proof.
  intros Hconf.
  unfold run_script. rewrite (main_configured rt env w repo token n Hconf).
  unfold _get_json.
  set (req := mkRequest _ _ 30).
  change (list_request env repo token) with req.
  assert (Hrest : grows (fun w0 =>
            bind (bind (eval (http_get rt (requests w) req))
                       (fun body => bind (eval (decode_utf8 rt body))
                                         (fun decoded => eval (json_loads rt decoded))))
                 (main_on_payload rt repo token n) w0)).
  { apply grows_bind; [ | intros payload; apply grows_main_on_payload ].
    repeat grows_step. }
  destruct (Hrest (log_request req w)) as [more Hmore].
  exists more.
  unfold bind, urlopen_read, eval in *. simpl in Hmore.
  destruct (http_get rt (requests w) req) as [body | e]; simpl in *.
  - destruct (decode_utf8 rt body) as [decoded | e]; simpl in *.
    + destruct (json_loads rt decoded) as [payload | e]; simpl in *.
      * destruct (main_on_payload rt repo token n payload
                    (log_request req w)) as [[status | e] w'];
          simpl in *; rewrite Hmore, <- app_assoc; reflexivity.
      * rewrite Hmore, <- app_assoc; reflexivity.
    + rewrite Hmore, <- app_assoc; reflexivity.
  - rewrite Hmore, <- app_assoc; reflexivity.
Qed.

End Growth.

(** C7, as the script has it.  With a complete configuration, which
    includes a branch name that is UTF-8 text and so can be quoted, the
    first request of the script is the list-runs request; when neither [?]
    nor [#] occurs in the repository and workflow names, its query filters
    by the quoted branch and by status completed and asks for pages of 20
    runs, whatever the required streak is.  The page size is therefore at
    least the required streak exactly when the streak is at most 20. *)
Theorem list_request_is_filtered (rt : runtime) (env : string -> option string)
    (repo token : string) (required_streak : Z) (w : world) :
  configured rt env repo token required_streak ->
  contains_char "?" repo = false ->
  contains_char "#" repo = false ->
  contains_char "?" (getenv env "PARITY_WORKFLOW_FILE" "parity-nightly.yml") = false ->
  contains_char "#" (getenv env "PARITY_WORKFLOW_FILE" "parity-nightly.yml") = false ->
  (exists more,
      requests (snd (run_script rt env w)) =
      (requests w ++ list_request env repo token :: more)%list)
  /\ request_param "branch" (list_request env repo token) =
     Some (quote (getenv env "DEFAULT_BRANCH" "main"))
  /\ request_param "status" (list_request env repo token) = Some "completed"
  /\ page_size (list_request env repo token) = Some 20
  /\ (forall size,
        page_size (list_request env repo token) = Some size ->
        (required_streak <= size <-> required_streak <= 20)).
Proof.
  intros Hconf Hrepo Hrepo' Hwf Hwf'.
  assert (Hfields :
            forall key,
              request_param key (list_request env repo token) =
              field_value key
                [("branch", quote (getenv env "DEFAULT_BRANCH" "main"));
                 ("status", "completed"); ("per_page", "20")]).
  { intros key. unfold request_param, list_request. cbn [req_url].
    rewrite (url_query_runs_url _ _ _ Hrepo Hrepo' Hwf Hwf').
    rewrite query_fields_runs_query; [ reflexivity | ].
    apply quote_chars; [ reflexivity | discriminate ]. }
  assert (Hsize : page_size (list_request env repo token) = Some 20).
  { unfold page_size. rewrite Hfields. reflexivity. }
  split; [ apply (run_script_first_request rt env repo token required_streak w Hconf) | ].
  split; [ rewrite Hfields; reflexivity | ].
  split; [ rewrite Hfields; reflexivity | ].
  split; [ exact Hsize | ].
  intros size Hs. rewrite Hsize in Hs. injection Hs as <-. tauto.
Qed.

Lemma list_request_is_filtered_witness :
  let rt := Mock.runtime_of Mock.green in
  let env := Mock.env_of (("DEFAULT_BRANCH", "release/1.x") :: Mock.base_vars) in
  (exists more,
      requests (snd (run_script rt env initial_world)) =
      (requests initial_world ++ list_request env "acme/cli" "s3cret" :: more)%list)
  /\ request_param "branch" (list_request env "acme/cli" "s3cret") =
     Some (quote (getenv env "DEFAULT_BRANCH" "main"))
  /\ request_param "status" (list_request env "acme/cli" "s3cret") = Some "completed"
  /\ page_size (list_request env "acme/cli" "s3cret") = Some 20
  /\ (forall size,
        page_size (list_request env "acme/cli" "s3cret") = Some size ->
        (3 <= size <-> 3 <= 20)).
Proof.
  intros rt env.
  apply (list_request_is_filtered rt env "acme/cli" "s3cret" 3 initial_world).
  - repeat split; try reflexivity; discriminate.
  - reflexivity.
  - reflexivity.
  - reflexivity.
  - reflexivity.
Defined.

(** C7, as the claim states it, fails in three ways.  With a streak of 21
    the list-runs request, the only request made, still asks for pages of
    20 runs.  With a repository name that holds [#], the query written in
    the URL falls into the fragment and the request that is made carries no
    filter and no page size.  With a branch name that is not UTF-8 text,
    quoting raises before the URL is built: no request is made at all and
    the script ends with status 1. *)
Lemma list_request_not_as_claimed :
  let rt := Mock.runtime_of Mock.green in
  (let env := Mock.env_of (("PARITY_REQUIRED_STREAK", "21") :: Mock.base_vars) in
   configured rt env "acme/cli" "s3cret" 21
   /\ requests (snd (run_script rt env initial_world)) =
      [list_request env "acme/cli" "s3cret"]
   /\ request_param "per_page" (list_request env "acme/cli" "s3cret") = Some "20"
   /\ ~ (exists size,
           page_size (list_request env "acme/cli" "s3cret") = Some size
           /\ 21 <= size))
  /\ (let env := Mock.env_of [("GITHUB_REPOSITORY", "acme#cli");
                              ("GITHUB_TOKEN", "s3cret")] in
      configured rt env "acme#cli" "s3cret" 3
      /\ requests (snd (run_script rt env initial_world)) =
         [list_request env "acme#cli" "s3cret"]
      /\ request_param "branch" (list_request env "acme#cli" "s3cret") = None
      /\ request_param "status" (list_request env "acme#cli" "s3cret") = None
      /\ page_size (list_request env "acme#cli" "s3cret") = None)
  /\ (let env := Mock.env_of (("DEFAULT_BRANCH", String (ascii_of_nat 255) "")
                              :: Mock.base_vars) in
      env "GITHUB_REPOSITORY" = Some "acme/cli"
      /\ env "GITHUB_TOKEN" = Some "s3cret"
      /\ int_of_str rt (getenv env "PARITY_REQUIRED_STREAK" "3") = Ok 3
      /\ parse_quote rt (getenv env "DEFAULT_BRANCH" "main")
         = Raise (encode_error rt (String (ascii_of_nat 255) ""))
      /\ fst (run_script rt env initial_world) = 1
      /\ requests (snd (run_script rt env initial_world)) = []).
Proof.
  intros rt. split; [ | split ].
  - intros env.
    split; [ repeat split; try reflexivity; discriminate | ].
    split; [ reflexivity | ].
    split; [ reflexivity | ].
    intros (size & Hsize & Hle).
    vm_compute in Hsize. injection Hsize as <-. lia.
  - intros env.
    split; [ repeat split; try reflexivity; discriminate | ].
    repeat split; reflexivity.
  - intros env. repeat split; reflexivity.
Qed.

(** * Further properties of the script *)

(** ** Requests and output of each function *)

Lemma sends_pure {A : Type} (Q : request -> Prop) (c : M A) :
  (forall w, requests (snd (c w)) = requests w) -> sends Q c.
Proof.
  intros H w. exists []. rewrite H, app_nil_r. split; [ reflexivity | constructor ].
Qed.

Lemma sends_bind {A B : Type} (Q : request -> Prop) (c : M A) (k : A -> M B) :
  sends Q c -> (forall a, sends Q (k a)) -> sends Q (bind c k).
Proof.
  intros Hc Hk w. unfold bind.
  destruct (Hc w) as (m1 & H1 & F1). destruct (c w) as [[a | e] w']; simpl in H1.
  - destruct (Hk a w') as (m2 & H2 & F2). exists (m1 ++ m2)%list. split.
    + rewrite H2, H1. symmetry. apply app_assoc.
    + apply Forall_app. split; assumption.
  - exists m1. split; assumption.
Qed.

Lemma sends_try {A : Type} (Q : request -> Prop) (c : M A) :
  sends Q c -> sends Q (try c).
Proof.
  intros Hc w. unfold try. destruct (Hc w) as (m & H & F).
  destruct (c w) as [r w']. exists m. split; assumption.
Qed.

Lemma sends_urlopen_read (Q : request -> Prop) (rt : runtime) (req : request) :
  Q req -> sends Q (urlopen_read rt req).
Proof. intros H w. exists [req]. split; [ reflexivity | repeat constructor; exact H ]. Qed.

Lemma emits_pure {A : Type} (c : M A) :
  (forall w, requests (snd (c w)) = requests w) -> emits 0 c.
Proof.
  intros H w. exists []. rewrite H, app_nil_r. split; [ reflexivity | simpl; lia ].
Qed.

Lemma emits_bind {A B : Type} (k1 k2 : nat) (c : M A) (k : A -> M B) :
  emits k1 c -> (forall a, emits k2 (k a)) -> emits (k1 + k2) (bind c k).
Proof.
  intros Hc Hk w. unfold bind.
  destruct (Hc w) as (m1 & H1 & L1). destruct (c w) as [[a | e] w']; simpl in H1.
  - destruct (Hk a w') as (m2 & H2 & L2). exists (m1 ++ m2)%list. split.
    + rewrite H2, H1. symmetry. apply app_assoc.
    + rewrite length_app. lia.
  - exists m1. split; [ assumption | lia ].
Qed.

Lemma emits_weaken {A : Type} (k k' : nat) (c : M A) :
  (k <= k')%nat -> emits k c -> emits k' c.
Proof.
  intros Hle Hc w. destruct (Hc w) as (m & H & L). exists m. split; [ assumption | lia ].
Qed.

Lemma emits_try {A : Type} (k : nat) (c : M A) : emits k c -> emits k (try c).
Proof.
  intros Hc w. unfold try. destruct (Hc w) as (m & H & L).
  destruct (c w) as [r w']. exists m. split; assumption.
Qed.

Lemma emits_urlopen_read (rt : runtime) (req : request) :
  emits 1 (urlopen_read rt req).
Proof. intros w. exists [req]. split; [ reflexivity | simpl; lia ]. Qed.

Lemma quiet_pure {A : Type} (c : M A) :
  (forall w, stdout (snd (c w)) = stdout w /\ stderr (snd (c w)) = stderr w) ->
  quiet c.
Proof. intros H. exact H. Qed.

Lemma quiet_bind {A B : Type} (c : M A) (k : A -> M B) :
  quiet c -> (forall a, quiet (k a)) -> quiet (bind c k).
Proof.
  intros Hc Hk w. unfold bind.
  destruct (Hc w) as [H1 H2]. destruct (c w) as [[a | e] w']; simpl in H1, H2.
  - destruct (Hk a w') as [H3 H4]. rewrite H3, H4. split; assumption.
  - split; assumption.
Qed.

Ltac pure_step :=
  first
    [ apply sends_pure; intros ?; reflexivity
    | apply emits_pure; intros ?; reflexivity
    | apply quiet_pure; intros ?; split; reflexivity ].

Section Effects.

Variable rt : runtime.
Variable token : string.

Lemma sends_get_json url : sends (authorized token) (_get_json rt url token).
Proof.
  unfold _get_json.
  apply sends_bind; [ | intros body; apply sends_bind; [ | intros decoded ] ];
    try pure_step.
  apply sends_urlopen_read. split; [ reflexivity | left; reflexivity ].
Qed.

Lemma emits_get_json url : emits 1 (_get_json rt url token).
Proof.
  unfold _get_json.
  apply (emits_bind 1 0); [ apply emits_urlopen_read | intros body ].
  apply (emits_bind 0 0); [ pure_step | intros decoded; pure_step ].
Qed.

Lemma quiet_get_json url : quiet (_get_json rt url token).
Proof.
  unfold _get_json.
  apply quiet_bind; [ pure_step | intros body ].
  apply quiet_bind; [ pure_step | intros decoded; pure_step ].
Qed.

Lemma sends_load_report repo run :
  sends (authorized token) (_load_report_from_run rt repo run token).
Proof.
  unfold _load_report_from_run.
  apply sends_bind; [ pure_step | intros url ].
  apply sends_bind; [ apply sends_get_json | intros listing ].
  apply sends_bind; [ pure_step | intros artifacts ].
  apply sends_bind; [ pure_step | intros items ].
  apply sends_bind; [ pure_step | intros [artifact | ] ].
  - apply sends_bind; [ pure_step | intros download_url ].
    apply sends_bind;
      [ apply sends_urlopen_read; split; [ reflexivity | right; reflexivity ]
      | intros archive ].
    apply sends_bind; [ pure_step | intros names ].
    destruct (find_report_name names) as [name | ].
    + apply sends_bind; [ pure_step | intros raw ].
      apply sends_bind; [ pure_step | intros payload; pure_step ].
    + apply sends_bind; [ pure_step | intros run_id; pure_step ].
  - apply sends_bind; [ pure_step | intros run_id; pure_step ].
Qed.

Lemma emits_load_report repo run :
  emits 2 (_load_report_from_run rt repo run token).
Proof.
  unfold _load_report_from_run.
  apply (emits_bind 0 2); [ pure_step | intros url ].
  apply (emits_bind 1 1); [ apply emits_get_json | intros listing ].
  apply (emits_bind 0 1); [ pure_step | intros artifacts ].
  apply (emits_bind 0 1); [ pure_step | intros items ].
  apply (emits_bind 0 1); [ pure_step | intros [artifact | ] ].
  - apply (emits_bind 0 1); [ pure_step | intros download_url ].
    apply (emits_bind 1 0); [ apply emits_urlopen_read | intros archive ].
    apply (emits_bind 0 0); [ pure_step | intros names ].
    destruct (find_report_name names) as [name | ].
    + apply (emits_bind 0 0); [ pure_step | intros raw ].
      apply (emits_bind 0 0); [ pure_step | intros payload; pure_step ].
    + apply (emits_bind 0 0); [ pure_step | intros run_id; pure_step ].
  - apply (emits_weaken 0 1); [ lia | ].
    apply (emits_bind 0 0); [ pure_step | intros run_id; pure_step ].
Qed.

Lemma quiet_load_report repo run :
  quiet (_load_report_from_run rt repo run token).
Proof.
  unfold _load_report_from_run.
  apply quiet_bind; [ pure_step | intros url ].
  apply quiet_bind; [ apply quiet_get_json | intros listing ].
  apply quiet_bind; [ pure_step | intros artifacts ].
  apply quiet_bind; [ pure_step | intros items ].
  apply quiet_bind; [ pure_step | intros [artifact | ] ].
  - apply quiet_bind; [ pure_step | intros download_url ].
    apply quiet_bind; [ pure_step | intros archive ].
    apply quiet_bind; [ pure_step | intros names ].
    destruct (find_report_name names) as [name | ].
    + apply quiet_bind; [ pure_step | intros raw ].
      apply quiet_bind; [ pure_step | intros payload; pure_step ].
    + apply quiet_bind; [ pure_step | intros run_id; pure_step ].
  - apply quiet_bind; [ pure_step | intros run_id; pure_step ].
Qed.

Lemma sends_evaluate_run repo idx run :
  sends (authorized token) (evaluate_run rt repo token idx run).
Proof.
  unfold evaluate_run.
  apply sends_bind; [ pure_step | intros run_id ].
  apply sends_bind; [ pure_step | intros conclusion ].
  destruct (negb (eq_str conclusion "success")).
  - apply sends_bind; [ pure_step | intros _; pure_step ].
  - apply sends_bind; [ apply sends_try, sends_load_report | intros [report | exc] ].
    + apply sends_bind; [ pure_step | intros passes ].
      destruct (negb passes); [ | pure_step ].
      apply sends_bind; [ pure_step | intros _; pure_step ].
    + apply sends_bind; [ pure_step | intros _; pure_step ].
Qed.

Lemma emits_evaluate_run repo idx run :
  emits 2 (evaluate_run rt repo token idx run).
Proof.
  unfold evaluate_run.
  apply (emits_bind 0 2); [ pure_step | intros run_id ].
  apply (emits_bind 0 2); [ pure_step | intros conclusion ].
  destruct (negb (eq_str conclusion "success")).
  - apply (emits_weaken 0 2); [ lia | ].
    apply (emits_bind 0 0); [ pure_step | intros _; pure_step ].
  - apply (emits_bind 2 0); [ apply emits_try, emits_load_report | intros [report | exc] ].
    + apply (emits_bind 0 0); [ pure_step | intros passes ].
      destruct (negb passes); [ | pure_step ].
      apply (emits_bind 0 0); [ pure_step | intros _; pure_step ].
    + apply (emits_bind 0 0); [ pure_step | intros _; pure_step ].
Qed.

Lemma sends_for_runs repo rs :
  forall idx, sends (authorized token) (for_runs rt repo token idx rs).
Proof.
  induction rs as [ | run rest IH ]; intros idx; simpl.
  - pure_step.
  - apply sends_bind; [ apply sends_evaluate_run | intros [code | ] ].
    + pure_step.
    + apply IH.
Qed.

Lemma emits_for_runs repo rs :
  forall idx, emits (2 * List.length rs) (for_runs rt repo token idx rs).
Proof.
  induction rs as [ | run rest IH ]; intros idx; simpl for_runs.
  - pure_step.
  - apply (emits_weaken (2 + 2 * List.length rest)); [ simpl; lia | ].
    apply emits_bind; [ apply emits_evaluate_run | intros [code | ] ].
    + apply (emits_weaken 0); [ lia | pure_step ].
    + apply IH.
Qed.

End Effects.

(** ** Requests and output of a whole run *)

Section WholeRun.

Variable rt : runtime.

Lemma sends_main_on_payload repo token n payload :
  sends (authorized token) (main_on_payload rt repo token n payload).
Proof.
  unfold main_on_payload.
  apply sends_bind; [ pure_step | intros runs ].
  apply sends_bind; [ pure_step | intros found ].
  destruct (found <? n).
  - apply sends_bind; [ pure_step | intros _; pure_step ].
  - apply sends_bind; [ pure_step | intros target ].
    apply sends_bind; [ pure_step | intros items ].
    apply sends_bind; [ apply sends_for_runs | intros [code | ] ].
    + pure_step.
    + apply sends_bind; [ pure_step | intros _; pure_step ].
Qed.

(** A window made of strings is left at its first item, before any
    request. *)
Lemma for_runs_of_strings repo token idx items w :
  (forall x, In x items -> exists s, x = PStr s) ->
  requests (snd (for_runs rt repo token idx items w)) = requests w.
Proof.
  intros H. destruct items as [ | x rest ]; [ reflexivity | ].
  destruct (H x (or_introl eq_refl)) as [s ->]. reflexivity.
Qed.

(** The window of a non-negative streak has at most that many runs, unless
    it is made of the characters of a string. *)
Lemma window_items n runs target items :
  0 <= n ->
  py_slice_to runs n = Ok target ->
  py_iter target = Ok items ->
  (List.length items <= Z.to_nat n)%nat \/
  (forall x, In x items -> exists s, x = PStr s).
Proof.
  intros Hn Hs Hi.
  destruct runs as [ | b | z | f | s | l | d ]; simpl in Hs; try discriminate Hs;
    injection Hs as <-; simpl in Hi; injection Hi as <-.
  - right. intros x Hx. apply in_map_iff in Hx. destruct Hx as (c & <- & _).
    eexists. reflexivity.
  - left. unfold slice_to.
    destruct (Z.leb_spec 0 n) as [_ | Hneg]; [ | lia ].
    rewrite length_firstn. lia.
Qed.

Lemma emits_main_on_payload repo token n payload :
  0 <= n ->
  emits (2 * Z.to_nat n) (main_on_payload rt repo token n payload).
Proof.
  intros Hn w.
  assert (Hnone : forall w', requests w' = requests w ->
            exists more, requests w' = (requests w ++ more)%list /\
                         (List.length more <= 2 * Z.to_nat n)%nat).
  { intros w' H. exists []. rewrite app_nil_r. split; [ exact H | simpl; lia ]. }
  unfold main_on_payload, bind, eval, eprint, print, ret.
  destruct (py_get payload "workflow_runs" (PList [])) as [runs | e];
    [ | apply Hnone; reflexivity ].
  destruct (py_len runs) as [found | e]; [ | apply Hnone; reflexivity ].
  destruct (found <? n); [ apply Hnone; reflexivity | ].
  destruct (py_slice_to runs n) as [target | e] eqn:Hs; [ | apply Hnone; reflexivity ].
  destruct (py_iter target) as [items | e] eqn:Hi; [ | apply Hnone; reflexivity ].
  assert (Hloop : exists more,
             requests (snd (for_runs rt repo token 1 items w)) =
             (requests w ++ more)%list /\
             (List.length more <= 2 * Z.to_nat n)%nat).
  { destruct (window_items n runs target items Hn Hs Hi) as [Hlen | Hstr].
    - destruct (emits_for_runs rt token repo items 1 w) as (more & H & L).
      exists more. split; [ exact H | lia ].
    - apply Hnone. apply for_runs_of_strings. exact Hstr. }
  destruct (for_runs rt repo token 1 items w) as [[[code | ] | e] w'];
    simpl in Hloop |- *; exact Hloop.
Qed.

(** What one run of the loop body prints. *)
Lemma evaluate_run_output repo token idx run w :
  match evaluate_run rt repo token idx run w with
  | (Ok (Some code), w') =>
      code = 1 /\ stdout w' = stdout w /\
      exists line, stderr w' = (stderr w ++ [line])%list
  | (_, w') => stdout w' = stdout w /\ stderr w' = stderr w
  end.
Proof.
  unfold evaluate_run, bind, eval, try, eprint, ret.
  destruct (py_get run "id" PNone) as [run_id | e]; [ | split; reflexivity ].
  destruct (py_get run "conclusion" PNone) as [conclusion | e];
    [ | split; reflexivity ].
  destruct (negb (eq_str conclusion "success")).
  - simpl. repeat split. eexists. reflexivity.
  - destruct (quiet_load_report rt token repo run w) as [Hout Herr].
    destruct (_load_report_from_run rt repo run token w) as [[report | exc] w'];
      simpl in Hout, Herr.
    + destruct (_report_passes report) as [[ | ] | e]; simpl.
      * split; assumption.
      * repeat split; [ assumption | ]. rewrite Herr. eexists. reflexivity.
      * split; assumption.
    + simpl. repeat split; [ assumption | ]. rewrite Herr. eexists. reflexivity.
Qed.

Lemma for_runs_output repo token rs :
  forall idx w,
    match for_runs rt repo token idx rs w with
    | (Ok (Some code), w') =>
        code = 1 /\ stdout w' = stdout w /\
        exists line, stderr w' = (stderr w ++ [line])%list
    | (_, w') => stdout w' = stdout w /\ stderr w' = stderr w
    end.
Proof.
  induction rs as [ | run rest IH ]; intros idx w; simpl for_runs.
  - split; reflexivity.
  - unfold bind. pose proof (evaluate_run_output repo token idx run w) as Hrun.
    destruct (evaluate_run rt repo token idx run w) as [[[code | ] | e] w1].
    + exact Hrun.
    + destruct Hrun as [Hout Herr]. specialize (IH (idx + 1) w1).
      destruct (for_runs rt repo token (idx + 1) rest w1) as [[[code | ] | e] w2];
        rewrite <- Hout, <- Herr; exact IH.
    + exact Hrun.
Qed.

Lemma main_on_payload_output repo token n payload w :
  match main_on_payload rt repo token n payload w with
  | (Ok status, w') =>
      (status = 0 /\ stdout w' = (stdout w ++ [pass_line n])%list
       /\ stderr w' = stderr w)
      \/ (status = 1 /\ stdout w' = stdout w
          /\ exists line, stderr w' = (stderr w ++ [line])%list)
  | (Raise _, w') => stdout w' = stdout w /\ stderr w' = stderr w
  end.
Proof.
  unfold main_on_payload, bind, eval, eprint, print, ret.
  destruct (py_get payload "workflow_runs" (PList [])) as [runs | e];
    [ | split; reflexivity ].
  destruct (py_len runs) as [found | e]; [ | split; reflexivity ].
  destruct (found <? n).
  - right. simpl. repeat split. eexists. reflexivity.
  - destruct (py_slice_to runs n) as [target | e]; [ | split; reflexivity ].
    destruct (py_iter target) as [items | e]; [ | split; reflexivity ].
    pose proof (for_runs_output repo token items 1 w) as Hloop.
    destruct (for_runs rt repo token 1 items w) as [[[code | ] | e] w'].
    + right. destruct Hloop as (-> & Hout & Herr). repeat split; assumption.
    + left. destruct Hloop as [Hout Herr]. simpl. rewrite Hout, Herr.
      repeat split.
    + exact Hloop.
Qed.

End WholeRun.

(** X1. Every request of a run carries the credential of the environment:
    its headers are the four headers of [_headers] with the bearer token,
    and its timeout is 30 or 60 seconds. *)
Theorem every_request_is_authorized (rt : runtime) (env : string -> option string)
    (w : world) :
  exists more,
    requests (snd (run_script rt env w)) = (requests w ++ more)%list /\
    Forall (fun r => exists token,
                env "GITHUB_TOKEN" = Some token /\ authorized token r) more.
Proof.
  assert (Hnone : forall w', requests w' = requests w ->
            exists more, requests w' = (requests w ++ more)%list /\
              Forall (fun r => exists token,
                          env "GITHUB_TOKEN" = Some token /\ authorized token r) more).
  { intros w' H. exists []. rewrite app_nil_r. split; [ exact H | constructor ]. }
  unfold run_script, main.
  destruct (int_of_str rt (getenv env "PARITY_REQUIRED_STREAK" "3")) as [n | e];
    [ | apply Hnone; reflexivity ].
  rewrite (bind_eval _ _ _ _ eq_refl).
  destruct (env "GITHUB_REPOSITORY") as [[ | c repo] | ];
    try (apply Hnone; reflexivity).
  destruct (env "GITHUB_TOKEN") as [[ | c' token] | ] eqn:Htoken;
    try (apply Hnone; reflexivity).
  unfold parse_quote.
  destruct (valid_utf8 (getenv env "DEFAULT_BRANCH" "main"));
    [ rewrite (bind_eval _ _ _ _ eq_refl) | apply Hnone; reflexivity ].
  fold (runs_url (String c repo)
          (getenv env "PARITY_WORKFLOW_FILE" "parity-nightly.yml")
          (getenv env "DEFAULT_BRANCH" "main")).
  assert (Hsends : sends (authorized (String c' token))
            (bind (_get_json rt
                     (PStr (runs_url (String c repo)
                              (getenv env "PARITY_WORKFLOW_FILE" "parity-nightly.yml")
                              (getenv env "DEFAULT_BRANCH" "main")))
                     (String c' token))
                  (main_on_payload rt (String c repo) (String c' token) n))).
  { apply sends_bind; [ apply sends_get_json | intros payload ].
    apply sends_main_on_payload. }
  destruct (Hsends w) as (more & Hmore & Hall).
  exists more. split.
  - destruct (bind _ _ w) as [[status | e] w']; exact Hmore.
  - apply (Forall_impl _ (P := authorized (String c' token))); [ | exact Hall ].
    intros r Hr. exists (String c' token). split; [ reflexivity | exact Hr ].
Qed.

(** X2. No retries and no pagination: with a required streak [n] that is
    not negative, a run makes at most [1 + 2 * n] requests. *)
Theorem request_budget (rt : runtime) (env : string -> option string)
    (w : world) (n : Z) :
  int_of_str rt (getenv env "PARITY_REQUIRED_STREAK" "3") = Ok n ->
  0 <= n ->
  exists more,
    requests (snd (run_script rt env w)) = (requests w ++ more)%list /\
    (List.length more <= 1 + 2 * Z.to_nat n)%nat.
Proof.
  intros Hint Hn.
  assert (Hnone : forall w', requests w' = requests w ->
            exists more, requests w' = (requests w ++ more)%list /\
                         (List.length more <= 1 + 2 * Z.to_nat n)%nat).
  { intros w' H. exists []. rewrite app_nil_r. split; [ exact H | simpl; lia ]. }
  unfold run_script, main. rewrite (bind_eval _ _ _ _ Hint).
  destruct (env "GITHUB_REPOSITORY") as [[ | c repo] | ];
    try (apply Hnone; reflexivity).
  destruct (env "GITHUB_TOKEN") as [[ | c' token] | ];
    try (apply Hnone; reflexivity).
  unfold parse_quote.
  destruct (valid_utf8 (getenv env "DEFAULT_BRANCH" "main"));
    [ rewrite (bind_eval _ _ _ _ eq_refl) | apply Hnone; reflexivity ].
  fold (runs_url (String c repo)
          (getenv env "PARITY_WORKFLOW_FILE" "parity-nightly.yml")
          (getenv env "DEFAULT_BRANCH" "main")).
  assert (Hemits : emits (1 + 2 * Z.to_nat n)
            (bind (_get_json rt
                     (PStr (runs_url (String c repo)
                              (getenv env "PARITY_WORKFLOW_FILE" "parity-nightly.yml")
                              (getenv env "DEFAULT_BRANCH" "main")))
                     (String c' token))
                  (main_on_payload rt (String c repo) (String c' token) n))).
  { apply emits_bind; [ apply emits_get_json | intros payload ].
    apply emits_main_on_payload. exact Hn. }
  destruct (Hemits w) as (more & Hmore & Hlen).
  exists more. split; [ | exact Hlen ].
  destruct (bind _ _ w) as [[status | e] w']; exact Hmore.
Qed.

Lemma request_budget_witness :
  exists more,
    requests (snd (run_script (Mock.runtime_of Mock.green)
                     (Mock.env_of Mock.base_vars) initial_world))
    = (requests initial_world ++ more)%list /\
    (List.length more <= 1 + 2 * Z.to_nat 3)%nat.
Proof.
  apply (request_budget (Mock.runtime_of Mock.green) (Mock.env_of Mock.base_vars)
           initial_world 3).
  - reflexivity.
  - lia.
Defined.

(** What [main] itself writes: one entry when it returns, none when it
    raises. *)
Lemma main_output (rt : runtime) (env : string -> option string)
    (w w' : world) (r : result Z) :
  main rt env w = (r, w') ->
  match r with
  | Ok status =>
      (status = 0 /\ (exists n, stdout w' = (stdout w ++ [pass_line n])%list)
       /\ stderr w' = stderr w)
      \/ (status = 1 /\ stdout w' = stdout w
          /\ exists entry, stderr w' = (stderr w ++ [entry])%list)
  | Raise _ => stdout w' = stdout w /\ stderr w' = stderr w
  end.
Proof.
  assert (Hfail : forall entry,
            (Ok 1, write_stderr entry w) = (r, w') ->
            match r with
            | Ok status =>
                (status = 0
                 /\ (exists n, stdout w' = (stdout w ++ [pass_line n])%list)
                 /\ stderr w' = stderr w)
                \/ (status = 1 /\ stdout w' = stdout w
                    /\ exists entry, stderr w' = (stderr w ++ [entry])%list)
            | Raise _ => stdout w' = stdout w /\ stderr w' = stderr w
            end).
  { intros entry E. injection E as <- <-. right. repeat split. eexists. reflexivity. }
  assert (Hraise : forall e,
            (@Raise Z e, w) = (r, w') ->
            match r with
            | Ok status =>
                (status = 0
                 /\ (exists n, stdout w' = (stdout w ++ [pass_line n])%list)
                 /\ stderr w' = stderr w)
                \/ (status = 1 /\ stdout w' = stdout w
                    /\ exists entry, stderr w' = (stderr w ++ [entry])%list)
            | Raise _ => stdout w' = stdout w /\ stderr w' = stderr w
            end).
  { intros e E. injection E as <- <-. split; reflexivity. }
  unfold main.
  destruct (int_of_str rt (getenv env "PARITY_REQUIRED_STREAK" "3")) as [n | e];
    [ | apply Hraise ].
  rewrite (bind_eval _ _ _ _ eq_refl).
  destruct (env "GITHUB_REPOSITORY") as [[ | c repo] | ]; try apply Hfail.
  destruct (env "GITHUB_TOKEN") as [[ | c' token] | ]; try apply Hfail.
  unfold parse_quote.
  destruct (valid_utf8 (getenv env "DEFAULT_BRANCH" "main"));
    [ rewrite (bind_eval _ _ _ _ eq_refl) | apply Hraise ].
  fold (runs_url (String c repo)
          (getenv env "PARITY_WORKFLOW_FILE" "parity-nightly.yml")
          (getenv env "DEFAULT_BRANCH" "main")).
  unfold bind.
  destruct (quiet_get_json rt (String c' token)
              (PStr (runs_url (String c repo)
                       (getenv env "PARITY_WORKFLOW_FILE" "parity-nightly.yml")
                       (getenv env "DEFAULT_BRANCH" "main"))) w) as [Hout Herr].
  destruct (_get_json rt _ (String c' token) w) as [[payload | e] w1];
    simpl in Hout, Herr.
  - pose proof (main_on_payload_output rt (String c repo) (String c' token) n
                  payload w1) as Hmain.
    destruct (main_on_payload rt (String c repo) (String c' token) n payload w1)
      as [[st | e] w2]; intros E; injection E as <- <-.
    + rewrite <- Hout, <- Herr.
      destruct Hmain as [(-> & H1 & H2) | (-> & H1 & H2)].
      * left. repeat split; [ exists n; exact H1 | exact H2 ].
      * right. repeat split; assumption.
    + destruct Hmain as [H1 H2]. rewrite H1, H2. split; assumption.
  - intros E; injection E as <- <-. split; assumption.
Qed.

(** X3. What a run writes and how it ends.  When [main] returns, it has
    made exactly one [print] call: the success message on stdout with
    status 0, or one diagnostic on stderr with status 1, and the script
    exits with that status.  When an exception escapes [main], [main] has
    written nothing; the interpreter writes its report of the exception on
    stderr and the script exits with status 1.  No other status occurs. *)
Theorem one_print_per_run (rt : runtime) (env : string -> option string)
    (w : world) :
  match main rt env w with
  | (Ok status, w') =>
      run_script rt env w = (status, w')
      /\ ((status = 0
           /\ (exists n, stdout w' = (stdout w ++ [pass_line n])%list)
           /\ stderr w' = stderr w)
          \/ (status = 1 /\ stdout w' = stdout w
              /\ exists entry, stderr w' = (stderr w ++ [entry])%list))
  | (Raise e, w') =>
      run_script rt env w = (1, write_stderr (traceback e) w')
      /\ stdout w' = stdout w /\ stderr w' = stderr w
  end.
Proof.
  unfold run_script.
  destruct (main rt env w) as [[status | e] w'] eqn:E;
    (split; [ reflexivity | exact (main_output rt env w w' _ E) ]).
Qed.

(** ** Status 0 means a full streak *)

Section Soundness.

Variable rt : runtime.
Variables repo token : string.

Lemma eq_str_true (v : pyval) (s : string) : eq_str v s = true -> v = PStr s.
Proof.
  destruct v; simpl; intros H; try discriminate H.
  apply String.eqb_eq in H. now subst.
Qed.

(** The body lets the loop go on only for a run that passes steps
    (a)-(c). *)
Lemma evaluate_run_continues idx run w w1 :
  evaluate_run rt repo token idx run w = (Ok None, w1) ->
  py_get run "conclusion" PNone = Ok (PStr "success") /\
  exists report,
    _load_report_from_run rt repo run token w = (Ok report, w1) /\
    _report_passes report = Ok true.
Proof.
  unfold evaluate_run, bind, eval, try, eprint, ret.
  destruct (py_get run "id" PNone) as [run_id | e]; [ | discriminate ].
  destruct (py_get run "conclusion" PNone) as [conclusion | e]; [ | discriminate ].
  destruct (eq_str conclusion "success") eqn:Hc; simpl; [ | discriminate ].
  apply eq_str_true in Hc. subst conclusion.
  destruct (_load_report_from_run rt repo run token w) as [[report | exc] w'];
    [ | discriminate ].
  destruct (_report_passes report) as [[ | ] | e] eqn:Hp; simpl; try discriminate.
  intros E. injection E as <-. split; [ reflexivity | ].
  exists report. split; [ reflexivity | exact Hp ].
Qed.

Lemma for_runs_completes rs :
  forall idx w w',
    for_runs rt repo token idx rs w = (Ok None, w') ->
    window_passes rt repo token rs w w'.
Proof.
  induction rs as [ | run rest IH ]; intros idx w w'; simpl for_runs.
  - unfold ret. intros E. injection E as <-. apply window_nil.
  - unfold bind.
    destruct (evaluate_run rt repo token idx run w) as [[[code | ] | e] w1] eqn:Hrun;
      try discriminate.
    intros Hrest.
    destruct (evaluate_run_continues idx run w w1 Hrun)
      as (Hc & report & Hload & Hpass).
    apply (window_cons rt repo token run rest report w w1 w' Hc Hload Hpass).
    apply (IH _ _ _ Hrest).
Qed.

Lemma main_on_payload_zero n payload w w' :
  main_on_payload rt repo token n payload w = (Ok 0, w') ->
  exists runs found target items w2,
    py_get payload "workflow_runs" (PList []) = Ok runs /\
    py_len runs = Ok found /\ n <= found /\
    py_slice_to runs n = Ok target /\
    py_iter target = Ok items /\
    window_passes rt repo token items w w2 /\
    w' = write_stdout (pass_line n) w2.
Proof.
  unfold main_on_payload, bind, eval, eprint, print, ret.
  destruct (py_get payload "workflow_runs" (PList [])) as [runs | e] eqn:H1;
    [ | discriminate ].
  destruct (py_len runs) as [found | e] eqn:H2; [ | discriminate ].
  destruct (Z.ltb_spec found n) as [Hlt | Hge]; [ discriminate | ].
  destruct (py_slice_to runs n) as [target | e] eqn:H3; [ | discriminate ].
  destruct (py_iter target) as [items | e] eqn:H4; [ | discriminate ].
  destruct (for_runs rt repo token 1 items w) as [[[code | ] | e] w2] eqn:Hloop;
    try discriminate.
  - pose proof (for_runs_output rt repo token items 1 w) as Hout.
    rewrite Hloop in Hout. destruct Hout as (-> & _). discriminate.
  - intros E. injection E as <-.
    exists runs, found, target, items, w2.
    repeat split; try assumption; try reflexivity.
    apply (for_runs_completes items 1 w w2 Hloop).
Qed.

End Soundness.

(** X4. The converse of the pass rule: a run ends with status 0 only when
    the configuration is complete, the listing was fetched and holds at
    least [required_streak] runs, and every item of the window
    [runs[:required_streak]] has conclusion "success" and a report that was
    extracted and satisfies the policy. *)
Theorem exit_zero_is_a_full_streak (rt : runtime) (env : string -> option string)
    (w w' : world) :
  run_script rt env w = (0, w') ->
  exists repo token n payload w1 runs found target items w2,
    lists_runs rt env w repo token n payload w1 /\
    py_get payload "workflow_runs" (PList []) = Ok runs /\
    py_len runs = Ok found /\ n <= found /\
    py_slice_to runs n = Ok target /\
    py_iter target = Ok items /\
    window_passes rt repo token items w1 w2 /\
    w' = write_stdout (pass_line n) w2.
Proof.
  unfold run_script, main.
  destruct (int_of_str rt (getenv env "PARITY_REQUIRED_STREAK" "3")) as [n | e] eqn:Hint;
    [ | discriminate ].
  rewrite (bind_eval _ _ _ _ eq_refl).
  destruct (env "GITHUB_REPOSITORY") as [[ | c repo] | ] eqn:Hrepo; try discriminate.
  destruct (env "GITHUB_TOKEN") as [[ | c' token] | ] eqn:Htoken; try discriminate.
  unfold parse_quote.
  destruct (valid_utf8 (getenv env "DEFAULT_BRANCH" "main")) eqn:Hvalid;
    [ rewrite (bind_eval _ _ _ _ eq_refl) | discriminate ].
  fold (runs_url (String c repo)
          (getenv env "PARITY_WORKFLOW_FILE" "parity-nightly.yml")
          (getenv env "DEFAULT_BRANCH" "main")).
  unfold bind.
  destruct (_get_json rt _ (String c' token) w) as [[payload | e] w1] eqn:Hget;
    [ | discriminate ].
  destruct (main_on_payload rt (String c repo) (String c' token) n payload w1)
    as [[status | e] w2] eqn:Hmain; [ | discriminate ].
  intros E. injection E as -> <-.
  destruct (main_on_payload_zero rt _ _ n payload w1 w2 Hmain)
    as (runs & found & target & items & w3 & H1 & H2 & H3 & H4 & H5 & H6 & H7).
  exists (String c repo), (String c' token), n, payload, w1, runs, found, target,
    items, w3.
  repeat split; try assumption; discriminate.
Qed.

Lemma exit_zero_is_a_full_streak_witness :
  exists repo token n payload w1 runs found target items w2,
    lists_runs (Mock.runtime_of Mock.green) (Mock.env_of Mock.base_vars)
               initial_world repo token n payload w1 /\
    py_get payload "workflow_runs" (PList []) = Ok runs /\
    py_len runs = Ok found /\ n <= found /\
    py_slice_to runs n = Ok target /\
    py_iter target = Ok items /\
    window_passes (Mock.runtime_of Mock.green) repo token items w1 w2 /\
    snd (run_script (Mock.runtime_of Mock.green) (Mock.env_of Mock.base_vars)
                    initial_world) = write_stdout (pass_line n) w2.
Proof.
  apply (exit_zero_is_a_full_streak (Mock.runtime_of Mock.green)
           (Mock.env_of Mock.base_vars) initial_world).
  reflexivity.
Defined.

(** ** A run that stops the evaluation *)

Section Stopping.

Variable rt : runtime.

(** The evaluator reaches the run after [before] in the window of the
    listing. *)
Lemma main_on_payload_reaches repo token n payload runs before run later w1 w2 :
  py_get payload "workflow_runs" (PList []) = Ok (PList runs) ->
  n <= Z.of_nat (List.length runs) ->
  slice_to n runs = (before ++ run :: later)%list ->
  window_passes rt repo token before w1 w2 ->
  main_on_payload rt repo token n payload w1 =
  match evaluate_run rt repo token (Z.of_nat (List.length before) + 1) run w2 with
  | (Ok (Some code), w3) => (Ok code, w3)
  | (Ok None, w3) =>
      bind (for_runs rt repo token (Z.of_nat (List.length before) + 1 + 1) later)
           (fun early =>
              match early with
              | Some code => ret code
              | None => bind (print (pass_line n)) (fun _ => ret 0)
              end) w3
  | (Raise e, w3) => (Raise e, w3)
  end.
Proof.
  intros Hruns Hlen Hwin Hpre.
  rewrite (main_on_payload_window _ _ _ _ _ _ _ Hruns Hlen), Hwin.
  unfold bind at 1.
  rewrite (for_runs_app_passes _ _ _ _ _ _ _ Hpre), for_runs_cons.
  rewrite (Z.add_comm 1). unfold bind at 1.
  destruct (evaluate_run rt repo token (Z.of_nat (List.length before) + 1) run w2)
    as [[[code | ] | e] w3]; try reflexivity.
Qed.

Lemma run_script_returns_at env repo token n payload runs before run later
    w w1 w2 w3 code :
  lists_runs rt env w repo token n payload w1 ->
  py_get payload "workflow_runs" (PList []) = Ok (PList runs) ->
  n <= Z.of_nat (List.length runs) ->
  slice_to n runs = (before ++ run :: later)%list ->
  window_passes rt repo token before w1 w2 ->
  evaluate_run rt repo token (Z.of_nat (List.length before) + 1) run w2
  = (Ok (Some code), w3) ->
  run_script rt env w = (code, w3).
Proof.
  intros Hl Hruns Hlen Hwin Hpre Hrun.
  apply (run_script_lists_runs _ _ _ _ _ _ _ _ _ _ Hl).
  rewrite (main_on_payload_reaches _ _ _ _ _ _ _ _ _ _ Hruns Hlen Hwin Hpre), Hrun.
  reflexivity.
Qed.

Lemma run_script_raises_at env repo token n payload runs before run later
    w w1 w2 w3 e :
  lists_runs rt env w repo token n payload w1 ->
  py_get payload "workflow_runs" (PList []) = Ok (PList runs) ->
  n <= Z.of_nat (List.length runs) ->
  slice_to n runs = (before ++ run :: later)%list ->
  window_passes rt repo token before w1 w2 ->
  evaluate_run rt repo token (Z.of_nat (List.length before) + 1) run w2
  = (Raise e, w3) ->
  run_script rt env w = (1, write_stderr (traceback e) w3).
Proof.
  intros Hl Hruns Hlen Hwin Hpre Hrun.
  unfold run_script. rewrite (main_lists_runs _ _ _ _ _ _ _ _ Hl).
  rewrite (main_on_payload_reaches _ _ _ _ _ _ _ _ _ _ Hruns Hlen Hwin Hpre), Hrun.
  reflexivity.
Qed.

End Stopping.

(** X5. Step (c): when the evaluator reaches a run whose conclusion is
    "success" and whose report is extracted but does not satisfy the policy,
    the script exits with status 1 and the line on stderr cites the id of
    the run; the runs after it are not evaluated. *)
Theorem failing_report_fails (rt : runtime) (env : string -> option string)
    (repo token : string) (required_streak : Z) (payload : pyval)
    (runs before later : list pyval) (run run_id report : pyval)
    (w w1 w2 w3 : world) :
  lists_runs rt env w repo token required_streak payload w1 ->
  py_get payload "workflow_runs" (PList []) = Ok (PList runs) ->
  required_streak <= Z.of_nat (List.length runs) ->
  slice_to required_streak runs = (before ++ run :: later)%list ->
  window_passes rt repo token before w1 w2 ->
  py_get run "id" PNone = Ok run_id ->
  py_get run "conclusion" PNone = Ok (PStr "success") ->
  _load_report_from_run rt repo run token w2 = (Ok report, w3) ->
  _report_passes report = Ok false ->
  run_script rt env w =
  (1, write_stderr
        [Lit "Parity streak gate failed: report in run id="; Fmt run_id;
         Lit " did not pass required journeys"] w3).
Proof.
  intros Hl Hruns Hlen Hwin Hpre Hid Hc Hload Hpass.
  apply (run_script_returns_at rt env repo token required_streak payload runs
           before run later w w1 w2 _ 1 Hl Hruns Hlen Hwin Hpre).
  unfold evaluate_run.
  rewrite (bind_eval _ _ _ _ Hid), (bind_eval _ _ _ _ Hc). simpl.
  rewrite (bind_try _ _ _ _ _ Hload), (bind_eval _ _ _ _ Hpass). reflexivity.
Qed.

Lemma failing_report_fails_witness :
  exists w3,
    run_script (Mock.runtime_of Cases.journey_failed) (Mock.env_of Mock.base_vars)
               initial_world =
    (1, write_stderr
          [Lit "Parity streak gate failed: report in run id="; Fmt (PInt 102);
           Lit " did not pass required journeys"] w3)
    /\ List.length (requests w3) = 5%nat.
Proof.
  eexists. split.
  - eapply (failing_report_fails (Mock.runtime_of Cases.journey_failed)
              (Mock.env_of Mock.base_vars) "acme/cli" "s3cret" 3 _ _
              [Mock.run 101 "success"] [Mock.run 103 "success"]
              (Mock.run 102 "success") (PInt 102)).
    + repeat split; try reflexivity; discriminate.
    + reflexivity.
    + simpl. lia.
    + reflexivity.
    + eapply window_cons; [ reflexivity | reflexivity | reflexivity | ].
      apply window_nil.
    + reflexivity.
    + reflexivity.
    + reflexivity.
    + reflexivity.
  - reflexivity.
Defined.

(** X6. The policy is applied outside the [try]: when the report of a
    reached run decodes to a value that is not an object, [_report_passes]
    raises [AttributeError], which escapes [main]; the script ends with
    status 1 and the traceback on stderr instead of a line of the gate. *)
Theorem report_not_an_object_escapes (rt : runtime) (env : string -> option string)
    (repo token : string) (required_streak : Z) (payload : pyval)
    (runs before later : list pyval) (run report : pyval)
    (w w1 w2 w3 : world) :
  lists_runs rt env w repo token required_streak payload w1 ->
  py_get payload "workflow_runs" (PList []) = Ok (PList runs) ->
  required_streak <= Z.of_nat (List.length runs) ->
  slice_to required_streak runs = (before ++ run :: later)%list ->
  window_passes rt repo token before w1 w2 ->
  py_get run "conclusion" PNone = Ok (PStr "success") ->
  _load_report_from_run rt repo run token w2 = (Ok report, w3) ->
  (forall d, report <> PDict d) ->
  run_script rt env w =
  (1, write_stderr (traceback (AttributeError report "get")) w3).
Proof.
  intros Hl Hruns Hlen Hwin Hpre Hc Hload Hshape.
  apply (run_script_raises_at rt env repo token required_streak payload runs
           before run later w w1 w2 _ _ Hl Hruns Hlen Hwin Hpre).
  destruct (py_get_total _ _ _ _ Hc "id" PNone) as [run_id Hid].
  unfold evaluate_run.
  rewrite (bind_eval _ _ _ _ Hid), (bind_eval _ _ _ _ Hc). simpl.
  rewrite (bind_try _ _ _ _ _ Hload).
  destruct report as [ | b | z | f | s | l | d ]; try reflexivity.
  exfalso. apply (Hshape d). reflexivity.
Qed.

Lemma report_not_an_object_escapes_witness :
  exists w3,
    run_script (Mock.runtime_of Cases.report_is_array) (Mock.env_of Mock.base_vars)
               initial_world =
    (1, write_stderr (traceback (AttributeError (PList [PBool true]) "get")) w3)
    /\ map render (stderr (snd (run_script (Mock.runtime_of Cases.report_is_array)
                                   (Mock.env_of Mock.base_vars) initial_world))) =
       [Some "Traceback (most recent call last): AttributeError: 'list' object has no attribute 'get'"].
Proof.
  eexists. split.
  - eapply (report_not_an_object_escapes (Mock.runtime_of Cases.report_is_array)
              (Mock.env_of Mock.base_vars) "acme/cli" "s3cret" 3 _ _
              [] [Mock.run 102 "success"; Mock.run 103 "success"]
              (Mock.run 101 "success") (PList [PBool true])).
    + repeat split; try reflexivity; discriminate.
    + reflexivity.
    + simpl. lia.
    + reflexivity.
    + apply window_nil.
    + reflexivity.
    + reflexivity.
    + discriminate.
  - reflexivity.
Defined.

(** ** Errors outside the [try] *)

(** [_get_json] makes exactly one request, whatever comes of it. *)
Lemma get_json_world (rt : runtime) (url : pyval) (token : string) (w : world) :
  snd (_get_json rt url token w) = log_request (mkRequest url (_headers token) 30) w.
Proof.
  unfold _get_json, bind, urlopen_read, eval.
  destruct (http_get rt (requests w) _) as [body | e]; [ | reflexivity ].
  destruct (decode_utf8 rt body) as [decoded | e]; [ | reflexivity ].
  destruct (json_loads rt decoded); reflexivity.
Qed.

(** X7. The list-runs call is not guarded: when it raises (the transport
    fails, the status is an error, the body is not UTF-8 or not JSON), the
    exception escapes [main]; the script ends with status 1 and the
    traceback on stderr, after that single request. *)
Theorem list_error_escapes (rt : runtime) (env : string -> option string)
    (repo token : string) (required_streak : Z) (e : exn) (w w1 : world) :
  configured rt env repo token required_streak ->
  _get_json rt (req_url (list_request env repo token)) token w = (Raise e, w1) ->
  run_script rt env w =
  (1, write_stderr (traceback e) (log_request (list_request env repo token) w)).
Proof.
  intros Hconf Hget.
  pose proof (get_json_world rt (req_url (list_request env repo token)) token w)
    as Hw.
  rewrite Hget in Hw. simpl in Hw. change (mkRequest _ _ 30) with
    (list_request env repo token) in Hw. subst w1.
  unfold run_script. rewrite (main_configured rt env w repo token required_streak Hconf).
  simpl in Hget. rewrite (bind_raise _ _ _ _ _ Hget). reflexivity.
Qed.

Lemma list_error_escapes_witness :
  run_script (Mock.runtime_of Cases.list_unavailable) (Mock.env_of Mock.base_vars)
             initial_world =
  (1, write_stderr (traceback (Mock.HTTPError "503" "Service Unavailable"))
        (log_request
           (list_request (Mock.env_of Mock.base_vars) "acme/cli" "s3cret")
           initial_world)).
Proof.
  apply (list_error_escapes (Mock.runtime_of Cases.list_unavailable)
           (Mock.env_of Mock.base_vars) "acme/cli" "s3cret" 3
           (Mock.HTTPError "503" "Service Unavailable") initial_world
           (log_request
              (list_request (Mock.env_of Mock.base_vars) "acme/cli" "s3cret")
              initial_world)).
  - repeat split; try reflexivity; discriminate.
  - reflexivity.
Defined.

(** X8. A list-runs response that is valid JSON but not an object (an
    array, a string, a number, null) makes [payload.get] raise
    [AttributeError], which escapes [main]: status 1 with the traceback, and
    no run is evaluated. *)
Theorem listing_not_an_object_escapes (rt : runtime) (env : string -> option string)
    (repo token : string) (required_streak : Z) (payload : pyval)
    (w w1 : world) :
  lists_runs rt env w repo token required_streak payload w1 ->
  (forall d, payload <> PDict d) ->
  run_script rt env w =
  (1, write_stderr (traceback (AttributeError payload "get")) w1).
Proof.
  intros Hl Hshape. unfold run_script.
  rewrite (main_lists_runs _ _ _ _ _ _ _ _ Hl).
  destruct payload as [ | b | z | f | s | l | d ]; try reflexivity.
  exfalso. apply (Hshape d). reflexivity.
Qed.

Lemma listing_not_an_object_escapes_witness :
  run_script (Mock.runtime_of Cases.listing_is_array) (Mock.env_of Mock.base_vars)
             initial_world =
  (1, write_stderr (traceback (AttributeError (PList []) "get"))
        (log_request
           (list_request (Mock.env_of Mock.base_vars) "acme/cli" "s3cret")
           initial_world)).
Proof.
  apply (listing_not_an_object_escapes (Mock.runtime_of Cases.listing_is_array)
           (Mock.env_of Mock.base_vars) "acme/cli" "s3cret" 3 (PList [])
           initial_world).
  - repeat split; try reflexivity; discriminate.
  - discriminate.
Defined.

(** X9. A [workflow_runs] that has no length (null, a number, a boolean)
    makes [len] raise [TypeError], which escapes [main]: status 1 with the
    traceback.  The default [[]] only stands in for a missing key, not for
    a null one. *)
Theorem runs_without_length_escapes (rt : runtime) (env : string -> option string)
    (repo token : string) (required_streak : Z) (d : list (string * pyval))
    (runs : pyval) (w w1 : world) :
  lists_runs rt env w repo token required_streak (PDict d) w1 ->
  dict_lookup "workflow_runs" d = Some runs ->
  (forall l, runs <> PList l) -> (forall s, runs <> PStr s) ->
  (forall m, runs <> PDict m) ->
  run_script rt env w =
  (1, write_stderr
        (traceback (TypeError ("object of type '" ++ type_name runs
                                                  ++ "' has no len()"))) w1).
Proof.
  intros Hl Hkey Hlist Hstr Hdict. unfold run_script.
  rewrite (main_lists_runs _ _ _ _ _ _ _ _ Hl).
  unfold main_on_payload. simpl py_get. rewrite Hkey.
  rewrite (bind_eval _ _ _ _ eq_refl).
  destruct runs as [ | b | z | f | s | l | m ]; try reflexivity.
  - exfalso. apply (Hstr s). reflexivity.
  - exfalso. apply (Hlist l). reflexivity.
  - exfalso. apply (Hdict m). reflexivity.
Qed.

Lemma runs_without_length_escapes_witness :
  run_script (Mock.runtime_of Cases.runs_is_null) (Mock.env_of Mock.base_vars)
             initial_world =
  (1, write_stderr
        (traceback (TypeError "object of type 'NoneType' has no len()"))
        (log_request
           (list_request (Mock.env_of Mock.base_vars) "acme/cli" "s3cret")
           initial_world)).
Proof.
  apply (runs_without_length_escapes (Mock.runtime_of Cases.runs_is_null)
           (Mock.env_of Mock.base_vars) "acme/cli" "s3cret" 3
           [("workflow_runs", PNone)] PNone initial_world).
  - repeat split; try reflexivity; discriminate.
  - reflexivity.
  - discriminate.
  - discriminate.
  - discriminate.
Defined.

(** ** Runs with missing fields and runs beyond the window *)

(** X10. A reached run with conclusion "success" but without
    [artifacts_url] is a gate failure, not a crash: the [KeyError] is caught,
    the script exits with status 1, the line on stderr is the prefix
    followed by the quoted key, and no request is made for the run. *)
Theorem run_without_artifacts_url_fails (rt : runtime)
    (env : string -> option string) (repo token : string) (required_streak : Z)
    (payload : pyval) (runs before later : list pyval)
    (d : list (string * pyval)) (w w1 w2 : world) :
  lists_runs rt env w repo token required_streak payload w1 ->
  py_get payload "workflow_runs" (PList []) = Ok (PList runs) ->
  required_streak <= Z.of_nat (List.length runs) ->
  slice_to required_streak runs = (before ++ PDict d :: later)%list ->
  window_passes rt repo token before w1 w2 ->
  dict_lookup "conclusion" d = Some (PStr "success") ->
  dict_lookup "artifacts_url" d = None ->
  run_script rt env w =
  (1, write_stderr [Lit "Parity streak gate failed: "; Lit "'artifacts_url'"] w2).
Proof.
  intros Hl Hruns Hlen Hwin Hpre Hc Hurl.
  apply (run_script_returns_at rt env repo token required_streak payload runs
           before (PDict d) later w w1 w2 _ 1 Hl Hruns Hlen Hwin Hpre).
  assert (Hload : _load_report_from_run rt repo (PDict d) token w2
                  = (Raise (KeyError "artifacts_url"), w2)).
  { unfold _load_report_from_run. simpl py_getitem. rewrite Hurl. reflexivity. }
  rewrite (evaluate_run_load_error rt repo token _ (PDict d)
             (KeyError "artifacts_url") w2 w2).
  - reflexivity.
  - simpl. rewrite Hc. reflexivity.
  - exact Hload.
Qed.

Lemma run_without_artifacts_url_fails_witness :
  run_script (Mock.runtime_of Cases.run_without_url) (Mock.env_of Mock.base_vars)
             initial_world =
  (1, write_stderr [Lit "Parity streak gate failed: "; Lit "'artifacts_url'"]
        (log_request
           (list_request (Mock.env_of Mock.base_vars) "acme/cli" "s3cret")
           initial_world)).
Proof.
  apply (run_without_artifacts_url_fails (Mock.runtime_of Cases.run_without_url)
           (Mock.env_of Mock.base_vars) "acme/cli" "s3cret" 3
           (PDict [("workflow_runs",
                    PList [Cases.bare_run 101; Mock.run 102 "success";
                           Mock.run 103 "success"])])
           [Cases.bare_run 101; Mock.run 102 "success"; Mock.run 103 "success"]
           [] [Mock.run 102 "success"; Mock.run 103 "success"]
           [("id", PInt 101); ("conclusion", PStr "success")]
           initial_world
           (log_request
              (list_request (Mock.env_of Mock.base_vars) "acme/cli" "s3cret")
              initial_world)).
  - repeat split; try reflexivity; discriminate.
  - reflexivity.
  - simpl. lia.
  - reflexivity.
  - apply window_nil.
  - reflexivity.
  - reflexivity.
Defined.

(** X11. Only the window counts: for a streak [n] that is not negative,
    the runs listed after the first [n] play no part.  A listing of
    [runs ++ older] with at least [n] runs in [runs] is evaluated exactly
    as the listing of the first [n] runs alone. *)
Theorem older_runs_are_ignored (rt : runtime) (repo token : string) (n : Z)
    (payload payload' : pyval) (runs older : list pyval) (w : world) :
  0 <= n -> n <= Z.of_nat (List.length runs) ->
  py_get payload "workflow_runs" (PList []) = Ok (PList (runs ++ older)) ->
  py_get payload' "workflow_runs" (PList []) = Ok (PList (firstn (Z.to_nat n) runs)) ->
  main_on_payload rt repo token n payload w =
  main_on_payload rt repo token n payload' w.
Proof.
  intros Hn Hlen Hp Hp'.
  assert (Hnat : (Z.to_nat n <= List.length runs)%nat) by lia.
  rewrite (main_on_payload_window rt repo token n payload (runs ++ older) w Hp)
    by (rewrite length_app; lia).
  rewrite (main_on_payload_window rt repo token n payload'
             (firstn (Z.to_nat n) runs) w Hp')
    by (rewrite length_firstn; lia).
  unfold slice_to. destruct (Z.leb_spec 0 n) as [_ | Hneg]; [ | lia ].
  rewrite firstn_app.
  replace (Z.to_nat n - List.length runs)%nat with 0%nat by lia.
  rewrite firstn_O, app_nil_r, firstn_firstn, Nat.min_id. reflexivity.
Qed.

Lemma older_runs_are_ignored_witness :
  main_on_payload (Mock.runtime_of Cases.long_history) "acme/cli" "s3cret" 3
    (PDict [("workflow_runs",
             PList ([Mock.run 101 "success"; Mock.run 102 "success";
                     Mock.run 103 "success"]
                    ++ [Mock.run 104 "failure"; Mock.run 105 "cancelled"]))])
    initial_world =
  main_on_payload (Mock.runtime_of Cases.long_history) "acme/cli" "s3cret" 3
    (PDict [("workflow_runs",
             PList (firstn (Z.to_nat 3)
                      [Mock.run 101 "success"; Mock.run 102 "success";
                       Mock.run 103 "success"]))])
    initial_world.
Proof.
  apply (older_runs_are_ignored (Mock.runtime_of Cases.long_history)
           "acme/cli" "s3cret" 3 _ _
           [Mock.run 101 "success"; Mock.run 102 "success"; Mock.run 103 "success"]
           [Mock.run 104 "failure"; Mock.run 105 "cancelled"]).
  - lia.
  - simpl. lia.
  - reflexivity.
  - reflexivity.
Defined.

(** ** Picking the artifact and the report file *)

(** X12. [find_artifact] returns the first item named
    parity-journey-report: every item before it is an object with another
    name, and the items after it are not looked at.  It returns [None]
    exactly when every item is an object with another name, and raises
    [AttributeError] at the first item that is not an object when no match
    comes before it. *)
Theorem find_artifact_first_match (items : list pyval) :
  match find_artifact items with
  | Ok (Some a) =>
      exists before after,
        items = (before ++ a :: after)%list /\
        Forall other_artifact before /\ report_artifact_named a
  | Ok None => Forall other_artifact items
  | Raise e =>
      exists before bad after,
        items = (before ++ bad :: after)%list /\
        Forall other_artifact before /\
        (forall d, bad <> PDict d) /\ e = AttributeError bad "get"
  end.
Proof.
  induction items as [ | a rest IH ]; simpl.
  - constructor.
  - destruct (py_get a "name" PNone) as [name | e] eqn:Hname.
    + destruct (eq_str name "parity-journey-report") eqn:Hmatch.
      * exists [], rest. split; [ reflexivity | ]. split; [ constructor | ].
        apply eq_str_true in Hmatch. subst name. exact Hname.
      * assert (Hother : other_artifact a) by (exists name; split; assumption).
        destruct (find_artifact rest) as [[found | ] | e].
        -- destruct IH as (before & after & -> & Hbefore & Hfound).
           exists (a :: before), after. split; [ reflexivity | ].
           split; [ constructor; assumption | exact Hfound ].
        -- constructor; assumption.
        -- destruct IH as (before & bad & after & -> & Hbefore & Hbad & ->).
           exists (a :: before), bad, after. split; [ reflexivity | ].
           split; [ constructor; assumption | ]. split; [ exact Hbad | reflexivity ].
    + exists [], a, rest. split; [ reflexivity | ]. split; [ constructor | ].
      destruct a; simpl in Hname; try discriminate Hname;
        injection Hname as <-; (split; [ discriminate | reflexivity ]).
Qed.

Lemma substring_whole (s : string) : substring 0 (String.length s) s = s.
Proof. induction s as [ | c s IH ]; simpl; [ reflexivity | now rewrite IH ]. Qed.

Lemma substring_after (p s : string) :
  substring (String.length p) (String.length s) (p ++ s) = s.
Proof.
  induction p as [ | c p IH ]; simpl; [ apply substring_whole | exact IH ].
Qed.

Lemma substring_split (k : nat) :
  forall s, (k <= String.length s)%nat ->
            substring 0 k s ++ substring k (String.length s - k) s = s.
Proof.
  induction k as [ | k IH ]; intros s Hk.
  - rewrite Nat.sub_0_r, substring_whole. destruct s; reflexivity.
  - destruct s as [ | c s ]; simpl in Hk; [ lia | ].
    simpl. rewrite IH by lia. reflexivity.
Qed.

Lemma length_append (a b : string) :
  String.length (a ++ b) = (String.length a + String.length b)%nat.
Proof. induction a as [ | c a IH ]; simpl; [ reflexivity | now rewrite IH ]. Qed.

(** [endswith] holds exactly of the texts that are some prefix followed by
    the suffix. *)
Lemma endswith_iff (s suffix : string) :
  endswith s suffix = true <-> exists p, s = p ++ suffix.
Proof.
  unfold endswith. split.
  - intros H. apply andb_true_iff in H. destruct H as [Hlen Heq].
    apply Nat.leb_le in Hlen. apply String.eqb_eq in Heq.
    exists (substring 0 (String.length s - String.length suffix) s).
    assert (Hsplit := substring_split (String.length s - String.length suffix) s).
    replace (String.length s - (String.length s - String.length suffix))%nat
      with (String.length suffix) in Hsplit by lia.
    rewrite Heq in Hsplit. symmetry. apply Hsplit. lia.
  - intros [p ->]. rewrite length_append. apply andb_true_iff. split.
    + apply Nat.leb_le. lia.
    + replace (String.length p + String.length suffix - String.length suffix)%nat
        with (String.length p) by lia.
      rewrite substring_after. apply String.eqb_refl.
Qed.

(** X13. The report file is the first entry of the archive whose name ends
    with parity_journey_report.json, whatever precedes the suffix: the bare
    file name, a path in a directory, or a longer file name that ends the
    same way.  No entry is chosen exactly when no name ends so. *)
Theorem report_name_is_first_suffix_match (names : list string) :
  match find_report_name names with
  | Some name =>
      exists before after,
        names = (before ++ name :: after)%list /\
        (exists p, name = p ++ "parity_journey_report.json") /\
        Forall (fun n => forall p, n <> p ++ "parity_journey_report.json") before
  | None =>
      Forall (fun n => forall p, n <> p ++ "parity_journey_report.json") names
  end.
Proof.
  unfold find_report_name.
  induction names as [ | n rest IH ]; simpl.
  - constructor.
  - destruct (endswith n "parity_journey_report.json") eqn:Hn.
    + exists [], rest. split; [ reflexivity | ].
      split; [ apply endswith_iff; exact Hn | constructor ].
    + assert (Hnot : forall p, n <> p ++ "parity_journey_report.json").
      { intros p Hp.
        assert (H : endswith n "parity_journey_report.json" = true)
          by (apply endswith_iff; exists p; exact Hp).
        rewrite H in Hn. discriminate Hn. }
      destruct (find (fun n0 => endswith n0 "parity_journey_report.json") rest)
        as [name | ].
      * destruct IH as (before & after & -> & Hname & Hbefore).
        exists (n :: before), after. split; [ reflexivity | ].
        split; [ exact Hname | constructor; assumption ].
      * constructor; assumption.
Qed.

(** ** What loading a report takes *)

Section LoaderContract.

Variable rt : runtime.
Variables repo token : string.

(** The steps behind a report that was loaded. *)
Lemma load_report_ok_inv run report w w' :
  _load_report_from_run rt repo run token w = (Ok report, w') ->
  exists url listing artifacts items artifact download_url archive names name
         raw decoded,
    py_getitem run "artifacts_url" = Ok url /\
    _get_json rt url token w
    = (Ok listing, log_request (mkRequest url (_headers token) 30) w) /\
    py_get listing "artifacts" (PList []) = Ok artifacts /\
    py_iter artifacts = Ok items /\
    find_artifact items = Ok (Some artifact) /\
    py_getitem artifact "archive_download_url" = Ok download_url /\
    http_get rt (requests w ++ [mkRequest url (_headers token) 30])
             (mkRequest download_url (_headers token) 60) = Ok archive /\
    zip_namelist rt archive = Ok names /\
    find_report_name names = Some name /\
    zip_read rt archive name = Ok raw /\
    decode_utf8 rt raw = Ok decoded /\
    json_loads rt decoded = Ok report /\
    w' = log_request (mkRequest download_url (_headers token) 60)
           (log_request (mkRequest url (_headers token) 30) w).
Proof.
  unfold _load_report_from_run, bind, eval, raise, _download_bytes, urlopen_read.
  destruct (py_getitem run "artifacts_url") as [url | e] eqn:H1; [ | discriminate ].
  pose proof (get_json_world rt url token w) as Hw.
  destruct (_get_json rt url token w) as [[listing | e] w1] eqn:H2;
    [ | discriminate ].
  simpl in Hw. subst w1.
  destruct (py_get listing "artifacts" (PList [])) as [artifacts | e] eqn:H3;
    [ | discriminate ].
  destruct (py_iter artifacts) as [items | e] eqn:H4; [ | discriminate ].
  destruct (find_artifact items) as [[artifact | ] | e] eqn:H5;
    [ | destruct (py_get run "id" PNone); discriminate | discriminate ].
  destruct (py_getitem artifact "archive_download_url") as [download_url | e] eqn:H6;
    [ | discriminate ].
  simpl requests.
  destruct (http_get rt _ (mkRequest download_url (_headers token) 60))
    as [archive | e] eqn:H7; [ | discriminate ].
  destruct (zip_namelist rt archive) as [names | e] eqn:H8; [ | discriminate ].
  destruct (find_report_name names) as [name | ] eqn:H9;
    [ | destruct (py_get run "id" PNone); discriminate ].
  destruct (zip_read rt archive name) as [raw | e] eqn:H10; [ | discriminate ].
  destruct (decode_utf8 rt raw) as [decoded | e] eqn:H11; [ | discriminate ].
  destruct (json_loads rt decoded) as [value | e] eqn:H12; [ | discriminate ].
  intros E. injection E as <- <-.
  exists url, listing, artifacts, items, artifact, download_url, archive, names,
    name, raw, decoded.
  repeat split; assumption.
Qed.

End LoaderContract.

(** X14. Loading a report never takes more than two requests, and a report
    is returned only after exactly two: the artifact listing at the run's
    [artifacts_url] with a timeout of 30, then the download at the
    [archive_download_url] of the first artifact named
    parity-journey-report with a timeout of 60.  The report is the JSON
    decoded from the entry that [find_report_name] picks in that archive. *)
Theorem load_report_contract (rt : runtime) (repo token : string) (run : pyval)
    (w : world) :
  (exists more,
      requests (snd (_load_report_from_run rt repo run token w))
      = (requests w ++ more)%list /\ (List.length more <= 2)%nat)
  /\ (forall report,
        fst (_load_report_from_run rt repo run token w) = Ok report ->
        exists url listing artifacts items artifact download_url archive names
               name raw decoded,
          py_getitem run "artifacts_url" = Ok url /\
          _get_json rt url token w
          = (Ok listing, log_request (mkRequest url (_headers token) 30) w) /\
          py_get listing "artifacts" (PList []) = Ok artifacts /\
          py_iter artifacts = Ok items /\
          find_artifact items = Ok (Some artifact) /\
          py_getitem artifact "archive_download_url" = Ok download_url /\
          http_get rt (requests w ++ [mkRequest url (_headers token) 30])
                   (mkRequest download_url (_headers token) 60) = Ok archive /\
          zip_namelist rt archive = Ok names /\
          find_report_name names = Some name /\
          zip_read rt archive name = Ok raw /\
          decode_utf8 rt raw = Ok decoded /\
          json_loads rt decoded = Ok report /\
          requests (snd (_load_report_from_run rt repo run token w))
          = (requests w ++ [mkRequest url (_headers token) 30;
                            mkRequest download_url (_headers token) 60])%list).
Proof.
  split.
  - apply (emits_load_report rt token repo run w).
  - intros report Hok.
    destruct (_load_report_from_run rt repo run token w) as [r w'] eqn:Hload.
    simpl in Hok. subst r.
    destruct (load_report_ok_inv rt repo token run report w w' Hload)
      as (url & listing & artifacts & items & artifact & download_url & archive
          & names & name & raw & decoded
          & H1 & H2 & H3 & H4 & H5 & H6 & H7 & H8 & H9 & H10 & H11 & H12 & ->).
    exists url, listing, artifacts, items, artifact, download_url, archive, names,
      name, raw, decoded.
    repeat split; try assumption.
    simpl. rewrite <- app_assoc. reflexivity.
Qed.

(** X15. Strictly sequential evaluation: over a window whose runs all pass,
    the requests are made run by run in the order of the window, two per
    run, the listing at the run's own [artifacts_url] followed by one
    download. *)
Theorem passing_window_requests (rt : runtime) (repo token : string)
    (rs : list pyval) (w w' : world) :
  window_passes rt repo token rs w w' ->
  exists urls : list (pyval * pyval),
    Forall2 (fun run pair => py_getitem run "artifacts_url" = Ok (fst pair)) rs urls
    /\ requests w' =
       (requests w ++
        flat_map (fun pair => [mkRequest (fst pair) (_headers token) 30;
                               mkRequest (snd pair) (_headers token) 60]) urls)%list.
Proof.
  induction 1 as [ w | run rest report w w1 w2 Hc Hload Hpass _ IH ].
  - exists []. split; [ constructor | ]. simpl. now rewrite app_nil_r.
  - destruct (load_report_ok_inv rt repo token run report w w1 Hload)
      as (url & listing & artifacts & items & artifact & download_url & archive
          & names & name & raw & decoded
          & H1 & _ & _ & _ & _ & _ & _ & _ & _ & _ & _ & _ & ->).
    destruct IH as (urls & Hall & Hreq).
    exists ((url, download_url) :: urls). split.
    + constructor; [ exact H1 | exact Hall ].
    + rewrite Hreq. simpl. rewrite <- !app_assoc. reflexivity.
Qed.

Lemma passing_window_requests_witness :
  exists urls : list (pyval * pyval),
    Forall2 (fun run pair => py_getitem run "artifacts_url" = Ok (fst pair))
            [Mock.run 101 "success"; Mock.run 102 "success"] urls
    /\ map req_url
         (requests
            (snd (for_runs (Mock.runtime_of Mock.green) "acme/cli" "s3cret" 1
                    [Mock.run 101 "success"; Mock.run 102 "success"]
                    initial_world))) =
       map req_url
         (requests initial_world ++
          flat_map (fun pair => [mkRequest (fst pair) (_headers "s3cret") 30;
                                 mkRequest (snd pair) (_headers "s3cret") 60]) urls)%list.
Proof.
  destruct (passing_window_requests (Mock.runtime_of Mock.green) "acme/cli" "s3cret"
              [Mock.run 101 "success"; Mock.run 102 "success"] initial_world
              (snd (for_runs (Mock.runtime_of Mock.green) "acme/cli" "s3cret" 1
                      [Mock.run 101 "success"; Mock.run 102 "success"]
                      initial_world)))
    as (urls & Hall & Hreq).
  - eapply window_cons; [ reflexivity | reflexivity | reflexivity | ].
    eapply window_cons; [ reflexivity | reflexivity | reflexivity | ].
    apply window_nil.
  - exists urls. split; [ exact Hall | ]. rewrite Hreq. reflexivity.
Defined.

Lemma load_report_contract_witness :
  exists url listing artifacts items artifact download_url archive names
         name raw decoded,
    py_getitem (Mock.run 101 "success") "artifacts_url" = Ok url /\
    _get_json (Mock.runtime_of Mock.green) url "s3cret" initial_world
    = (Ok listing, log_request (mkRequest url (_headers "s3cret") 30) initial_world) /\
    py_get listing "artifacts" (PList []) = Ok artifacts /\
    py_iter artifacts = Ok items /\
    find_artifact items = Ok (Some artifact) /\
    py_getitem artifact "archive_download_url" = Ok download_url /\
    http_get (Mock.runtime_of Mock.green)
             (requests initial_world ++ [mkRequest url (_headers "s3cret") 30])
             (mkRequest download_url (_headers "s3cret") 60) = Ok archive /\
    zip_namelist (Mock.runtime_of Mock.green) archive = Ok names /\
    find_report_name names = Some name /\
    zip_read (Mock.runtime_of Mock.green) archive name = Ok raw /\
    decode_utf8 (Mock.runtime_of Mock.green) raw = Ok decoded /\
    json_loads (Mock.runtime_of Mock.green) decoded
    = Ok (PDict [("overall_pass", PBool true)]) /\
    requests (snd (_load_report_from_run (Mock.runtime_of Mock.green) "acme/cli"
                     (Mock.run 101 "success") "s3cret" initial_world))
    = (requests initial_world ++ [mkRequest url (_headers "s3cret") 30;
                                  mkRequest download_url (_headers "s3cret") 60])%list.
Proof.
  apply (proj2 (load_report_contract (Mock.runtime_of Mock.green) "acme/cli"
                  "s3cret" (Mock.run 101 "success") initial_world)
               (PDict [("overall_pass", PBool true)])).
  reflexivity.
Defined.

(** ** The quoted branch *)

Lemma hex_digit_injective (i j : nat) :
  (i < 16)%nat -> (j < 16)%nat -> hex_digit i = hex_digit j -> i = j.
Proof.
  intros Hi Hj.
  do 16 (destruct i as [ | i ];
         [ do 16 (destruct j as [ | j ];
                  [ first [ reflexivity | discriminate ] | ]); lia | ]).
  lia.
Qed.

Lemma nat_of_ascii_injective (a b : ascii) :
  nat_of_ascii a = nat_of_ascii b -> a = b.
Proof.
  intros H. rewrite <- (ascii_nat_embedding a), <- (ascii_nat_embedding b).
  now rewrite H.
Qed.

Lemma String_injective (c c' : ascii) (s s' : string) :
  String c s = String c' s' -> c = c' /\ s = s'.
Proof. intros H. injection H as -> ->. split; reflexivity. Qed.

Lemma percent_encode_injective (a b : ascii) :
  percent_encode a = percent_encode b -> a = b.
Proof.
  unfold percent_encode. intros H.
  apply String_injective in H. destruct H as [_ H].
  apply String_injective in H. destruct H as [Hhi H].
  apply String_injective in H. destruct H as [Hlo _].
  cbv zeta in Hhi, Hlo.
  pose proof (nat_ascii_bounded a) as Ha. pose proof (nat_ascii_bounded b) as Hb.
  apply hex_digit_injective in Hhi;
    [ | apply Nat.Div0.div_lt_upper_bound; lia
      | apply Nat.Div0.div_lt_upper_bound; lia ].
  apply hex_digit_injective in Hlo;
    [ | apply Nat.mod_upper_bound; lia | apply Nat.mod_upper_bound; lia ].
  apply nat_of_ascii_injective.
  rewrite (Nat.div_mod_eq (nat_of_ascii a) 16), (Nat.div_mod_eq (nat_of_ascii b) 16).
  now rewrite Hhi, Hlo.
Qed.

(** X16. The encoding of the branch loses nothing and cannot leak into the
    query: two branch names with the same encoding are equal, and every
    byte of an encoded name is a letter, a digit, one of [_.-~], or [%]. *)
Theorem quote_is_faithful :
  (forall a b, quote a = quote b -> a = b)
  /\ (forall s c, contains_char c (quote s) = true ->
                  always_safe c = true \/ c = "%"%char).
Proof.
  split.
  - induction a as [ | x a IH ]; intros b H.
    + destruct b as [ | y b ]; [ reflexivity | ].
      simpl in H. destruct (always_safe y); discriminate H.
    + destruct b as [ | y b ].
      * simpl in H. destruct (always_safe x); discriminate H.
      * simpl in H.
        destruct (always_safe x) eqn:Hx; destruct (always_safe y) eqn:Hy;
          simpl in H.
        -- injection H as -> H. f_equal. apply IH. exact H.
        -- injection H as -> _. discriminate Hx.
        -- injection H as <- _. discriminate Hy.
        -- unfold percent_encode in H. cbv zeta in H. simpl append in H.
           apply String_injective in H. destruct H as [_ H].
           apply String_injective in H. destruct H as [Hhi H].
           apply String_injective in H. destruct H as [Hlo Htail].
           f_equal; [ | apply IH; exact Htail ].
           apply percent_encode_injective. unfold percent_encode. cbv zeta.
           exact (f_equal2 (fun h l => String "%" (String h (String l "")))
                           Hhi Hlo).
  - intros s c H.
    destruct (always_safe c) eqn:Hc; [ left; reflexivity | right ].
    destruct (Ascii.eqb_spec c "%") as [E | Hne]; [ exact E | ].
    rewrite (quote_chars c s Hc Hne) in H. discriminate H.
Qed.

(** * Properties of the mock chat API *)

Section MockApiProperties.

Import MockApi.

Variable rt : runtime.
Variable str_of : pyval -> string.
Variable lower : string -> string.
Variable json_dumps : pyval -> string.

(** A counted request takes the next number; it is refused with the
    injected failure while the number is within [fail_first], and is
    answered or ends the handler afterwards. *)
Lemma do_POST_counted cfg req count :
  counted rt req ->
  snd (do_POST rt str_of lower json_dumps cfg req count) = count + 1 /\
  (count + 1 <= fail_first cfg ->
   fst (do_POST rt str_of lower json_dumps cfg req count)
   = Ok (transient_failure json_dumps cfg (count + 1))) /\
  (fail_first cfg < count + 1 ->
   (exists prompt,
       fst (do_POST rt str_of lower json_dumps cfg req count) =
       Ok (_json json_dumps 200 (completion (reply_content lower prompt)) []))
   \/ exists e, fst (do_POST rt str_of lower json_dumps cfg req count) = Raise e).
Proof.
  intros (Hpath & length & Hint). unfold do_POST.
  rewrite Hpath, String.eqb_refl, Hint. cbn [negb].
  destruct (Z.leb_spec (count + 1) (fail_first cfg)) as [Hle | Hgt].
  - split; [ reflexivity | ]. split; [ intros _; reflexivity | lia ].
  - split; [ | split; [ lia | intros _ ] ].
    + destruct (_extract_prompt str_of _); reflexivity.
    + destruct (_extract_prompt str_of _) as [prompt | e].
      * left. exists prompt. reflexivity.
      * right. exists e. reflexivity.
Qed.

Lemma serve_cons cfg req rest count :
  serve rt str_of lower json_dumps cfg (req :: rest) count =
  (fst (do_POST rt str_of lower json_dumps cfg req count)
     :: fst (serve rt str_of lower json_dumps cfg rest
               (snd (do_POST rt str_of lower json_dumps cfg req count))),
   snd (serve rt str_of lower json_dumps cfg rest
          (snd (do_POST rt str_of lower json_dumps cfg req count)))).
Proof.
  simpl. destruct (do_POST rt str_of lower json_dumps cfg req count) as [answer c].
  simpl. destruct (serve rt str_of lower json_dumps cfg rest c). reflexivity.
Qed.

Lemma serve_app cfg a b :
  forall count,
    serve rt str_of lower json_dumps cfg (a ++ b) count =
    ((fst (serve rt str_of lower json_dumps cfg a count)
        ++ fst (serve rt str_of lower json_dumps cfg b
                  (snd (serve rt str_of lower json_dumps cfg a count))))%list,
     snd (serve rt str_of lower json_dumps cfg b
            (snd (serve rt str_of lower json_dumps cfg a count)))).
Proof.
  induction a as [ | req a IH ]; intros count.
  - simpl. destruct (serve rt str_of lower json_dumps cfg b count). reflexivity.
  - rewrite <- app_comm_cons, !serve_cons, IH. reflexivity.
Qed.

Lemma serve_counted cfg reqs :
  Forall (counted rt) reqs ->
  forall count,
    snd (serve rt str_of lower json_dumps cfg reqs count)
    = count + Z.of_nat (List.length reqs) /\
    forall i answer,
      nth_error (fst (serve rt str_of lower json_dumps cfg reqs count)) i
      = Some answer ->
      (count + Z.of_nat i + 1 <= fail_first cfg ->
       answer = Ok (transient_failure json_dumps cfg (count + Z.of_nat i + 1))) /\
      (fail_first cfg < count + Z.of_nat i + 1 ->
       (exists prompt,
           answer = Ok (_json json_dumps 200
                          (completion (reply_content lower prompt)) []))
       \/ exists e, answer = Raise e).
Proof.
  induction 1 as [ | req rest Hreq _ IH ]; intros count.
  - split; [ simpl; lia | ]. intros [ | i ] answer H; discriminate H.
  - rewrite serve_cons.
    destruct (do_POST_counted cfg req count Hreq) as (Hcount & Hfail & Hpass).
    rewrite Hcount. destruct (IH (count + 1)) as [Hfinal Hnth].
    split.
    + cbn [snd]. rewrite Hfinal. simpl List.length. lia.
    + intros [ | i ] answer Hi; cbn [fst nth_error] in Hi.
      * injection Hi as <-. rewrite Z.add_0_r. split; assumption.
      * destruct (Hnth i answer Hi) as [H1 H2].
        replace (count + Z.of_nat (S i) + 1)
          with (count + 1 + Z.of_nat i + 1) by lia.
        split; assumption.
Qed.

End MockApiProperties.

(** X17. Fault injection: after [main] has installed [--fail-first ff],
    the requests that take a number are refused with the configured status
    exactly while their number is at most [ff], each failure carrying its
    attempt number, whatever their body; every later request is answered
    with status 200 or ends its handler, and none is refused again.  A
    negative [ff] refuses none.  The counter ends at the number of
    requests. *)
Theorem failures_come_first (rt : runtime) (str_of : pyval -> string)
    (lower : string -> string) (json_dumps : pyval -> string)
    (ff fs delay : Z) (reqs : list MockApi.post) :
  Forall (MockApi.counted rt) reqs ->
  let cfg := fst (MockApi.configure ff fs delay) in
  let start := snd (MockApi.configure ff fs delay) in
  snd (MockApi.serve rt str_of lower json_dumps cfg reqs start)
  = Z.of_nat (List.length reqs)
  /\ forall i answer,
       nth_error (fst (MockApi.serve rt str_of lower json_dumps cfg reqs start)) i
       = Some answer ->
       (Z.of_nat i < ff ->
        answer = Ok (MockApi.transient_failure json_dumps cfg (Z.of_nat i + 1)))
       /\ (ff <= Z.of_nat i ->
           (exists prompt,
               answer = Ok (MockApi._json json_dumps 200
                              (MockApi.completion (MockApi.reply_content lower prompt))
                              []))
           \/ exists e, answer = Raise e).
Proof.
  intros Hall cfg start.
  destruct (serve_counted rt str_of lower json_dumps cfg reqs Hall start)
    as [Hfinal Hnth].
  split; [ rewrite Hfinal; reflexivity | ].
  intros i answer Hi. destruct (Hnth i answer Hi) as [H1 H2].
  unfold start, cfg in *. simpl in H1, H2 |- *.
  split; intros H; [ apply H1 | apply H2 ]; lia.
Qed.

(** X18. Requests to another path are answered 404 without taking a number:
    put anywhere among other requests, such a request changes neither the
    answers to the others nor the final counter. *)
Theorem other_paths_take_no_number (rt : runtime) (str_of : pyval -> string)
    (lower : string -> string) (json_dumps : pyval -> string)
    (cfg : MockApi.settings) (before after : list MockApi.post)
    (req : MockApi.post) (count : Z) :
  MockApi.path req <> "/chat/completions" ->
  let run := MockApi.serve rt str_of lower json_dumps cfg in
  fst (run (before ++ req :: after)%list count) =
  (fst (run before count)
     ++ Ok (MockApi.not_found json_dumps)
     :: fst (run after (snd (run before count))))%list
  /\ fst (run (before ++ after)%list count) =
     (fst (run before count) ++ fst (run after (snd (run before count))))%list
  /\ snd (run (before ++ req :: after)%list count)
     = snd (run (before ++ after)%list count).
Proof.
  intros Hpath run. unfold run.
  assert (Hreq : forall c, MockApi.do_POST rt str_of lower json_dumps cfg req c
                           = (Ok (MockApi.not_found json_dumps), c)).
  { intros c. unfold MockApi.do_POST.
    destruct (String.eqb_spec (MockApi.path req) "/chat/completions") as [E | _];
      [ contradiction | reflexivity ]. }
  rewrite !serve_app, serve_cons, Hreq. repeat split.
Qed.

Lemma failures_come_first_witness :
  let rt := Mock.runtime_of MockApi.bodies in
  let str_of := fun v : pyval => match py_str v with Some s => s | None => "" end in
  let json_dumps := fun _ : pyval => "{}" in
  let reqs := [MockApi.post_of "hello"; MockApi.post_of "plan";
               MockApi.post_of "not json"] in
  let cfg := fst (MockApi.configure 2 503 0) in
  let start := snd (MockApi.configure 2 503 0) in
  snd (MockApi.serve rt str_of MockApi.lower_ascii json_dumps cfg reqs start)
  = Z.of_nat (List.length reqs)
  /\ forall i answer,
       nth_error (fst (MockApi.serve rt str_of MockApi.lower_ascii json_dumps
                         cfg reqs start)) i = Some answer ->
       (Z.of_nat i < 2 ->
        answer = Ok (MockApi.transient_failure json_dumps cfg (Z.of_nat i + 1)))
       /\ (2 <= Z.of_nat i ->
           (exists prompt,
               answer = Ok (MockApi._json json_dumps 200
                              (MockApi.completion
                                 (MockApi.reply_content MockApi.lower_ascii prompt))
                              []))
           \/ exists e, answer = Raise e).
Proof.
  intros rt str_of json_dumps reqs.
  apply (failures_come_first rt str_of MockApi.lower_ascii json_dumps 2 503 0 reqs).
  repeat constructor; eexists; reflexivity.
Defined.

Lemma other_paths_take_no_number_witness :
  let rt := Mock.runtime_of MockApi.bodies in
  let str_of := fun v : pyval => match py_str v with Some s => s | None => "" end in
  let json_dumps := fun _ : pyval => "{}" in
  let cfg := fst (MockApi.configure 1 429 0) in
  let probe := MockApi.mkPost "/health" None [] in
  let run := MockApi.serve rt str_of MockApi.lower_ascii json_dumps cfg in
  fst (run ([MockApi.post_of "hello"] ++ probe :: [MockApi.post_of "plan"])%list 0) =
  (fst (run [MockApi.post_of "hello"] 0)
     ++ Ok (MockApi.not_found json_dumps)
     :: fst (run [MockApi.post_of "plan"] (snd (run [MockApi.post_of "hello"] 0))))%list
  /\ fst (run ([MockApi.post_of "hello"] ++ [MockApi.post_of "plan"])%list 0) =
     (fst (run [MockApi.post_of "hello"] 0)
        ++ fst (run [MockApi.post_of "plan"] (snd (run [MockApi.post_of "hello"] 0))))%list
  /\ snd (run ([MockApi.post_of "hello"] ++ probe :: [MockApi.post_of "plan"])%list 0)
     = snd (run ([MockApi.post_of "hello"] ++ [MockApi.post_of "plan"])%list 0).
Proof.
  intros rt str_of json_dumps cfg probe.
  apply (other_paths_take_no_number rt str_of MockApi.lower_ascii json_dumps cfg
           [MockApi.post_of "hello"] [MockApi.post_of "plan"] probe 0).
  discriminate.
Defined.

(** The mock on three requests with [--fail-first 1 --fail-status 429]: the
    first is refused with Retry-After, the second is greeted, and the third,
    whose last user message holds the word plan in capitals, gets the
    plan. *)
Example mock_conversation :
  let rt := Mock.runtime_of MockApi.bodies in
  let str_of := fun v : pyval => match py_str v with Some s => s | None => "" end in
  let answers :=
    fst (MockApi.serve rt str_of MockApi.lower_ascii (fun _ => "{}")
           (fst (MockApi.configure 1 429 0))
           [MockApi.post_of "plan"; MockApi.post_of "hello"; MockApi.post_of "plan"]
           0) in
  map (fun a => match a with
                | Ok r => Some (MockApi.status r,
                                Mock.assoc "Retry-After" (MockApi.headers r))
                | Raise _ => None
                end) answers
  = [Some (429, Some "0"); Some (200, None); Some (200, None)]
  /\ MockApi._extract_prompt str_of
       (MockApi._safe_json rt (list_byte_of_string "plan")) = Ok "Make a PLAN"
  /\ MockApi.reply_content MockApi.lower_ascii "Make a PLAN"
     = "Generated plan: discover files, propose edits, verify with tests."
  /\ MockApi.reply_content MockApi.lower_ascii "Hello" = "Mock response: Hello".
Proof. repeat split; reflexivity. Qed.

(** ** The prompt of a request *)

Section Prompt.

Import MockApi.

Variable str_of : pyval -> string.

Lemma first_user_content_skips (skipped rest : list pyval) :
  Forall not_from_user skipped ->
  first_user_content str_of (skipped ++ rest) = first_user_content str_of rest.
Proof.
  induction 1 as [ | m skipped Hm _ IH ]; [ reflexivity | ].
  simpl. destruct m as [ | b | z | f | s | l | d ]; try exact IH.
  rewrite (Hm d eq_refl). exact IH.
Qed.

End Prompt.

(** X19. The prompt is the content of the last message from the user: when
    the message list holds an object with role "user" and a string content,
    and every message after it is passed over (not an object, or another
    role), [_extract_prompt] returns that content, whatever comes before
    it. *)
Theorem last_user_message_wins (str_of : pyval -> string)
    (payload : list (string * pyval)) (earlier later : list pyval)
    (message : list (string * pyval)) (content : string) :
  dict_lookup "messages" payload
  = Some (PList (earlier ++ PDict message :: later)) ->
  dict_lookup "role" message = Some (PStr "user") ->
  dict_lookup "content" message = Some (PStr content) ->
  Forall MockApi.not_from_user later ->
  MockApi._extract_prompt str_of (PDict payload) = Ok content.
Proof.
  intros Hmessages Hrole Hcontent Hlater.
  unfold MockApi._extract_prompt. simpl py_get. rewrite Hmessages.
  rewrite rev_app_distr. simpl rev. rewrite <- app_assoc.
  rewrite first_user_content_skips by (apply Forall_rev; exact Hlater).
  simpl. rewrite Hrole, Hcontent. reflexivity.
Qed.

Lemma last_user_message_wins_witness :
  MockApi._extract_prompt (fun _ => "")
    (PDict [("messages",
             PList ([MockApi.message "user" "first question"]
                    ++ PDict [("role", PStr "user"); ("content", PStr "second question")]
                    :: [MockApi.message "assistant" "an answer"; PStr "noise"]))])
  = Ok "second question".
Proof.
  apply (last_user_message_wins (fun _ => "") _
           [MockApi.message "user" "first question"]
           [MockApi.message "assistant" "an answer"; PStr "noise"]
           [("role", PStr "user"); ("content", PStr "second question")]).
  - reflexivity.
  - reflexivity.
  - reflexivity.
  - repeat constructor; intros d E; [ injection E as <-; reflexivity | discriminate E ].
Defined.

(** X20. Without a message from the user there is no prompt: when
    [messages] is missing, is not a list, or holds only messages that are
    passed over, [_extract_prompt] returns the empty string; and a body that
    is not an object makes it raise [AttributeError]. *)
Theorem no_user_message_no_prompt (str_of : pyval -> string) (payload : pyval) :
  match payload with
  | PDict fields =>
      (forall messages,
          dict_lookup "messages" fields = Some (PList messages) ->
          Forall MockApi.not_from_user messages) ->
      MockApi._extract_prompt str_of payload = Ok ""
  | _ => MockApi._extract_prompt str_of payload
         = Raise (AttributeError payload "get")
  end.
Proof.
  destruct payload as [ | b | z | f | s | l | fields ]; try reflexivity.
  intros Hskip. unfold MockApi._extract_prompt. simpl py_get.
  destruct (dict_lookup "messages" fields) as [[ | b | z | f | s | messages | d ] | ];
    try reflexivity.
  rewrite <- (app_nil_r (rev messages)).
  rewrite first_user_content_skips; [ reflexivity | ].
  apply Forall_rev. apply Hskip. reflexivity.
Qed.

Lemma no_user_message_no_prompt_witness :
  MockApi._extract_prompt (fun _ => "")
    (PDict [("messages", PList [MockApi.message "system" "be brief"; PInt 3])])
  = Ok "".
Proof.
  apply (no_user_message_no_prompt (fun _ => "")
           (PDict [("messages", PList [MockApi.message "system" "be brief"; PInt 3])])).
  intros messages E. injection E as <-.
  repeat constructor; intros d E; [ injection E as <-; reflexivity | discriminate E ].
Defined.

(** ** Bodies that are not a chat request *)

(** X21. A body that cannot be read as JSON is treated as an empty object:
    past the failure window, a request whose body is not UTF-8 or not JSON
    is still answered with status 200 and the reply "Mock response: ok",
    and it takes its number like any other.  ([lower] maps the empty string
    to itself.) *)
Theorem unreadable_body_gets_default_reply (rt : runtime)
    (str_of : pyval -> string) (lower : string -> string)
    (json_dumps : pyval -> string) (cfg : MockApi.settings) (req : MockApi.post)
    (count length : Z) :
  MockApi.path req = "/chat/completions" ->
  int_of_str rt (match MockApi.content_length req with
                 | Some v => v
                 | None => "0"
                 end) = Ok length ->
  MockApi.fail_first cfg < count + 1 ->
  lower "" = "" ->
  ((exists e, decode_utf8 rt (MockApi.body_read length req) = Raise e)
   \/ (exists decoded e,
         decode_utf8 rt (MockApi.body_read length req) = Ok decoded /\
         json_loads rt (match decoded with
                        | EmptyString => "{}"
                        | _ => decoded
                        end) = Raise e)) ->
  MockApi.do_POST rt str_of lower json_dumps cfg req count =
  (Ok (MockApi._json json_dumps 200 (MockApi.completion "Mock response: ok") []),
   count + 1).
Proof.
  intros Hpath Hint Hwindow Hlower Hbody.
  assert (Hjson : MockApi._safe_json rt (MockApi.body_read length req) = PDict []).
  { unfold MockApi._safe_json.
    destruct Hbody as [[e He] | (decoded & e & Hd & He)].
    - rewrite He. reflexivity.
    - rewrite Hd, He. reflexivity. }
  unfold MockApi.do_POST. rewrite Hpath, String.eqb_refl, Hint. cbn [negb].
  destruct (Z.leb_spec (count + 1) (MockApi.fail_first cfg)) as [Hle | _];
    [ lia | ].
  rewrite Hjson. unfold MockApi._extract_prompt, MockApi.reply_content.
  simpl py_get. cbn [dict_lookup]. rewrite Hlower. reflexivity.
Qed.

Lemma unreadable_body_gets_default_reply_witness :
  MockApi.do_POST (Mock.runtime_of MockApi.bodies) (fun _ => "")
    MockApi.lower_ascii (fun _ => "{}") (fst (MockApi.configure 0 503 0))
    (MockApi.post_of "not json") 7 =
  (Ok (MockApi._json (fun _ => "{}") 200 (MockApi.completion "Mock response: ok") []),
   7 + 1).
Proof.
  apply (unreadable_body_gets_default_reply (Mock.runtime_of MockApi.bodies)
           (fun _ => "") MockApi.lower_ascii (fun _ => "{}")
           (fst (MockApi.configure 0 503 0)) (MockApi.post_of "not json") 7 8).
  - reflexivity.
  - reflexivity.
  - simpl. lia.
  - reflexivity.
  - right. exists "not json", Mock.JSONDecodeError. split; reflexivity.
Defined.

(** X22. A body that is JSON but not an object is not answered: past the
    failure window the request takes its number and then [_extract_prompt]
    raises [AttributeError], which ends the handler without a response;
    within the window it is refused like any other request. *)
Theorem body_not_an_object_ends_handler (rt : runtime)
    (str_of : pyval -> string) (lower : string -> string)
    (json_dumps : pyval -> string) (cfg : MockApi.settings) (req : MockApi.post)
    (count length : Z) (value : pyval) :
  MockApi.path req = "/chat/completions" ->
  int_of_str rt (match MockApi.content_length req with
                 | Some v => v
                 | None => "0"
                 end) = Ok length ->
  MockApi._safe_json rt (MockApi.body_read length req) = value ->
  (forall d, value <> PDict d) ->
  MockApi.do_POST rt str_of lower json_dumps cfg req count =
  (if count + 1 <=? MockApi.fail_first cfg
   then Ok (MockApi.transient_failure json_dumps cfg (count + 1))
   else Raise (AttributeError value "get"),
   count + 1).
Proof.
  intros Hpath Hint Hjson Hshape.
  unfold MockApi.do_POST. rewrite Hpath, String.eqb_refl, Hint. cbn [negb].
  destruct (count + 1 <=? MockApi.fail_first cfg); [ reflexivity | ].
  rewrite Hjson. unfold MockApi._extract_prompt.
  destruct value as [ | b | z | f | s | l | d ]; try reflexivity.
  exfalso. apply (Hshape d). reflexivity.
Qed.

Lemma body_not_an_object_ends_handler_witness :
  MockApi.do_POST (Mock.runtime_of MockApi.bodies) (fun _ => "")
    MockApi.lower_ascii (fun _ => "{}") (fst (MockApi.configure 2 503 0))
    (MockApi.post_of "array") 2 =
  (if 2 + 1 <=? MockApi.fail_first (fst (MockApi.configure 2 503 0))
   then Ok (MockApi.transient_failure (fun _ => "{}")
              (fst (MockApi.configure 2 503 0)) (2 + 1))
   else Raise (AttributeError (PList [PInt 1]) "get"),
   2 + 1).
Proof.
  apply (body_not_an_object_ends_handler (Mock.runtime_of MockApi.bodies)
           (fun _ => "") MockApi.lower_ascii (fun _ => "{}")
           (fst (MockApi.configure 2 503 0)) (MockApi.post_of "array") 2 5
           (PList [PInt 1])).
  - reflexivity.
  - reflexivity.
  - reflexivity.
  - discriminate.
Defined.
